(** * crypt_agent: the order tools of [crypt_agent/tools/custom_tool.py]

    A shallow embedding of the three order-submitting tools
    ([advanced_sliced_executor], [place_market_order],
    [execute_multiple_orders]) over an abstract exchange session, and the
    properties of the order-slicing loop.

    Quantities are Python floats in the source.  They are modelled first
    under exact arithmetic, as rationals [Q], for the properties that hold
    of exact arithmetic only; the module [Machine] further down is the
    sliced executor with the float subtraction as a parameter, for the
    properties that hold in any arithmetic and for the runs on binary64.
    Exceptions are modelled by their [str()] text. *)

From Stdlib Require Import ZArith QArith Qround List String Ascii Bool Lia.
From Stdlib Require Import DecimalString Lqa.
From Stdlib Require SpecFloat.
Import ListNotations.

#[local] Set Warnings "-notation-for-abbreviation".

Local Open Scope string_scope.
Local Open Scope Q_scope.

(** ** Python values and helpers *)

(** The outcome of evaluating a Python expression or statement block:
    a value, or a raised exception (carried as [str(e)]). *)
Inductive Res (A : Type) : Type :=
| Return (a : A)
| Raise (e : string).
Arguments Return {A} a.
Arguments Raise {A} e.

(** [x < y] on floats, as a boolean. *)
Definition Qltb (x y : Q) : bool :=
  (Qnum x * QDen y <? Qnum y * QDen x)%Z.

(** Python's two-argument [min(a, b)]: [b] when [b < a], otherwise [a]. *)
Definition py_min (a b : Q) : Q :=
  if Qltb b a then b else a.

(** The newline character of ["\n".join(...)]. *)
Definition nl : string := String (ascii_of_nat 10) EmptyString.

(** [str(n)] for a non-negative Python int. *)
Definition str_int (n : nat) : string :=
  NilEmpty.string_of_uint (Nat.to_uint n).

(** A Python dict with string keys and string values, in insertion order. *)
Definition Dict : Type := list (string * string).

(** [d[k]]: the value of the first binding of [k], or [KeyError(k)], whose
    [str()] is the key between single quotes. *)
Fixpoint dict_get (d : Dict) (k : string) : Res string :=
  match d with
  | [] => Raise ("'" ++ k ++ "'")
  | (k', v) :: d' => if String.eqb k' k then Return v else dict_get d' k
  end.

(** ** The exchange gateway *)

(** The [qty] argument of [place_order]: the sliced executor passes a float,
    the other two tools pass the caller's string through. *)
Inductive Qty : Type :=
| QtyFloat (q : Q)
| QtyStr (s : string).

(** The keyword arguments of one [session.place_order] call; an argument
    that a call site does not pass is [None]. *)
Record OrderRequest : Type := mkOrderRequest {
  category : string;
  symbol : string;
  side : string;
  orderType : string;
  qty : Qty;
  takeProfit : option string;
  stopLoss : option string;
  tpTriggerBy : option string;
  slTriggerBy : option string;
  tpslMode : option string;
  timeInForce : option string
}.

(** One entry of [instruments['result']['list']].  The two lot-size fields
    hold the outcome of [float(lot_filter[...])], which raises on a missing
    key or a non-numeric text. *)
Record Instrument : Type := mkInstrument {
  status : string;
  maxOrderQty : Res Q;
  minOrderQty : Res Q
}.

(** What a tool does to the outside world, in program order.  A submission
    is recorded with what the exchange answered: the order identifier, or
    the exception the call raised. *)
Inductive Event : Type :=
| GetInstrumentsInfo (category symbol : string)
| PlaceOrder (req : OrderRequest) (reply : Res string)
| Stdout (line : string)
| Sleep (seconds : Q).

(** The order submissions of a trace, oldest first. *)
Fixpoint submissions (evs : list Event) : list OrderRequest :=
  match evs with
  | [] => []
  | PlaceOrder req _ :: evs' => req :: submissions evs'
  | _ :: evs' => submissions evs'
  end.

(** What the exchange answered to each submission, oldest first. *)
Fixpoint outcomes (evs : list Event) : list (Res string) :=
  match evs with
  | [] => []
  | PlaceOrder _ reply :: evs' => reply :: outcomes evs'
  | _ :: evs' => outcomes evs'
  end.

(** The instrument lookups of a trace, oldest first. *)
Fixpoint lookups (evs : list Event) : list (string * string) :=
  match evs with
  | [] => []
  | GetInstrumentsInfo c s :: evs' => (c, s) :: lookups evs'
  | _ :: evs' => lookups evs'
  end.

(** The float quantities submitted in a trace: the slices. *)
Fixpoint slice_qtys (reqs : list OrderRequest) : list Q :=
  match reqs with
  | [] => []
  | req :: reqs' =>
      match qty req with
      | QtyFloat q => q :: slice_qtys reqs'
      | QtyStr _ => slice_qtys reqs'
      end
  end.

(** Sum of a list of quantities. *)
Fixpoint Qsum (l : list Q) : Q :=
  match l with
  | [] => 0
  | q :: l' => q + Qsum l'
  end.

(** The three fields that [execute_multiple_orders] reads of an order. *)
Record OrderFields : Type := mkOrderFields {
  o_symbol : string;
  o_side : string;
  o_quantity : string
}.

(** The dict [order] has the three keys, with these values. *)
Definition has_fields (order : Dict) (f : OrderFields) : Prop :=
  dict_get order "symbol" = Return (o_symbol f) /\
  dict_get order "side" = Return (o_side f) /\
  dict_get order "quantity" = Return (o_quantity f).

(** The request [execute_multiple_orders] makes for one order. *)
Definition order_request (f : OrderFields) : OrderRequest :=
  mkOrderRequest "linear" (o_symbol f) (o_side f) "Market"
    (QtyStr (o_quantity f)) None None None None None None.

(** The line [execute_multiple_orders] appends for one order, according to
    what the exchange answered. *)
Definition order_line (f : OrderFields) (reply : Res string) : string :=
  match reply with
  | Return order_id =>
      "Success: " ++ o_symbol f ++ " OrderID: " ++ order_id
  | Raise e => "Failed: " ++ o_symbol f ++ " Error: " ++ e
  end.

Definition order_lines (fs : list OrderFields) (replies : list (Res string))
  : list string :=
  map (fun p => order_line (fst p) (snd p)) (combine fs replies).

Definition order_events (fs : list OrderFields) (replies : list (Res string))
  : list Event :=
  map (fun p => PlaceOrder (order_request (fst p)) (snd p))
    (combine fs replies).

Section Tools.

(** The module-level [session] object: an arbitrary stateful exchange.
    [get_instruments_info category symbol] stands for the call followed by
    the subscripting [['result']['list']]; [place_order req] for the call
    followed by [['result']['orderId']].  Either may raise. *)
Variable Session : Type.
Variable get_instruments_info :
  string -> string -> Session -> Res (list Instrument) * Session.
Variable place_order : OrderRequest -> Session -> Res string * Session.

(** [str(x)] of a float, as used by the f-strings. *)
Variable str_float : Q -> string.

(** The session together with the trace of effects so far. *)
Record World : Type := mkWorld {
  sess : Session;
  log : list Event
}.

(** Computations: a world transformer that yields a value or a raised
    exception; [None] when a loop has not finished within its fuel. *)
Definition M (A : Type) : Type := World -> option (Res A * World).

Definition ret {A} (a : A) : M A := fun w => Some (Return a, w).

Definition raise {A} (e : string) : M A := fun w => Some (Raise e, w).

Definition bind {A B} (m : M A) (k : A -> M B) : M B :=
  fun w =>
    match m w with
    | None => None
    | Some (Raise e, w') => Some (Raise e, w')
    | Some (Return a, w') => k a w'
    end.

(** [try: body / except Exception as e: handler(str(e))]. *)
Definition try_except {A} (body : M A) (handler : string -> M A) : M A :=
  fun w =>
    match body w with
    | None => None
    | Some (Raise e, w') => handler e w'
    | Some (Return a, w') => Some (Return a, w')
    end.

Definition lift {A} (r : Res A) : M A := fun w => Some (r, w).

Definition emit (ev : Event) : M unit :=
  fun w => Some (Return tt, mkWorld (sess w) (log w ++ [ev])).

Notation "x <- m ;; k" := (bind m (fun x => k))
  (at level 61, m at next level, right associativity).
Notation "m ;;; k" := (bind m (fun _ => k))
  (at level 61, right associativity).

Definition session_get_instruments_info (category symbol : string)
  : M (list Instrument) :=
  fun w =>
    let (r, s') := get_instruments_info category symbol (sess w) in
    Some (r, mkWorld s' (log w ++ [GetInstrumentsInfo category symbol])).

Definition session_place_order (req : OrderRequest) : M string :=
  fun w =>
    let (r, s') := place_order req (sess w) in
    Some (r, mkWorld s' (log w ++ [PlaceOrder req r])).

Definition time_sleep (seconds : Q) : M unit := emit (Sleep seconds).

Definition print (line : string) : M unit := emit (Stdout line).

(** ** [execute_multiple_orders] *)

(** The body of the [for order in orders] loop, with [results] threaded. *)
Fixpoint execute_multiple_orders_loop (orders : list Dict)
  (results : list string) : M (list string) :=
  match orders with
  | [] => ret results
  | order :: orders' =>
      line <- try_except
        (o_symbol <- lift (dict_get order "symbol") ;;
         o_side <- lift (dict_get order "side") ;;
         o_quantity <- lift (dict_get order "quantity") ;;
         order_id <- session_place_order
           (mkOrderRequest "linear" o_symbol o_side "Market"
              (QtyStr o_quantity) None None None None None None) ;;
         o_symbol' <- lift (dict_get order "symbol") ;;
         ret ("Success: " ++ o_symbol' ++ " OrderID: " ++ order_id))
        (fun e =>
           o_symbol <- lift (dict_get order "symbol") ;;
           ret ("Failed: " ++ o_symbol ++ " Error: " ++ e)) ;;
      execute_multiple_orders_loop orders' (results ++ [line])%list
  end.

Definition execute_multiple_orders (orders : list Dict) : M string :=
  results <- execute_multiple_orders_loop orders [] ;;
  ret (String.concat nl results).

(** ** [place_market_order] *)

Definition place_market_order (symbol side qty tp_price sl_price : string)
  (category : string) : M string :=
  try_except
    (instruments <- session_get_instruments_info "linear" symbol ;;
     match instruments with
     | [] =>
         ret ("Error: '" ++ symbol
              ++ "' is not a valid Bybit symbol for the linear category.")
     | instrument_info :: _ =>
         if negb (String.eqb (status instrument_info) "Trading") then
           ret ("Error: " ++ symbol ++ " exists but is currently "
                ++ status instrument_info ++ ".")
         else
           order_id <- session_place_order
             (mkOrderRequest category symbol side "Market" (QtyStr qty)
                (Some tp_price) (Some sl_price)
                (Some "MarkPrice") (Some "MarkPrice") (Some "Full") None) ;;
           ret ("Success! " ++ side ++ " " ++ qty ++ " " ++ symbol
                ++ ". Order ID: " ++ order_id)
     end)
    (fun e => ret ("Trade failed: " ++ e)).

(** ** [advanced_sliced_executor] *)

(** The request of one slice. *)
Definition slice_request (symbol side : string) (current_slice_qty : Q)
  (tp_price sl_price : string) : OrderRequest :=
  mkOrderRequest "linear" symbol side "Market" (QtyFloat current_slice_qty)
    (Some tp_price) (Some sl_price)
    (Some "MarkPrice") (Some "MarkPrice") (Some "Full") (Some "GTC").

(** The entry appended to [orders_executed] for one placed slice. *)
Definition slice_entry (current_slice_qty : Q) (order_id : string) : string :=
  str_float current_slice_qty ++ " units (ID: " ++ order_id ++ ")".

(** The entries of [orders_executed] for slices [qs] placed under the order
    identifiers [ids]. *)
Definition slice_entries (qs : list Q) (ids : list string) : list string :=
  map (fun p => slice_entry (fst p) (snd p)) (combine qs ids).

(** The events of one iteration that places its order: the submission, and
    the pause when something remains. *)
Definition iteration_events (symbol side tp_price sl_price : string)
  (max_order_qty remaining_qty : Q) (order_id : string) : list Event :=
  let current_slice_qty := py_min remaining_qty max_order_qty in
  PlaceOrder (slice_request symbol side current_slice_qty tp_price sl_price)
    (Return order_id)
  :: (if Qltb 0 (remaining_qty - current_slice_qty)
      then [Sleep (1 # 10)] else []).

(** [while remaining_qty > 0: ...] with the loop variables threaded; the
    loop test comes first, so fuel is only spent on iterations.  The
    subtraction is exact here; [Machine.slicing_loop], further down, is the
    loop with the subtraction of floats as a parameter. *)
Fixpoint slicing_loop (fuel : nat) (symbol side tp_price sl_price : string)
  (max_order_qty remaining_qty : Q) (orders_executed : list string)
  : M (list string) :=
  if Qltb 0 remaining_qty then
    match fuel with
    | O => fun _ => None
    | S fuel' =>
        let current_slice_qty := py_min remaining_qty max_order_qty in
        order_id <- session_place_order
          (slice_request symbol side current_slice_qty tp_price sl_price) ;;
        let orders_executed :=
          (orders_executed ++ [slice_entry current_slice_qty order_id])%list in
        let remaining_qty := remaining_qty - current_slice_qty in
        (if Qltb 0 remaining_qty then time_sleep (1 # 10) else ret tt) ;;;
        slicing_loop fuel' symbol side tp_price sl_price
          max_order_qty remaining_qty orders_executed
    end
  else ret orders_executed.

Definition advanced_sliced_executor (fuel : nat)
  (symbol side : string) (total_qty : Q) (tp_price sl_price : string)
  : M string :=
  try_except
    (instrument <- session_get_instruments_info "linear" symbol ;;
     match instrument with
     | [] => ret ("Error: " ++ symbol ++ " not found.")
     | first :: _ =>
         max_order_qty <- lift (maxOrderQty first) ;;
         min_order_qty <- lift (minOrderQty first) ;;
         if Qltb total_qty min_order_qty then
           ret ("Failed: Quantity " ++ str_float total_qty
                ++ " is below the minimum required ("
                ++ str_float min_order_qty ++ ").")
         else
           print ("Executing total " ++ side ++ " order for "
                  ++ str_float total_qty ++ " " ++ symbol
                  ++ ". Max per order: " ++ str_float max_order_qty) ;;;
           orders_executed <- slicing_loop fuel symbol side tp_price sl_price
                                max_order_qty total_qty [] ;;
           ret ("SUCCESS: Fully executed " ++ str_float total_qty ++ " "
                ++ symbol ++ " in " ++ str_int (List.length orders_executed)
                ++ " slices:" ++ nl ++ String.concat nl orders_executed)
     end)
    (fun e => ret ("CRITICAL FAILURE: " ++ e)).

(** The text the executor returns when the loop ran to its end. *)
Definition success_report (symbol : string) (total_qty : Q)
  (orders_executed : list string) : string :=
  "SUCCESS: Fully executed " ++ str_float total_qty ++ " " ++ symbol
  ++ " in " ++ str_int (List.length orders_executed) ++ " slices:" ++ nl
  ++ String.concat nl orders_executed.

(** A fuelled computation finishes with outcome [r] in world [w'] from
    fuel [n] on: [n] and any larger amount of fuel yield that result. *)
Definition finishes_from {A} (n : nat) (m : nat -> M A) (w : World)
  (r : Res A) (w' : World) : Prop :=
  forall fuel, (n <= fuel)%nat -> m fuel w = Some (r, w').

(** It finishes: from some amount of fuel on. *)
Definition finishes {A} (m : nat -> M A) (w : World) (r : Res A)
  (w' : World) : Prop :=
  exists n, finishes_from n m w r w'.

End Tools.

(** The exchange accepted the submission. *)
Definition placed (reply : Res string) : Prop :=
  exists order_id, reply = Return order_id.

Arguments mkWorld {Session} sess log.
Arguments finishes_from {Session A} n m w r w'.
Arguments finishes {Session A} m w r w'.
Arguments sess {Session} w.
Arguments log {Session} w.

(** ** A scripted exchange, for running the tools on concrete inputs *)

(** The lookup always gives [instruments_reply]; each [place_order] call
    consumes the next entry of [order_replies]. *)
Record Script : Type := mkScript {
  instruments_reply : Res (list Instrument);
  order_replies : list (Res string)
}.

Definition scripted_get_instruments_info (category symbol : string)
  (s : Script) : Res (list Instrument) * Script :=
  (instruments_reply s, s).

Definition scripted_place_order (req : OrderRequest) (s : Script)
  : Res string * Script :=
  match order_replies s with
  | [] => (Raise "connection reset", s)
  | r :: rs => (r, mkScript (instruments_reply s) rs)
  end.

(** A rendering of floats for the runs on concrete inputs: Python's [str]
    on the integral values used there ([25.0], [10.0]), a fraction
    otherwise.  It is not Python's [str] in general; the theorems take
    [str_float] as a parameter. *)
Definition show_float (q : Q) : string :=
  let n := Qnum q in
  let d := Zpos (Qden q) in
  if (n mod d =? 0)%Z then
    NilEmpty.string_of_int (Z.to_int (n / d)) ++ ".0"
  else
    NilEmpty.string_of_int (Z.to_int n) ++ "/"
    ++ NilEmpty.string_of_int (Z.to_int d).

Definition run_sliced (fuel : nat) (symbol side : string) (total_qty : Q)
  (tp_price sl_price : string) (s : Script)
  : option (Res string * World Script) :=
  advanced_sliced_executor Script scripted_get_instruments_info
    scripted_place_order show_float fuel symbol side total_qty
    tp_price sl_price (mkWorld s []).

Definition run_market (symbol side qty tp_price sl_price category : string)
  (s : Script) : option (Res string * World Script) :=
  place_market_order Script scripted_get_instruments_info
    scripted_place_order symbol side qty tp_price sl_price category
    (mkWorld s []).

Definition run_multiple (orders : list Dict) (s : Script)
  : option (Res string * World Script) :=
  execute_multiple_orders Script scripted_place_order orders (mkWorld s []).

(** An instrument that trades, with lot limits [1] and [10]. *)
Definition btc : Instrument :=
  mkInstrument "Trading" (Return 10) (Return 1).

(** The same limits on an instrument that does not trade. *)
Definition halted : Instrument :=
  mkInstrument "Closed" (Return 10) (Return 1).

(** An exchange that accepts three orders. *)
Definition accepting : Script :=
  mkScript (Return [btc]) [Return "a"; Return "b"; Return "c"].

(** An exchange whose second submission raises. *)
Definition second_fails : Script :=
  mkScript (Return [btc]) [Return "a"; Raise "boom"; Return "c"].

(** An exchange on which the instrument is halted. *)
Definition closed_market : Script :=
  mkScript (Return [halted]) [Return "a"; Return "b"; Return "c"].

(** An exchange that does not know the symbol. *)
Definition no_instrument : Script :=
  mkScript (Return []) [Return "a"].

(** Two orders for the batch operation, and their fields. *)
Definition two_orders : list Dict :=
  [[("symbol", "BTCUSDT"); ("side", "Buy"); ("quantity", "0.01")];
   [("symbol", "ETHUSDT"); ("side", "Sell"); ("quantity", "0.5")]].

Definition two_fields : list OrderFields :=
  [mkOrderFields "BTCUSDT" "Buy" "0.01";
   mkOrderFields "ETHUSDT" "Sell" "0.5"].

(** An exchange without state that accepts every order and reports a
    maximum of zero for every symbol. *)
Definition accept_all (req : OrderRequest) (s : unit) : Res string * unit :=
  (Return "ok", s).

Definition zero_maximum (category symbol : string) (s : unit)
  : Res (list Instrument) * unit :=
  (Return [mkInstrument "Trading" (Return 0) (Return 1)], s).

(** The slice request of the runs on [btc]. *)
Definition btc_slice (q : Q) : OrderRequest :=
  slice_request "BTCUSDT" "Buy" q "70000" "65000".

(** ** One order of the batch *)

(** The [try] statement in the body of the [for] loop of
    [execute_multiple_orders], for one order: the line to append. *)
Definition order_attempt (Session : Type)
  (place_order : OrderRequest -> Session -> Res string * Session)
  (order : Dict) : M Session string :=
  try_except Session
    (bind Session (lift Session (dict_get order "symbol")) (fun o_symbol =>
     bind Session (lift Session (dict_get order "side")) (fun o_side =>
     bind Session (lift Session (dict_get order "quantity")) (fun o_quantity =>
     bind Session
       (session_place_order Session place_order
          (mkOrderRequest "linear" o_symbol o_side "Market"
             (QtyStr o_quantity) None None None None None None))
       (fun order_id =>
     bind Session (lift Session (dict_get order "symbol")) (fun o_symbol' =>
     ret Session
       ("Success: " ++ o_symbol' ++ " OrderID: " ++ order_id)))))))
    (fun e =>
       bind Session (lift Session (dict_get order "symbol")) (fun o_symbol =>
       ret Session ("Failed: " ++ o_symbol ++ " Error: " ++ e))).

(** ** Traces of the slicing loop *)

(** The pauses of a trace, oldest first. *)
Fixpoint sleeps (evs : list Event) : list Q :=
  match evs with
  | [] => []
  | Sleep seconds :: evs' => seconds :: sleeps evs'
  | _ :: evs' => sleeps evs'
  end.

(** The events of slices of the maximum that were accepted under [ids] with
    more remaining: each submission, then the pause. *)
Definition paused_slices (symbol side tp_price sl_price : string)
  (max_order_qty : Q) (ids : list string) : list Event :=
  flat_map
    (fun order_id =>
       [PlaceOrder
          (slice_request symbol side max_order_qty tp_price sl_price)
          (Return order_id);
        Sleep (1 # 10)])
    ids.

(** ** The query tools *)

#[local] Set Warnings "-register-all".

(** A response of the exchange, as the JSON it was decoded from: text, list,
    object, or any other value (number, [None], ...) carried by its
    [str()]. *)
Inductive PyVal : Type :=
| PStr (s : string)
| PList (items : list PyVal)
| PDict (entries : list (string * PyVal))
| PAtom (text : string).

(** [d[k]] on the entries of a dict: the first binding, or [KeyError(k)]. *)
Fixpoint entries_get (d : list (string * PyVal)) (k : string) : Res PyVal :=
  match d with
  | [] => Raise ("'" ++ k ++ "'")
  | (k', v) :: d' => if String.eqb k' k then Return v else entries_get d' k
  end.

Section Queries.

Variable Session : Type.

(** The calls of the [session] object that the query tools make, each
    giving the decoded response or raising. *)
Variable get_wallet_balance :
  string -> string -> Session -> Res PyVal * Session.
Variable get_tickers : string -> string -> Session -> Res PyVal * Session.
Variable request_demo_trading_funds : Session -> Res PyVal * Session.

(** The text of the [TypeError] that subscripting a value of this kind
    raises, and the [str()] of a list or dict: both are the interpreter's. *)
Variable type_error_text : PyVal -> string.
Variable container_text : PyVal -> string.

(** [str(v)], as an f-string renders [v]. *)
Definition py_str (v : PyVal) : string :=
  match v with
  | PStr s => s
  | PAtom text => text
  | _ => container_text v
  end.

(** [v[k]] for a string key [k]. *)
Definition subscript_key (v : PyVal) (k : string) : Res PyVal :=
  match v with
  | PDict d => entries_get d k
  | _ => Raise (type_error_text v)
  end.

(** [v[0]]. *)
Definition subscript_first (v : PyVal) : Res PyVal :=
  match v with
  | PList [] => Raise "list index out of range"
  | PList (x :: _) => Return x
  | PDict _ => Raise "0"
  | PStr EmptyString => Raise "string index out of range"
  | PStr (String c _) => Return (PStr (String c EmptyString))
  | PAtom _ => Raise (type_error_text v)
  end.

(** Calls on the session: a value or a raised exception, and the session
    afterwards. *)
Definition Call (A : Type) : Type := Session -> Res A * Session.

Definition call_ret {A} (a : A) : Call A := fun s => (Return a, s).

Definition call_lift {A} (r : Res A) : Call A := fun s => (r, s).

Definition call_bind {A B} (m : Call A) (k : A -> Call B) : Call B :=
  fun s =>
    match m s with
    | (Return a, s') => k a s'
    | (Raise e, s') => (Raise e, s')
    end.

(** [try: body / except Exception as e: handler(str(e))]. *)
Definition call_try {A} (body : Call A) (handler : string -> Call A)
  : Call A :=
  fun s =>
    match body s with
    | (Return a, s') => (Return a, s')
    | (Raise e, s') => handler e s'
    end.

Notation "x <- m ;; k" := (call_bind m (fun x => k))
  (at level 61, m at next level, right associativity).

Definition request_demo_funds : Call string :=
  call_try
    (response <- request_demo_trading_funds ;;
     result <- call_lift (subscript_key response "result") ;;
     call_ret ("Demo Trading Funds Response: " ++ py_str result))
    (fun e => call_ret ("Error requesting demo funds: " ++ e)).

Definition check_wallet_balance (coin : string) : Call string :=
  call_try
    (response <- get_wallet_balance "UNIFIED" coin ;;
     result <- call_lift (subscript_key response "result") ;;
     accounts <- call_lift (subscript_key result "list") ;;
     account <- call_lift (subscript_first accounts) ;;
     coins <- call_lift (subscript_key account "coin") ;;
     data <- call_lift (subscript_first coins) ;;
     balance <- call_lift (subscript_key data "walletBalance") ;;
     call_ret ("Current " ++ coin ++ " Balance: " ++ py_str balance))
    (fun e => call_ret ("Error fetching balance: " ++ e)).

Definition fetch_ticker_price (symbol category : string) : Call string :=
  call_try
    (response <- get_tickers category symbol ;;
     result <- call_lift (subscript_key response "result") ;;
     tickers <- call_lift (subscript_key result "list") ;;
     ticker <- call_lift (subscript_first tickers) ;;
     price <- call_lift (subscript_key ticker "lastPrice") ;;
     call_ret ("Current price of " ++ symbol ++ ": " ++ py_str price))
    (fun e => call_ret ("Error: " ++ e)).

End Queries.

(** ** The technical indicators *)

(** A float that need not be a number: the quotients of the RSI can be
    infinite or undefined.  Numbers are exact rationals; there is no signed
    zero. *)
Inductive Float : Type :=
| Fin (q : Q)
| PosInf
| NegInf
| NaN.

Definition fneg (x : Float) : Float :=
  match x with
  | Fin q => Fin (- q)
  | PosInf => NegInf
  | NegInf => PosInf
  | NaN => NaN
  end.

Definition fadd (x y : Float) : Float :=
  match x, y with
  | NaN, _ | _, NaN => NaN
  | PosInf, NegInf | NegInf, PosInf => NaN
  | PosInf, _ | _, PosInf => PosInf
  | NegInf, _ | _, NegInf => NegInf
  | Fin a, Fin b => Fin (a + b)
  end.

Definition fsub (x y : Float) : Float := fadd x (fneg y).

(** Division as pandas does it on float columns: a division by zero gives
    an infinity, or [NaN] for [0 / 0]; it never raises. *)
Definition fdiv (x y : Float) : Float :=
  match x, y with
  | NaN, _ | _, NaN => NaN
  | Fin a, Fin b =>
      if Qeq_bool b 0 then
        if Qltb 0 a then PosInf else if Qltb a 0 then NegInf else NaN
      else Fin (a / b)
  | Fin _, _ => Fin 0
  | PosInf, Fin b => if Qltb b 0 then NegInf else PosInf
  | NegInf, Fin b => if Qltb b 0 then PosInf else NegInf
  | _, _ => NaN
  end.

(** A cell that is a number or [NaN]. *)
Definition of_cell (c : option Q) : Float :=
  match c with
  | Some q => Fin q
  | None => NaN
  end.

(** Rounding to the nearest integer, ties to the even one. *)
Definition round_half_even (x : Q) : Z :=
  let f := Qfloor x in
  let r := x - inject_Z f in
  if Qltb r (1 # 2) then f
  else if Qltb (1 # 2) r then (f + 1)%Z
  else if Z.even f then f else (f + 1)%Z.

(** [round(x, ndigits)] on a number, under exact arithmetic: half to even
    on the rational.  Python rounds the binary float, so the two can differ
    where the decimal text of the number is an exact tie. *)
Definition py_round (x : Q) (ndigits : nat) : Q :=
  inject_Z (round_half_even (x * inject_Z (10 ^ Z.of_nat ndigits)))
  / inject_Z (10 ^ Z.of_nat ndigits).

(** [round(x, ndigits)] on a float: [NaN] and the infinities stay. *)
Definition fround (x : Float) (ndigits : nat) : Float :=
  match x with
  | Fin q => Fin (py_round q ndigits)
  | other => other
  end.

(** One row of [kline_data['result']['list']]: start time, open, high, low,
    close, volume, turnover.  The close holds the outcome of
    [pd.to_numeric] on that cell: [Return q] for a text that pandas parses
    to the finite number [q], [Raise e] for a text it rejects with the
    exception [e].  A cell that pandas reads as NaN or as an infinity (an
    empty text, [None], the texts of NaN and of the infinities) is not an
    error for it and is outside this model. *)
Record Candle : Type := mkCandle {
  k_timestamp : string;
  k_open : string;
  k_high : string;
  k_low : string;
  k_close : Res Q;
  k_volume : string;
  k_turnover : string
}.

(** [pd.to_numeric] on a column: all the numbers, or the exception of the
    first cell that pandas rejects. *)
Fixpoint to_numeric (column : list (Res Q)) : Res (list Q) :=
  match column with
  | [] => Return []
  | Raise e :: _ => Raise e
  | Return q :: column' =>
      match to_numeric column' with
      | Return qs => Return (q :: qs)
      | Raise e => Raise e
      end
  end.

(** [column.diff()]: [NaN] first, then each value minus the one before. *)
Fixpoint diff_from (previous : Q) (column : list Q) : list (option Q) :=
  match column with
  | [] => []
  | x :: column' => Some (x - previous) :: diff_from x column'
  end.

Definition diff (column : list Q) : list (option Q) :=
  match column with
  | [] => []
  | x :: column' => None :: diff_from x column'
  end.

(** [column.where(cond, other)]: the value where [cond] holds, [other]
    elsewhere; a comparison with [NaN] does not hold. *)
Definition where_ (cond : Q -> bool) (other : Q) (column : list (option Q))
  : list Q :=
  map (fun cell =>
         match cell with
         | Some q => if cond q then q else other
         | None => other
         end)
    column.

(** The mean of the last [window] values of the rows so far, [NaN] while
    there are fewer. *)
Definition window_mean (window : nat) (so_far : list Q) : option Q :=
  if (List.length so_far <? window)%nat then None
  else Some (Qsum (skipn (List.length so_far - window) so_far)
             / inject_Z (Z.of_nat window)).

(** [column.rolling(window=window).mean()]. *)
Definition rolling_mean (window : nat) (column : list Q) : list (option Q) :=
  map (fun i => window_mean window (firstn (S i) column))
    (seq 0 (List.length column)).

(** [column.ewm(span=span, adjust=False).mean()]: the first value, then
    [(1 - alpha) * previous + alpha * value] with [alpha = 2 / (span + 1)]. *)
Fixpoint ewm_from (alpha previous : Q) (column : list Q) : list Q :=
  match column with
  | [] => []
  | x :: column' =>
      let y := (1 - alpha) * previous + alpha * x in
      y :: ewm_from alpha y column'
  end.

Definition ewm_mean (span : Z) (column : list Q) : list Q :=
  match column with
  | [] => []
  | x :: column' => x :: ewm_from (2 / (inject_Z span + 1)) x column'
  end.

(** An operation on two columns, row by row. *)
Fixpoint map2 {A B C} (f : A -> B -> C) (xs : list A) (ys : list B)
  : list C :=
  match xs, ys with
  | x :: xs', y :: ys' => f x y :: map2 f xs' ys'
  | _, _ => []
  end.

(** The columns the function adds to the frame, from the closes in time
    order. *)
Definition gain_column (close : list Q) : list (option Q) :=
  rolling_mean 14 (where_ (fun d => Qltb 0 d) 0 (diff close)).

Definition loss_column (close : list Q) : list (option Q) :=
  rolling_mean 14 (map Qopp (where_ (fun d => Qltb d 0) 0 (diff close))).

(** [100 - (100 / (1 + rs))]. *)
Definition rsi_of (rs : Float) : Float :=
  fsub (Fin 100) (fdiv (Fin 100) (fadd (Fin 1) rs)).

Definition rsi_column (close : list Q) : list Float :=
  map rsi_of
    (map2 (fun gain loss => fdiv (of_cell gain) (of_cell loss))
       (gain_column close) (loss_column close)).

Definition macd_column (close : list Q) : list Q :=
  map2 Qminus (ewm_mean 12 close) (ewm_mean 26 close).

Definition signal_column (close : list Q) : list Q :=
  ewm_mean 9 (macd_column close).

Definition histogram_column (close : list Q) : list Q :=
  map2 Qminus (macd_column close) (signal_column close).

(** The dict the function returns: the indicators of the latest row, or the
    error. *)
Inductive Indicators : Type :=
| IndicatorsSuccess (symbol : string) (current_price : Q) (rsi : Float)
    (macd_value macd_signal macd_histogram : Q)
| IndicatorsError (message : string).

Section Indicators.

Variable Session : Type.

(** [session.get_kline(category, symbol, interval, limit)] followed by the
    subscripting [['result']['list']] and the construction of the frame:
    the rows, newest first, or an exception. *)
Variable get_kline :
  string -> string -> string -> Z -> Session -> Res (list Candle) * Session.

(** The text of the exception pandas raises for the last row of a frame
    that has no row. *)
Variable no_row_text : string.

(** [column.iloc[-1]]. *)
Definition iloc_last {A} (column : list A) : Res A :=
  match rev column with
  | [] => Raise no_row_text
  | x :: _ => Return x
  end.

Notation "x <- m ;; k" := (call_bind Session m (fun x => k))
  (at level 61, m at next level, right associativity).

Definition calculate_technical_indicators (symbol : string)
  : Call Session Indicators :=
  call_try Session
    (raw_list <- get_kline "linear" symbol "15" 100 ;;
     numeric <- call_lift Session (to_numeric (map k_close raw_list)) ;;
     let close := rev numeric in
     current_price <- call_lift Session (iloc_last close) ;;
     rsi <- call_lift Session (iloc_last (rsi_column close)) ;;
     macd <- call_lift Session (iloc_last (macd_column close)) ;;
     signal <- call_lift Session (iloc_last (signal_column close)) ;;
     histogram <- call_lift Session (iloc_last (histogram_column close)) ;;
     call_ret Session
       (IndicatorsSuccess symbol current_price (fround rsi 2)
          (py_round macd 4) (py_round signal 4) (py_round histogram 4)))
    (fun e => call_ret Session (IndicatorsError e)).

End Indicators.

(** Closes in time order that each lie above the one before. *)
Fixpoint rising_from (previous : Q) (column : list Q) : Prop :=
  match column with
  | [] => True
  | x :: column' => previous < x /\ rising_from x column'
  end.

Definition rising (column : list Q) : Prop :=
  match column with
  | [] => True
  | x :: column' => rising_from x column'
  end.

(** Closes in time order that each lie below the one before. *)
Fixpoint falling_from (previous : Q) (column : list Q) : Prop :=
  match column with
  | [] => True
  | x :: column' => x < previous /\ falling_from x column'
  end.

Definition falling (column : list Q) : Prop :=
  match column with
  | [] => True
  | x :: column' => falling_from x column'
  end.

(** A response whose closes, newest first, are [closes]. *)
Definition candles (closes : list Q) : list Candle :=
  map (fun c => mkCandle "0" "0" "0" "0" (Return c) "0" "0") closes.

(** ** Concrete exchanges for the further properties *)

(** An exchange whose instrument lookup raises. *)
Definition unreachable : Script := mkScript (Raise "timed out") [Return "a"].

(** An exchange that reports a maximum of zero, accepts one such order and
    rejects the next. *)
Definition zero_limit : Script :=
  mkScript (Return [mkInstrument "Trading" (Return 0) (Return 1)])
    [Return "a"; Raise "qty invalid"].

(** The two orders of [two_orders], one by one. *)
Definition btc_order : Dict :=
  [("symbol", "BTCUSDT"); ("side", "Buy"); ("quantity", "0.01")].

Definition eth_order : Dict :=
  [("symbol", "ETHUSDT"); ("side", "Sell"); ("quantity", "0.5")].

(** An order without a symbol, and one without a side. *)
Definition no_symbol_order : Dict := [("side", "Buy"); ("quantity", "1")].

Definition no_side_order : Dict := [("symbol", "SOLUSDT"); ("quantity", "1")].

(** An exchange without state that answers every query with [response]. *)
Definition answer (response : Res PyVal) (s : unit) : Res PyVal * unit :=
  (response, s).

Definition subscript_error (v : PyVal) : string := "object is not subscriptable".

Definition show_container (v : PyVal) : string := "{...}".

(** A wallet response with one account that holds two coin entries, and
    one whose account list is empty. *)
Definition wallet_response : PyVal :=
  PDict [("retCode", PAtom "0");
         ("result",
          PDict [("list",
                  PList [PDict [("accountType", PStr "UNIFIED");
                                ("coin",
                                 PList [PDict [("coin", PStr "USDT");
                                               ("walletBalance",
                                                PStr "1000.5")];
                                        PDict [("coin", PStr "BTC");
                                               ("walletBalance",
                                                PStr "2")]])]])])].

Definition empty_wallet_response : PyVal :=
  PDict [("result", PDict [("list", PList [])])].

(** A ticker response with one ticker. *)
Definition ticker_response : PyVal :=
  PDict [("result",
          PDict [("category", PStr "linear");
                 ("list",
                  PList [PDict [("symbol", PStr "BTCUSDT");
                                ("lastPrice", PStr "64000.1")]])])].

(** An exchange without state whose kline call gives [rows]. *)
Definition klines (rows : Res (list Candle))
  (category symbol interval : string) (limit : Z) (s : unit)
  : Res (list Candle) * unit :=
  (rows, s).

(** The whole numbers from [n] down to 1, and from 1 up to [n]. *)
Definition count_down (n : nat) : list Q :=
  map (fun k => inject_Z (Z.of_nat k)) (rev (seq 1 n)).

Definition count_up (n : nat) : list Q :=
  map (fun k => inject_Z (Z.of_nat k)) (seq 1 n).

(** * The sliced executor on machine floats *)

(** The definitions above read [remaining_qty -= current_slice_qty] as the
    subtraction of rationals.  The source computes on binary64 floats,
    where that subtraction rounds, so the loop can take more iterations
    than [ceil(total / maximum)] or never end.  The module below is the same
    function with the subtraction as a parameter [minus]; a finite float is
    identified with the rational it denotes, on which the comparisons
    [remaining_qty > 0], [total_qty < min_order_qty] and [min] are exact.
    Infinities and NaN are outside this model. *)

(** ** binary64 *)

Definition binary64_prec : Z := 53.
Definition binary64_emax : Z := 1024.

(** The float of a whole number. *)
Definition float_of_Z (z : Z) : SpecFloat.spec_float :=
  SpecFloat.binary_normalize binary64_prec binary64_emax z 0 false.

(** The float nearest to the rational [n / d], as the correctly rounded
    quotient of the floats of [n] and [d]: the float of a decimal literal
    of up to fifteen digits, and the float itself on the value of a float
    (a numerator below [2 ^ 53] over a power of two below [2 ^ 1024]). *)
Definition to_float (q : Q) : SpecFloat.spec_float :=
  SpecFloat.SFdiv binary64_prec binary64_emax
    (float_of_Z (Qnum q)) (float_of_Z (Zpos (Qden q))).

(** The rational a finite float denotes, in lowest terms. *)
Definition float_value (x : SpecFloat.spec_float) : Q :=
  match x with
  | SpecFloat.S754_finite s m e =>
      let n := if s then Zneg m else Zpos m in
      Qred match e with
           | Zneg p => n # (2 ^ p)
           | _ => inject_Z (n * 2 ^ e)
           end
  | _ => 0
  end.

(** The value of the float a literal denotes. *)
Definition binary64 (q : Q) : Q := float_value (to_float q).

(** [x - y] on binary64 floats, rounded to nearest, ties to even. *)
Definition binary64_minus (x y : Q) : Q :=
  float_value
    (SpecFloat.SFsub binary64_prec binary64_emax (to_float x) (to_float y)).

(** ** The executor *)

Module Machine.

Section Executor.

Variable Session : Type.
Variable get_instruments_info :
  string -> string -> Session -> Res (list Instrument) * Session.
Variable place_order : OrderRequest -> Session -> Res string * Session.
Variable str_float : Q -> string.

(** [x - y] on floats. *)
Variable minus : Q -> Q -> Q.

(** Computations that always yield the world they reached: a value or a
    raised exception, or [None] for a loop that is still running when its
    fuel is spent, with the trace of the iterations made so far. *)
Definition M (A : Type) : Type :=
  World Session -> option (Res A) * World Session.

Definition ret {A} (a : A) : M A := fun w => (Some (Return a), w).

Definition bind {A B} (m : M A) (k : A -> M B) : M B :=
  fun w =>
    match m w with
    | (None, w') => (None, w')
    | (Some (Raise e), w') => (Some (Raise e), w')
    | (Some (Return a), w') => k a w'
    end.

(** [try: body / except Exception as e: handler(str(e))]. *)
Definition try_except {A} (body : M A) (handler : string -> M A) : M A :=
  fun w =>
    match body w with
    | (None, w') => (None, w')
    | (Some (Raise e), w') => handler e w'
    | (Some (Return a), w') => (Some (Return a), w')
    end.

Definition lift {A} (r : Res A) : M A := fun w => (Some r, w).

Definition emit (ev : Event) : M unit :=
  fun w => (Some (Return tt), mkWorld (sess w) (log w ++ [ev])).

Notation "x <- m ;; k" := (bind m (fun x => k))
  (at level 61, m at next level, right associativity).
Notation "m ;;; k" := (bind m (fun _ => k))
  (at level 61, right associativity).

Definition session_get_instruments_info (category symbol : string)
  : M (list Instrument) :=
  fun w =>
    let (r, s') := get_instruments_info category symbol (sess w) in
    (Some r, mkWorld s' (log w ++ [GetInstrumentsInfo category symbol])).

Definition session_place_order (req : OrderRequest) : M string :=
  fun w =>
    let (r, s') := place_order req (sess w) in
    (Some r, mkWorld s' (log w ++ [PlaceOrder req r])).

Definition time_sleep (seconds : Q) : M unit := emit (Sleep seconds).

Definition print (line : string) : M unit := emit (Stdout line).

(** [while remaining_qty > 0: ...] with the loop variables threaded; the
    loop test comes first, so fuel is only spent on iterations. *)
Fixpoint slicing_loop (fuel : nat) (symbol side tp_price sl_price : string)
  (max_order_qty remaining_qty : Q) (orders_executed : list string)
  : M (list string) :=
  if Qltb 0 remaining_qty then
    match fuel with
    | O => fun w => (None, w)
    | S fuel' =>
        let current_slice_qty := py_min remaining_qty max_order_qty in
        order_id <- session_place_order
          (slice_request symbol side current_slice_qty tp_price sl_price) ;;
        let orders_executed :=
          (orders_executed
           ++ [slice_entry str_float current_slice_qty order_id])%list in
        let remaining_qty := minus remaining_qty current_slice_qty in
        (if Qltb 0 remaining_qty then time_sleep (1 # 10) else ret tt) ;;;
        slicing_loop fuel' symbol side tp_price sl_price
          max_order_qty remaining_qty orders_executed
    end
  else ret orders_executed.

Definition advanced_sliced_executor (fuel : nat)
  (symbol side : string) (total_qty : Q) (tp_price sl_price : string)
  : M string :=
  try_except
    (instrument <- session_get_instruments_info "linear" symbol ;;
     match instrument with
     | [] => ret ("Error: " ++ symbol ++ " not found.")
     | first :: _ =>
         max_order_qty <- lift (maxOrderQty first) ;;
         min_order_qty <- lift (minOrderQty first) ;;
         if Qltb total_qty min_order_qty then
           ret ("Failed: Quantity " ++ str_float total_qty
                ++ " is below the minimum required ("
                ++ str_float min_order_qty ++ ").")
         else
           print ("Executing total " ++ side ++ " order for "
                  ++ str_float total_qty ++ " " ++ symbol
                  ++ ". Max per order: " ++ str_float max_order_qty) ;;;
           orders_executed <- slicing_loop fuel symbol side tp_price sl_price
                                max_order_qty total_qty [] ;;
           ret ("SUCCESS: Fully executed " ++ str_float total_qty ++ " "
                ++ symbol ++ " in " ++ str_int (List.length orders_executed)
                ++ " slices:" ++ nl ++ String.concat nl orders_executed)
     end)
    (fun e => ret ("CRITICAL FAILURE: " ++ e)).

End Executor.

End Machine.

(** ** Traces of the machine loop *)

(** A quantity the loop can submit under the maximum [max_order_qty]: the
    [min] of a positive remainder and the maximum. *)
Definition slice_of (max_order_qty q : Q) : Prop :=
  exists remaining_qty,
    0 < remaining_qty /\ q = py_min remaining_qty max_order_qty.

(** The events of slices that were accepted with more remaining, given
    with their order identifiers: each submission, then the pause. *)
Definition paused_orders (symbol side tp_price sl_price : string)
  (filled : list (Q * string)) : list Event :=
  flat_map
    (fun p =>
       [PlaceOrder (slice_request symbol side (fst p) tp_price sl_price)
          (Return (snd p));
        Sleep (1 # 10)])
    filled.

(** The entries of [orders_executed] for those slices. *)
Definition filled_entries (str_float : Q -> string)
  (filled : list (Q * string)) : list string :=
  map (fun p => slice_entry str_float (fst p) (snd p)) filled.

(** ** Concrete runs on binary64 *)

Definition run_binary64 (fuel : nat) (symbol side : string) (total_qty : Q)
  (tp_price sl_price : string) (s : Script)
  : option (Res string) * World Script :=
  Machine.advanced_sliced_executor Script scripted_get_instruments_info
    scripted_place_order show_float binary64_minus fuel symbol side total_qty
    tp_price sl_price (mkWorld s []).

(** An exchange with lot limits [0.01] and [0.1] that accepts nine
    orders. *)
Definition tenth_lots : Script :=
  mkScript
    (Return [mkInstrument "Trading" (Return (binary64 (1 # 10)))
               (Return (binary64 (1 # 100)))])
    [Return "a"; Return "b"; Return "c"; Return "d"; Return "e";
     Return "f"; Return "g"; Return "h"; Return "i"].

(** An exchange without state that reports lot limits of one unit for
    every symbol (and accepts every order, with [accept_all]). *)
Definition unit_lots (category symbol : string) (s : unit)
  : Res (list Instrument) * unit :=
  (Return [mkInstrument "Trading" (Return 1) (Return 1)], s).

(** * Properties *)

(** ** Arithmetic of the loop test and of [min] *)

Lemma Qltb_lt (x y : Q) : Qltb x y = true <-> x < y.
Proof. unfold Qltb, Qlt. apply Z.ltb_lt. Qed.

Lemma Qltb_ge (x y : Q) : Qltb x y = false <-> y <= x.
Proof. unfold Qltb, Qle. apply Z.ltb_ge. Qed.

Lemma py_min_gt (a b : Q) : b < a -> py_min a b = b.
Proof. intro H. unfold py_min. apply Qltb_lt in H. now rewrite H. Qed.

Lemma py_min_le (a b : Q) : a <= b -> py_min a b = a.
Proof. intro H. unfold py_min. apply Qltb_ge in H. now rewrite H. Qed.

Lemma py_min_bounds (a b : Q) :
  0 < a -> 0 < b -> 0 < py_min a b /\ py_min a b <= b /\ py_min a b <= a.
Proof.
  intros Ha Hb. destruct (Qlt_le_dec b a) as [H | H].
  - rewrite (py_min_gt _ _ H). repeat split; auto using Qle_refl, Qlt_le_weak.
  - rewrite (py_min_le _ _ H). repeat split; auto using Qle_refl.
Qed.

(** The ceiling is the only integer [n] with [n - 1 < x <= n]. *)
Lemma Qceiling_unique (x : Q) (n : Z) :
  inject_Z (n - 1) < x -> x <= inject_Z n -> Qceiling x = n.
Proof.
  intros Hlo Hhi.
  pose proof (Qle_ceiling x) as Hc.
  pose proof (Qceiling_lt x) as Hl.
  assert (H1 : (n - 1 < Qceiling x)%Z).
  { rewrite Zlt_Qlt. eapply Qlt_le_trans; eauto. }
  assert (H2 : (Qceiling x - 1 < n)%Z).
  { rewrite Zlt_Qlt. eapply Qlt_le_trans; eauto. }
  lia.
Qed.

(** The fuel that the slicing loop is given for [total / maximum]. *)
Lemma ceiling_fuel_bound (total maximum : Q) :
  0 < maximum ->
  total <= inject_Z (Z.of_nat (Z.to_nat (Qceiling (total / maximum)))) * maximum.
Proof.
  intro Hmax.
  assert (Hdiv : total == total / maximum * maximum).
  { field. intro H. rewrite H in Hmax. now apply Qlt_irrefl in Hmax. }
  pose proof (Qle_ceiling (total / maximum)) as Hc.
  destruct (Z.le_gt_cases 0 (Qceiling (total / maximum))) as [Hpos | Hneg].
  - rewrite Z2Nat.id by assumption. rewrite Hdiv at 1.
    apply Qmult_le_compat_r; [assumption | now apply Qlt_le_weak].
  - assert (Hc0 : inject_Z (Qceiling (total / maximum)) < 0).
    { change 0 with (inject_Z 0). rewrite <- Zlt_Qlt. lia. }
    replace (Z.to_nat (Qceiling (total / maximum))) with O by lia.
    change (inject_Z (Z.of_nat 0)) with 0.
    assert (Hq : total / maximum < 0) by (eapply Qle_lt_trans; eauto).
    assert (Hm : total / maximum * maximum <= 0 * maximum).
    { apply Qmult_le_compat_r; [now apply Qlt_le_weak | now apply Qlt_le_weak]. }
    lra.
Qed.

(** [k] full slices and a last one in [(0, maximum]] make [k + 1] the
    ceiling of [total / maximum]. *)
Lemma ceiling_of_slices (total maximum last : Q) (k : nat) :
  0 < maximum -> 0 < last -> last <= maximum ->
  inject_Z (Z.of_nat k) * maximum + last == total ->
  Qceiling (total / maximum) = Z.of_nat (S k).
Proof.
  intros Hmax Hl0 Hlmax Hsum.
  apply Qceiling_unique.
  - replace (Z.of_nat (S k) - 1)%Z with (Z.of_nat k) by lia.
    apply Qlt_shift_div_l; [assumption | lra].
  - apply Qle_shift_div_r; [assumption |].
    rewrite Nat2Z.inj_succ. unfold Z.succ. rewrite inject_Z_plus.
    change (inject_Z 1) with 1. lra.
Qed.

(** A non-positive total has a non-positive ceiling. *)
Lemma ceiling_nonpositive (total maximum : Q) :
  0 < maximum -> total <= 0 -> (Qceiling (total / maximum) <= 0)%Z.
Proof.
  intros Hmax Hle.
  change 0%Z with (Qceiling 0).
  apply Qceiling_resp_le.
  apply Qle_shift_div_r; [assumption | lra].
Qed.

(** ** Traces *)

Lemma submissions_app (l1 l2 : list Event) :
  submissions (l1 ++ l2) = (submissions l1 ++ submissions l2)%list.
Proof.
  induction l1 as [| ev l1 IH]; simpl; [reflexivity |].
  destruct ev; simpl; now rewrite IH.
Qed.

Lemma lookups_app (l1 l2 : list Event) :
  lookups (l1 ++ l2) = (lookups l1 ++ lookups l2)%list.
Proof.
  induction l1 as [| ev l1 IH]; simpl; [reflexivity |].
  destruct ev; simpl; now rewrite IH.
Qed.

Lemma outcomes_app (l1 l2 : list Event) :
  outcomes (l1 ++ l2) = (outcomes l1 ++ outcomes l2)%list.
Proof.
  induction l1 as [| ev l1 IH]; simpl; [reflexivity |].
  destruct ev; simpl; now rewrite IH.
Qed.

Lemma slice_qtys_app (l1 l2 : list OrderRequest) :
  slice_qtys (l1 ++ l2) = (slice_qtys l1 ++ slice_qtys l2)%list.
Proof.
  induction l1 as [| r l1 IH]; simpl; [reflexivity |].
  destruct (qty r); simpl; now rewrite IH.
Qed.

Lemma slice_qtys_requests (symbol side tp_price sl_price : string)
  (qs : list Q) :
  slice_qtys
    (map (fun q => slice_request symbol side q tp_price sl_price) qs) = qs.
Proof. induction qs as [| q qs IH]; simpl; now rewrite ?IH. Qed.

Lemma Qsum_app (l1 l2 : list Q) : Qsum (l1 ++ l2) == Qsum l1 + Qsum l2.
Proof.
  induction l1 as [| q l1 IH]; simpl.
  - now rewrite Qplus_0_l.
  - rewrite IH. apply Qplus_assoc.
Qed.



Lemma placed_all_but_raise (ids : list string) (e : string) :
  ~ Forall placed (map Return ids ++ [Raise e]).
Proof.
  intro H. apply Forall_app in H. destruct H as [_ H].
  inversion H as [| ? ? [order_id Hid] _]. discriminate Hid.
Qed.

Lemma slices_in_bounds (maximum last : Q) (k : nat) :
  0 < maximum -> 0 < last -> last <= maximum ->
  Forall (fun q => 0 < q /\ q <= maximum) (repeat maximum k ++ [last]).
Proof.
  intros Hmax Hl0 Hlmax. apply Forall_app. split.
  - apply Forall_forall. intros q Hq. apply repeat_spec in Hq. subst q.
    split; [assumption | apply Qle_refl].
  - constructor; [now split | constructor].
Qed.

Lemma slice_entries_length (str_float : Q -> string) (qs : list Q)
  (ids : list string) :
  List.length qs = List.length ids ->
  List.length (slice_entries str_float qs ids) = List.length ids.
Proof.
  intro H. unfold slice_entries. rewrite length_map, length_combine. lia.
Qed.

Lemma placed_returns (ids : list string) : Forall placed (map Return ids).
Proof.
  induction ids as [| order_id ids IH]; constructor; [| exact IH].
  now exists order_id.
Qed.

Lemma order_lines_length (fs : list OrderFields) (replies : list (Res string)) :
  List.length replies = List.length fs ->
  List.length (order_lines fs replies) = List.length fs.
Proof.
  intro H. unfold order_lines. rewrite length_map, length_combine. lia.
Qed.

Lemma order_events_trace (fs : list OrderFields) (replies : list (Res string)) :
  List.length replies = List.length fs ->
  lookups (order_events fs replies) = [] /\
  submissions (order_events fs replies) = map order_request fs /\
  outcomes (order_events fs replies) = replies.
Proof.
  revert replies.
  induction fs as [| f fs IH]; intros [| r replies] Hlen;
    try discriminate Hlen; [now cbn |].
  injection Hlen as Hlen. destruct (IH _ Hlen) as (Hl & Hs & Ho).
  unfold order_events in *. cbn. now rewrite Hl, Hs, Ho.
Qed.

Section Properties.

Variable Session : Type.
Variable get_instruments_info :
  string -> string -> Session -> Res (list Instrument) * Session.
Variable place_order : OrderRequest -> Session -> Res string * Session.
Variable str_float : Q -> string.

Notation sliced := (advanced_sliced_executor Session get_instruments_info
                      place_order str_float).
Notation loop := (slicing_loop Session place_order str_float).
Notation market := (place_market_order Session get_instruments_info
                      place_order).
Notation multiple := (execute_multiple_orders Session place_order).
Notation entry := (slice_entry str_float).

(** ** One iteration of the slicing loop *)

Section Loop.

Variables symbol side tp_price sl_price : string.
Variable max_order_qty : Q.

Notation run fuel := (loop fuel symbol side tp_price sl_price max_order_qty).
Notation request q := (slice_request symbol side q tp_price sl_price).
Notation events r id :=
  (iteration_events symbol side tp_price sl_price max_order_qty r id).

Lemma slicing_loop_exit fuel remaining orders (w : World Session) :
  remaining <= 0 -> run fuel remaining orders w = Some (Return orders, w).
Proof.
  intro H. apply Qltb_ge in H. destruct fuel; simpl; now rewrite H.
Qed.

Lemma slicing_loop_no_fuel remaining orders (w : World Session) :
  0 < remaining -> run O remaining orders w = None.
Proof. intro H. apply Qltb_lt in H. simpl. now rewrite H. Qed.

Lemma slicing_loop_step fuel remaining orders (w : World Session) :
  0 < remaining ->
  run (S fuel) remaining orders w =
  let q := py_min remaining max_order_qty in
  match place_order (request q) (sess w) with
  | (Raise e, s') =>
      Some (Raise e, mkWorld s' (log w ++ [PlaceOrder (request q) (Raise e)]))
  | (Return order_id, s') =>
      run fuel (remaining - q) (orders ++ [entry q order_id])
        (mkWorld s' (log w ++ events remaining order_id))
  end.
Proof.
  intro H. apply Qltb_lt in H. simpl. rewrite H.
  unfold bind, session_place_order, iteration_events.
  destruct (place_order _ (sess w)) as [[order_id | e] s']; [| reflexivity].
  destruct (Qltb 0 (remaining - py_min remaining max_order_qty)); simpl.
  - now rewrite <- app_assoc.
  - reflexivity.
Qed.

(** More fuel never changes the result of a run that finished. *)
Lemma slicing_loop_more_fuel fuel extra remaining orders (w : World Session) x :
  run fuel remaining orders w = Some x ->
  run (fuel + extra) remaining orders w = Some x.
Proof.
  revert remaining orders w.
  induction fuel as [| fuel IH]; intros remaining orders w Hrun.
  - destruct (Qlt_le_dec 0 remaining) as [Hpos | Hle].
    + now rewrite slicing_loop_no_fuel in Hrun.
    + rewrite slicing_loop_exit in * by assumption. assumption.
  - destruct (Qlt_le_dec 0 remaining) as [Hpos | Hle].
    + change (S fuel + extra)%nat with (S (fuel + extra)).
      rewrite slicing_loop_step in * by assumption. cbv zeta in *.
      destruct (place_order _ (sess w)) as [[order_id | e] s']; auto.
    + rewrite slicing_loop_exit in * by assumption. assumption.
Qed.

(** Whatever the maximum, a finished run leaves the loop normally after
    accepted submissions only, or by the first submission that raises. *)
Lemma slicing_loop_outcomes fuel remaining orders (w : World Session) out w' :
  run fuel remaining orders w = Some (out, w') ->
  exists evs ids,
    log w' = (log w ++ evs)%list /\
    match out with
    | Return _ => outcomes evs = map Return ids
    | Raise e => outcomes evs = (map Return ids ++ [Raise e])%list
    end.
Proof.
  revert remaining orders w out w'.
  induction fuel as [| fuel IH]; intros remaining orders w out w' Hrun;
    destruct (Qlt_le_dec 0 remaining) as [Hpos | Hneg].
  - now rewrite slicing_loop_no_fuel in Hrun.
  - rewrite slicing_loop_exit in Hrun by assumption.
    injection Hrun as <- <-. exists [], []. now rewrite app_nil_r.
  - rewrite slicing_loop_step in Hrun by assumption. cbv zeta in Hrun.
    destruct (place_order _ (sess w)) as [[order_id | e] s'].
    + destruct (IH _ _ _ _ _ Hrun) as (evs & ids & Hlog & Hout).
      cbn [log] in Hlog. rewrite <- app_assoc in Hlog.
      exists (events remaining order_id ++ evs)%list, (order_id :: ids).
      split; [exact Hlog |].
      rewrite outcomes_app.
      assert (Hev : outcomes (events remaining order_id) = [Return order_id]).
      { unfold iteration_events. now destruct (Qltb 0 _). }
      rewrite Hev. destruct out; cbn [map app]; now rewrite Hout.
    + injection Hrun as <- <-. eexists _, []. split; reflexivity.
  - rewrite slicing_loop_exit in Hrun by assumption.
    injection Hrun as <- <-. exists [], []. now rewrite app_nil_r.
Qed.

(** *** Runs of the loop under a positive maximum *)

Hypothesis max_positive : 0 < max_order_qty.

(** Fuel [n] suffices as soon as [remaining <= n * max_order_qty]. *)
Lemma slicing_loop_finishes fuel remaining orders (w : World Session) :
  remaining <= inject_Z (Z.of_nat fuel) * max_order_qty ->
  exists out w', run fuel remaining orders w = Some (out, w').
Proof.
  revert remaining orders w.
  induction fuel as [| fuel IH]; intros remaining orders w Hle.
  - rewrite slicing_loop_exit; eauto.
    now rewrite Qmult_0_l in Hle.
  - destruct (Qlt_le_dec 0 remaining) as [Hpos | Hneg].
    2: { rewrite slicing_loop_exit; eauto. }
    rewrite slicing_loop_step by assumption. cbv zeta.
    destruct (place_order _ (sess w)) as [[order_id | e] s']; eauto.
    apply IH.
    rewrite Nat2Z.inj_succ in Hle. unfold Z.succ in Hle.
    rewrite inject_Z_plus in Hle.
    destruct (Qlt_le_dec max_order_qty remaining) as [Hgt | Hsmall].
    + rewrite (py_min_gt _ _ Hgt).
      apply Qplus_le_l with (z := max_order_qty).
      eapply Qle_trans; [| eapply Qle_trans; [exact Hle |]].
      * apply Qle_lteq. right. ring.
      * apply Qle_lteq. right. ring.
    + rewrite (py_min_le _ _ Hsmall).
      apply Qle_trans with (y := 0).
      * apply Qle_lteq. right. ring.
      * apply Qmult_le_0_compat; [| now apply Qlt_le_weak].
        change 0 with (inject_Z 0). rewrite <- Zle_Qle. lia.
Qed.

Lemma inject_Z_succ (k : nat) :
  inject_Z (Z.of_nat (S k)) == inject_Z (Z.of_nat k) + 1.
Proof.
  rewrite Nat2Z.inj_succ. unfold Z.succ. now rewrite inject_Z_plus.
Qed.

(** The shape of every finished run that entered the loop: [k] slices of
    the maximum, all placed, then one slice [last] whose submission either
    closes the loop (nothing remains) or raises (the loop is left at once,
    with the failing submission as its last effect). *)
Lemma slicing_loop_run fuel remaining orders (w : World Session) out w' :
  0 < remaining ->
  run fuel remaining orders w = Some (out, w') ->
  exists evs k last ids reply,
    log w' = (log w ++ evs)%list /\
    lookups evs = [] /\
    submissions evs = map (fun q => request q) (repeat max_order_qty k ++ [last]) /\
    outcomes evs = (map Return ids ++ [reply])%list /\
    List.length ids = k /\
    (k < fuel)%nat /\
    0 < last /\ last <= max_order_qty /\
    inject_Z (Z.of_nat k) * max_order_qty + last <= remaining /\
    match reply with
    | Return order_id =>
        out = Return (orders ++ slice_entries str_float
                                  (repeat max_order_qty k ++ [last])
                                  (ids ++ [order_id]))%list /\
        inject_Z (Z.of_nat k) * max_order_qty + last == remaining
    | Raise e =>
        out = Raise e /\
        exists evs0, evs = (evs0 ++ [PlaceOrder (request last) (Raise e)])%list
    end.
Proof.
  revert remaining orders w out w'.
  induction fuel as [| fuel IH]; intros remaining orders w out w' Hpos Hrun.
  { now rewrite slicing_loop_no_fuel in Hrun. }
  rewrite slicing_loop_step in Hrun by assumption. cbv zeta in Hrun.
  destruct (py_min_bounds remaining max_order_qty Hpos max_positive)
    as (Hq0 & Hqmax & Hqrem).
  destruct (place_order _ (sess w)) as [[order_id | e] s'].
  2: { (* the submission raises *)
    injection Hrun as <- <-.
    exists [PlaceOrder (request (py_min remaining max_order_qty)) (Raise e)],
      O, (py_min remaining max_order_qty), [], (Raise e).
    cbn [log]. repeat split; auto; try lia.
    - change (inject_Z (Z.of_nat 0)) with 0. lra.
    - now exists []. }
  destruct (Qlt_le_dec 0 (remaining - py_min remaining max_order_qty))
    as [Hmore | Hdone].
  - (* something remains: this slice was the maximum *)
    assert (Hgt : max_order_qty < remaining).
    { destruct (Qlt_le_dec max_order_qty remaining) as [H | H]; [exact H |].
      rewrite (py_min_le _ _ H) in Hmore. lra. }
    unfold iteration_events in Hrun.
    rewrite (py_min_gt _ _ Hgt) in *.
    destruct (IH _ _ _ _ _ Hmore Hrun)
      as (evs & k & last & ids & reply & Hlog & Hlk & Hsub & Hout & Hlen
          & Hfuel & Hl0 & Hlmax & Hle & Hreply).
    cbn [log] in Hlog.
    apply Qltb_lt in Hmore. rewrite Hmore in Hlog.
    exists (PlaceOrder (request max_order_qty) (Return order_id)
            :: Sleep (1 # 10) :: evs), (S k), last, (order_id :: ids), reply.
    repeat split; auto.
    + rewrite Hlog, <- app_assoc. reflexivity.
    + cbn [submissions]. rewrite Hsub. reflexivity.
    + cbn [outcomes]. rewrite Hout. reflexivity.
    + simpl. now rewrite Hlen.
    + lia.
    + rewrite inject_Z_succ. lra.
    + destruct reply as [oid | e].
      * destruct Hreply as [-> Hsum]. split.
        -- rewrite <- app_assoc. reflexivity.
        -- rewrite inject_Z_succ. lra.
      * destruct Hreply as [-> [evs0 ->]]. split; [reflexivity |].
        now exists (PlaceOrder (request max_order_qty) (Return order_id)
                    :: Sleep (1 # 10) :: evs0).
  - (* nothing remains: the loop is left *)
    rewrite slicing_loop_exit in Hrun by assumption.
    injection Hrun as <- <-.
    exists (events remaining order_id), O,
      (py_min remaining max_order_qty), [], (Return order_id).
    unfold iteration_events.
    apply Qltb_ge in Hdone. rewrite Hdone. apply Qltb_ge in Hdone.
    cbn [log]. repeat split; auto; try lia.
    + change (inject_Z (Z.of_nat 0)) with 0. lra.
    + change (inject_Z (Z.of_nat 0)) with 0. lra.
Qed.

(** Fuel [ceil(remaining / max_order_qty)] is enough, and the result no
    longer depends on the fuel from there on. *)
Lemma slicing_loop_total remaining orders (w : World Session) :
  exists out w',
    finishes_from (Z.to_nat (Qceiling (remaining / max_order_qty)))
      (fun fuel => run fuel remaining orders) w out w'.
Proof.
  destruct (slicing_loop_finishes
              (Z.to_nat (Qceiling (remaining / max_order_qty)))
              remaining orders w) as (out & w' & Hrun).
  { now apply ceiling_fuel_bound. }
  exists out, w'. intros fuel' Hle.
  replace fuel' with
    (Z.to_nat (Qceiling (remaining / max_order_qty))
     + (fuel' - Z.to_nat (Qceiling (remaining / max_order_qty))))%nat by lia.
  now apply slicing_loop_more_fuel.
Qed.

(** **** Termination *)

(** C5.  For every total and every positive maximum the [while] loop
    terminates: a positive [remaining] strictly decreases by the positive
    slice [min(remaining, maximum)], the loop finishes within
    [ceil(total / maximum)] iterations (each iteration makes one
    submission; none at all for a non-positive total), and it takes exactly
    that many when it runs to its end. *)
Theorem slicing_loop_terminates total orders (w : World Session) :
  (forall remaining,
     0 < remaining ->
     0 < py_min remaining max_order_qty /\
     remaining - py_min remaining max_order_qty < remaining) /\
  exists out w' evs,
    finishes_from (Z.to_nat (Qceiling (total / max_order_qty)))
      (fun fuel => run fuel total orders) w out w' /\
    log w' = (log w ++ evs)%list /\
    (List.length (submissions evs)
     <= Z.to_nat (Qceiling (total / max_order_qty)))%nat /\
    (Forall placed (outcomes evs) ->
     List.length (submissions evs)
     = Z.to_nat (Qceiling (total / max_order_qty))).
Proof.
  split.
  { intros remaining Hpos.
    destruct (py_min_bounds remaining max_order_qty Hpos max_positive)
      as (Hq0 & _ & _).
    split; [assumption | lra]. }
  destruct (slicing_loop_total total orders w) as (out & w' & Hfin).
  pose proof (Hfin _ (Nat.le_refl _)) as Hrun. cbv beta in Hrun.
  exists out, w'.
  destruct (Qlt_le_dec 0 total) as [Hpos | Hneg].
  - destruct (slicing_loop_run _ _ _ _ _ _ Hpos Hrun)
      as (evs & k & last & ids & reply & Hlog & _ & Hsub & Hout & _ & Hfuel
          & Hl0 & Hlmax & _ & Hreply).
    exists evs. rewrite Hsub, Hout, length_map, length_app, repeat_length.
    cbn [List.length]. repeat split; auto; try lia.
    intro Hall. destruct reply as [order_id | e].
    + destruct Hreply as [_ Hsum].
      rewrite (ceiling_of_slices _ _ _ _ max_positive Hl0 Hlmax Hsum). lia.
    + now apply placed_all_but_raise in Hall.
  - pose proof Hrun as Hexit.
    rewrite slicing_loop_exit in Hexit by assumption.
    injection Hexit as <- <-.
    exists []. pose proof (ceiling_nonpositive _ _ max_positive Hneg).
    rewrite app_nil_r. simpl. repeat split; auto; lia.
Qed.

End Loop.

(** ** The batch submission *)

Lemma execute_multiple_orders_loop_run orders fields results
  (w : World Session) :
  Forall2 has_fields orders fields ->
  exists w' replies,
    List.length replies = List.length fields /\
    execute_multiple_orders_loop Session place_order orders results w
    = Some (Return (results ++ order_lines fields replies)%list, w') /\
    log w' = (log w ++ order_events fields replies)%list.
Proof.
  intro Hall. revert results w.
  induction Hall as [| order f orders fields (Hsym & Hside & Hqty) _ IH];
    intros results w.
  - exists w, []. cbn. now rewrite !app_nil_r.
  - cbn [execute_multiple_orders_loop].
    unfold bind at 1. unfold try_except, bind, lift, session_place_order.
    rewrite Hsym, Hside, Hqty.
    change (mkOrderRequest "linear" (o_symbol f) (o_side f) "Market"
              (QtyStr (o_quantity f)) None None None None None None)
      with (order_request f).
    destruct (place_order (order_request f) (sess w)) as [reply s'].
    set (w1 := mkWorld s' (log w ++ [PlaceOrder (order_request f) reply])).
    destruct (IH (results ++ [order_line f reply])%list w1)
      as (w' & replies & Hlen & Hrun & Hlog).
    exists w', (reply :: replies). split; [| split].
    + simpl. now rewrite Hlen.
    + assert (Hnext :
        execute_multiple_orders_loop Session place_order orders
          (results ++ [order_line f reply]) w1
        = Some (Return (results
                        ++ order_lines (f :: fields) (reply :: replies))%list,
                w')).
      { rewrite Hrun, <- app_assoc. reflexivity. }
      destruct reply as [order_id | e]; exact Hnext.
    + rewrite Hlog. subst w1. cbn [log]. now rewrite <- app_assoc.
Qed.

(** C9.  For every list of order objects that carry a symbol, a side and a
    quantity, the batch operation makes exactly one submission per order,
    in order, and nothing else (no instrument lookup); it returns, never
    raising, the newline-joined lines, one per order: the success line when
    the exchange accepted the order, the failure line when the submission
    raised. *)
Theorem execute_multiple_orders_reports_each orders fields
  (w : World Session) :
  Forall2 has_fields orders fields ->
  exists w' replies,
    List.length replies = List.length orders /\
    multiple orders w
    = Some (Return (String.concat nl (order_lines fields replies)), w') /\
    List.length (order_lines fields replies) = List.length orders /\
    log w' = (log w ++ order_events fields replies)%list /\
    lookups (order_events fields replies) = [] /\
    submissions (order_events fields replies) = map order_request fields /\
    outcomes (order_events fields replies) = replies.
Proof.
  intro Hall.
  destruct (execute_multiple_orders_loop_run orders fields [] w Hall)
    as (w' & replies & Hlen & Hrun & Hlog).
  pose proof (Forall2_length Hall) as Hsame.
  exists w', replies. split; [lia |]. split; [| split; [| split]].
  - unfold execute_multiple_orders, bind. now rewrite Hrun.
  - rewrite order_lines_length; lia.
  - exact Hlog.
  - now apply order_events_trace.
Qed.

(** ** The executor up to the loop *)

Section Lookup.

Variables symbol side tp_price sl_price : string.
Variable total_qty : Q.
Variable w : World Session.

Notation run_sliced fuel :=
  (sliced fuel symbol side total_qty tp_price sl_price w).
Notation lookup_event := (GetInstrumentsInfo "linear" symbol).

Lemma sliced_lookup_raises fuel e s1 :
  get_instruments_info "linear" symbol (sess w) = (Raise e, s1) ->
  run_sliced fuel =
  Some (Return ("CRITICAL FAILURE: " ++ e),
        mkWorld s1 (log w ++ [lookup_event])).
Proof.
  intro H. unfold advanced_sliced_executor, try_except, bind,
    session_get_instruments_info. now rewrite H.
Qed.

Lemma sliced_unknown_symbol fuel s1 :
  get_instruments_info "linear" symbol (sess w) = (Return [], s1) ->
  run_sliced fuel =
  Some (Return ("Error: " ++ symbol ++ " not found."),
        mkWorld s1 (log w ++ [lookup_event])).
Proof.
  intro H. unfold advanced_sliced_executor, try_except, bind,
    session_get_instruments_info. now rewrite H.
Qed.

Lemma sliced_bad_lot_filter fuel first rest s1 :
  get_instruments_info "linear" symbol (sess w) = (Return (first :: rest), s1) ->
  (exists e, maxOrderQty first = Raise e) \/
  (exists mx e, maxOrderQty first = Return mx /\ minOrderQty first = Raise e) ->
  exists e,
    run_sliced fuel =
    Some (Return ("CRITICAL FAILURE: " ++ e),
          mkWorld s1 (log w ++ [lookup_event])).
Proof.
  intros H [[e He] | (mx & e & Hmx & He)]; exists e;
    unfold advanced_sliced_executor, try_except, bind,
      session_get_instruments_info, lift; rewrite H; cbn.
  - now rewrite He.
  - now rewrite Hmx, He.
Qed.

(** **** Unknown symbols *)

(** C7.  When the instrument lookup returns an empty list, the executor
    returns its not-found text at once, whatever the fuel, and submits
    nothing. *)
Theorem sliced_rejects_unknown_symbol s1 :
  get_instruments_info "linear" symbol (sess w) = (Return [], s1) ->
  exists w',
    (forall fuel,
       sliced fuel symbol side total_qty tp_price sl_price w
       = Some (Return ("Error: " ++ symbol ++ " not found."), w')) /\
    log w' = (log w ++ [lookup_event])%list /\
    submissions (log w') = submissions (log w).
Proof.
  intro Hlookup. exists (mkWorld s1 (log w ++ [lookup_event])).
  split; [| split].
  - intro fuel. now apply sliced_unknown_symbol.
  - reflexivity.
  - cbn [log]. rewrite submissions_app. simpl. apply app_nil_r.
Qed.

Section Instrument.

Variables (first : Instrument) (rest : list Instrument) (s1 : Session).
Variables max_order_qty min_order_qty : Q.

Hypothesis lookup_ok :
  get_instruments_info "linear" symbol (sess w) = (Return (first :: rest), s1).
Hypothesis max_ok : maxOrderQty first = Return max_order_qty.
Hypothesis min_ok : minOrderQty first = Return min_order_qty.

Lemma sliced_too_small fuel :
  total_qty < min_order_qty ->
  run_sliced fuel =
  Some (Return ("Failed: Quantity " ++ str_float total_qty
                ++ " is below the minimum required ("
                ++ str_float min_order_qty ++ ")."),
        mkWorld s1 (log w ++ [lookup_event])).
Proof.
  intro H. apply Qltb_lt in H.
  unfold advanced_sliced_executor, try_except, bind,
    session_get_instruments_info, lift.
  rewrite lookup_ok. cbn. rewrite max_ok, min_ok. cbn. now rewrite H.
Qed.

Notation banner :=
  (Stdout ("Executing total " ++ side ++ " order for "
           ++ str_float total_qty ++ " " ++ symbol
           ++ ". Max per order: " ++ str_float max_order_qty)).

(** Past the validations, the executor is its loop, with either outcome of
    the loop turned into a returned text. *)
Lemma sliced_enters_loop fuel :
  min_order_qty <= total_qty ->
  run_sliced fuel =
  match loop fuel symbol side tp_price sl_price max_order_qty total_qty []
          (mkWorld s1 (log w ++ [lookup_event; banner])) with
  | None => None
  | Some (Return orders_executed, w') =>
      Some (Return (success_report str_float symbol total_qty orders_executed),
            w')
  | Some (Raise e, w') => Some (Return ("CRITICAL FAILURE: " ++ e), w')
  end.
Proof.
  intro H. apply Qltb_ge in H.
  unfold advanced_sliced_executor, try_except, bind,
    session_get_instruments_info, lift, print, emit.
  rewrite lookup_ok. cbn. rewrite max_ok, min_ok. cbn. rewrite H.
  cbn [sess log]. rewrite <- app_assoc. cbn [app].
  destruct (slicing_loop _ _ _ _ _ _ _ _ _ _ _ _) as [[[os | e] w'] |];
    reflexivity.
Qed.

(** *** Every run that passes the validations *)

Notation request q := (slice_request symbol side q tp_price sl_price).

(** The fuel that is enough for the loop: [ceil(total / maximum)]. *)
Notation enough := (Z.to_nat (Qceiling (total_qty / max_order_qty))).

Section Validated.

Hypothesis min_enforced : min_order_qty <= total_qty.
Hypothesis total_positive : 0 < total_qty.
Hypothesis max_positive : 0 < max_order_qty.

(** The executor finishes, and its trace after the lookup is [k] placed
    slices of the maximum followed by one slice [last]: either that one is
    placed too, nothing remains and the report lists the [k + 1] slices, or
    its submission raises and the executor returns the failure text. *)
Lemma sliced_run :
  exists text w' evs k last ids reply,
    finishes_from enough
      (fun fuel => sliced fuel symbol side total_qty tp_price sl_price)
      w (Return text) w' /\
    log w' = (log w ++ lookup_event :: banner :: evs)%list /\
    lookups evs = [] /\
    submissions evs
    = map (fun q => request q) (repeat max_order_qty k ++ [last]) /\
    outcomes evs = (map Return ids ++ [reply])%list /\
    List.length ids = k /\
    0 < last /\ last <= max_order_qty /\
    inject_Z (Z.of_nat k) * max_order_qty + last <= total_qty /\
    match reply with
    | Return order_id =>
        text = success_report str_float symbol total_qty
                 (slice_entries str_float (repeat max_order_qty k ++ [last])
                    (ids ++ [order_id])) /\
        inject_Z (Z.of_nat k) * max_order_qty + last == total_qty
    | Raise e =>
        text = "CRITICAL FAILURE: " ++ e /\
        exists evs0, evs = (evs0 ++ [PlaceOrder (request last) (Raise e)])%list
    end.
Proof.
  destruct (slicing_loop_total symbol side tp_price sl_price max_order_qty
              max_positive total_qty []
              (mkWorld s1 (log w ++ [lookup_event; banner])))
    as (out & w' & Hfin).
  pose proof (Hfin _ (Nat.le_refl _)) as Hrun. cbv beta in Hrun.
  destruct (slicing_loop_run symbol side tp_price sl_price max_order_qty
              max_positive _ _ _ _ _ _ total_positive Hrun)
    as (evs & k & last & ids & reply & Hlog & Hlk & Hsub & Hout & Hlen
        & _ & Hl0 & Hlmax & Hle & Hreply).
  cbn [log] in Hlog. rewrite <- app_assoc in Hlog. cbn [app] in Hlog.
  destruct reply as [order_id | e].
  - destruct Hreply as [-> Hsum].
    eexists _, w', evs, k, last, ids, (Return order_id).
    split; [| repeat split; eauto].
    intros fuel' Hfuel.
    rewrite sliced_enters_loop by assumption.
    rewrite (Hfin fuel' Hfuel). reflexivity.
  - destruct Hreply as [-> Hlast].
    eexists _, w', evs, k, last, ids, (Raise e).
    split; [| repeat split; eauto].
    intros fuel' Hfuel.
    rewrite sliced_enters_loop by assumption.
    rewrite (Hfin fuel' Hfuel). reflexivity.
Qed.

End Validated.

(** **** Conservation *)


(** **** Number and order of the slices *)


(** **** The minimum order quantity *)

(** C6.  A total strictly below the instrument's minimum makes the
    executor return its quantity-too-small text, whatever the fuel, after
    the lookup alone: nothing is submitted. *)
Theorem sliced_rejects_small_quantity :
  total_qty < min_order_qty ->
  exists w',
    (forall fuel,
       sliced fuel symbol side total_qty tp_price sl_price w
       = Some (Return ("Failed: Quantity " ++ str_float total_qty
                       ++ " is below the minimum required ("
                       ++ str_float min_order_qty ++ ")."), w')) /\
    log w' = (log w ++ [lookup_event])%list /\
    submissions (log w') = submissions (log w).
Proof.
  intro Hsmall. eexists. split; [| split].
  - intro fuel. now apply sliced_too_small.
  - reflexivity.
  - cbn [log]. rewrite submissions_app. simpl. apply app_nil_r.
Qed.

End Instrument.

(** *** Every run, whatever the exchange answers *)

(** A finished call returned a text; its submissions were all accepted, or
    all but the last, whose exception is the text returned. *)
Lemma sliced_result fuel r w' :
  sliced fuel symbol side total_qty tp_price sl_price w = Some (r, w') ->
  exists text evs ids,
    r = Return text /\
    log w' = (log w ++ evs)%list /\
    (outcomes evs = map Return ids \/
     exists e,
       outcomes evs = (map Return ids ++ [Raise e])%list /\
       text = "CRITICAL FAILURE: " ++ e).
Proof.
  intro Hrun.
  destruct (get_instruments_info "linear" symbol (sess w))
    as [[[| first rest] | e] s1] eqn:Hlookup.
  - rewrite (sliced_unknown_symbol fuel _ Hlookup) in Hrun.
    injection Hrun as <- <-.
    eexists _, [lookup_event], []. repeat split. now left.
  - destruct (maxOrderQty first) as [mx | e] eqn:Hmx.
    2: { destruct (sliced_bad_lot_filter fuel _ _ _ Hlookup) as [e' Hbad].
         { left. now exists e. }
         rewrite Hbad in Hrun. injection Hrun as <- <-.
         eexists _, [lookup_event], []. repeat split. now left. }
    destruct (minOrderQty first) as [mn | e] eqn:Hmn.
    2: { destruct (sliced_bad_lot_filter fuel _ _ _ Hlookup) as [e' Hbad].
         { right. now exists mx, e. }
         rewrite Hbad in Hrun. injection Hrun as <- <-.
         eexists _, [lookup_event], []. repeat split. now left. }
    destruct (Qlt_le_dec total_qty mn) as [Hsmall | Hmin].
    { rewrite (sliced_too_small _ _ _ _ _ Hlookup Hmx Hmn fuel Hsmall) in Hrun.
      injection Hrun as <- <-.
      eexists _, [lookup_event], []. repeat split. now left. }
    rewrite (sliced_enters_loop _ _ _ _ _ Hlookup Hmx Hmn fuel Hmin) in Hrun.
    destruct (slicing_loop _ _ _ _ _ _ _ _ _ _ _ _)
      as [[out w2] |] eqn:Hloop; [| destruct fuel; discriminate Hrun].
    destruct (slicing_loop_outcomes _ _ _ _ _ _ _ _ _ _ _ Hloop)
      as (evs & ids & Hlog & Hout).
    cbn [log] in Hlog. rewrite <- app_assoc in Hlog.
    destruct out as [os | e]; injection Hrun as <- <-;
      eexists _, _, ids; (split; [reflexivity |]); (split; [exact Hlog |]);
      rewrite outcomes_app; cbn [outcomes app].
    + now left.
    + right. now exists e.
  - rewrite (sliced_lookup_raises fuel _ _ Hlookup) in Hrun.
    injection Hrun as <- <-.
    eexists _, [lookup_event], []. repeat split. now left.
Qed.

(** Under exact arithmetic a call ends when every instrument the lookup
    can give has a positive maximum. *)
Lemma sliced_finishes :
  (forall first rest s1 mx,
     get_instruments_info "linear" symbol (sess w)
     = (Return (first :: rest), s1) ->
     maxOrderQty first = Return mx -> 0 < mx) ->
  exists text w',
    finishes (fun fuel => sliced fuel symbol side total_qty tp_price sl_price)
      w (Return text) w'.
Proof.
  intro Hmax.
  destruct (get_instruments_info "linear" symbol (sess w))
    as [[[| first rest] | e] s1] eqn:Hlookup.
  - eexists _, _. exists O. intros fuel _.
    apply (sliced_unknown_symbol fuel _ Hlookup).
  - destruct (maxOrderQty first) as [mx | e] eqn:Hmx.
    2: { unfold finishes, finishes_from, advanced_sliced_executor, try_except, bind,
           session_get_instruments_info, lift.
         rewrite Hlookup. cbn. rewrite Hmx.
         eexists _, _. exists O. intros fuel _. reflexivity. }
    destruct (minOrderQty first) as [mn | e] eqn:Hmn.
    2: { unfold finishes, finishes_from, advanced_sliced_executor, try_except, bind,
           session_get_instruments_info, lift.
         rewrite Hlookup. cbn. rewrite Hmx, Hmn.
         eexists _, _. exists O. intros fuel _. reflexivity. }
    destruct (Qlt_le_dec total_qty mn) as [Hsmall | Hmin].
    { eexists _, _. exists O. intros fuel _.
      apply (sliced_too_small _ _ _ _ _ Hlookup Hmx Hmn fuel Hsmall). }
    specialize (Hmax _ _ _ _ eq_refl Hmx).
    destruct (slicing_loop_total symbol side tp_price sl_price mx Hmax
                total_qty []
                (mkWorld s1 (log w ++ [lookup_event;
                   Stdout ("Executing total " ++ side ++ " order for "
                           ++ str_float total_qty ++ " " ++ symbol
                           ++ ". Max per order: " ++ str_float mx)])))
      as (out & w' & Hfin).
    destruct out as [os | e]; eexists _, w';
      exists (Z.to_nat (Qceiling (total_qty / mx)));
      intros fuel Hfuel;
      rewrite (sliced_enters_loop _ _ _ _ _ Hlookup Hmx Hmn fuel Hmin);
      rewrite (Hfin fuel Hfuel); reflexivity.
  - eexists _, _. exists O. intros fuel _.
    apply (sliced_lookup_raises fuel _ _ Hlookup).
Qed.

End Lookup.

End Properties.

(** * The tools on concrete exchanges *)

(** 25 units against a maximum of 10, every order accepted. *)
Example sliced_25_by_10 :
  exists w',
    run_sliced 3 "BTCUSDT" "Buy" 25 "70000" "65000" accepting
    = Some (Return ("SUCCESS: Fully executed 25.0 BTCUSDT in 3 slices:" ++ nl
                    ++ "10.0 units (ID: a)" ++ nl
                    ++ "10.0 units (ID: b)" ++ nl
                    ++ "5.0 units (ID: c)"), w') /\
    slice_qtys (submissions (log w')) = [10; 10; 5] /\
    outcomes (log w') = [Return "a"; Return "b"; Return "c"].
Proof. eexists. split; [vm_compute; reflexivity | split; reflexivity]. Qed.

(** 10 units against a maximum of 10: one slice. *)
Example sliced_10_by_10 :
  exists w',
    run_sliced 1 "BTCUSDT" "Buy" 10 "70000" "65000" accepting
    = Some (Return ("SUCCESS: Fully executed 10.0 BTCUSDT in 1 slices:" ++ nl
                    ++ "10.0 units (ID: a)"), w') /\
    slice_qtys (submissions (log w')) = [10] /\
    log w' = [GetInstrumentsInfo "linear" "BTCUSDT";
              Stdout "Executing total Buy order for 10.0 BTCUSDT. Max per order: 10.0";
              PlaceOrder (btc_slice 10) (Return "a")].
Proof. eexists. split; [vm_compute; reflexivity | split; reflexivity]. Qed.

(** Half a unit against a minimum of 1. *)
Example sliced_half_unit :
  exists w',
    run_sliced 0 "BTCUSDT" "Buy" (1 # 2) "70000" "65000" accepting
    = Some (Return "Failed: Quantity 1/2 is below the minimum required (1.0).",
            w') /\
    submissions (log w') = [].
Proof. eexists. split; [vm_compute; reflexivity | reflexivity]. Qed.

(** Too little fuel is reported as such, never as a result. *)
Example sliced_out_of_fuel :
  run_sliced 2 "BTCUSDT" "Buy" 25 "70000" "65000" accepting = None.
Proof. vm_compute. reflexivity. Qed.

(** Why the maximum has to be positive: with a maximum of zero every slice
    is empty, nothing is ever taken off [remaining_qty], and on an exchange
    that accepts such orders no amount of fuel finishes the loop. *)
Remark slicing_loop_zero_maximum fuel remaining orders (w : World unit) :
  0 < remaining ->
  slicing_loop unit accept_all show_float fuel "BTCUSDT" "Buy" "70000"
    "65000" 0 remaining orders w = None.
Proof.
  revert remaining orders w.
  induction fuel as [| fuel IH]; intros remaining orders w Hpos.
  - now apply slicing_loop_no_fuel.
  - rewrite slicing_loop_step by assumption. cbv zeta.
    unfold accept_all at 1. apply IH.
    rewrite (py_min_gt _ _ Hpos). lra.
Qed.

Remark sliced_zero_maximum_never_finishes fuel :
  advanced_sliced_executor unit zero_maximum accept_all show_float fuel
    "BTCUSDT" "Buy" 5 "70000" "65000" (mkWorld tt []) = None.
Proof.
  rewrite (sliced_enters_loop unit zero_maximum accept_all show_float
             "BTCUSDT" "Buy" "70000" "65000" 5 (mkWorld tt [])
             (mkInstrument "Trading" (Return 0) (Return 1)) [] tt 0 1
             eq_refl eq_refl eq_refl fuel);
    [| unfold Qle; simpl; lia].
  now rewrite slicing_loop_zero_maximum.
Qed.

(** C1, the claim as stated fails.  With 25 units against a maximum of 10
    (three slices) on an exchange whose second submission raises and whose
    first and third would succeed, the executor returns the single failure
    text; whatever the fuel, a finished run made two submissions, accepted
    and raised, and left the third answer of the exchange unused: there is
    no third entry and no report of three outcomes. *)
Lemma sliced_abandons_remaining_slices :
  run_sliced 3 "BTCUSDT" "Buy" 25 "70000" "65000" second_fails
  = Some (Return "CRITICAL FAILURE: boom",
          mkWorld (mkScript (Return [btc]) [Return "c"])
            [GetInstrumentsInfo "linear" "BTCUSDT";
             Stdout "Executing total Buy order for 25.0 BTCUSDT. Max per order: 10.0";
             PlaceOrder (btc_slice 10) (Return "a");
             Sleep (1 # 10);
             PlaceOrder (btc_slice 10) (Raise "boom")]) /\
  forall fuel r w',
    run_sliced fuel "BTCUSDT" "Buy" 25 "70000" "65000" second_fails
    = Some (r, w') ->
    r = Return "CRITICAL FAILURE: boom" /\
    outcomes (log w') = [Return "a"; Raise "boom"] /\
    order_replies (sess w') = [Return "c"] /\
    List.length (outcomes (log w')) <> 3%nat.
Proof.
  split; [vm_compute; reflexivity |].
  intros [| [| fuel]] r w' Hrun; vm_compute in Hrun;
    try discriminate Hrun.
  injection Hrun as <- <-. repeat split. cbn. discriminate.
Qed.



(** C10, the claim as stated fails.  For an instrument whose maximum is
    zero, on an exchange that accepts every order, a call for 5 units
    returns nothing: every slice is empty, nothing is taken off
    [remaining_qty], and no amount of fuel ends the loop. *)
Lemma sliced_need_not_return :
  advanced_sliced_executor unit zero_maximum accept_all show_float 1
    "BTCUSDT" "Buy" 5 "70000" "65000" (mkWorld tt []) = None /\
  ~ exists fuel r w',
      advanced_sliced_executor unit zero_maximum accept_all show_float fuel
        "BTCUSDT" "Buy" 5 "70000" "65000" (mkWorld tt []) = Some (r, w').
Proof.
  split; [vm_compute; reflexivity |].
  intros (fuel & r & w' & Hrun).
  rewrite sliced_zero_maximum_never_finishes in Hrun. discriminate Hrun.
Qed.

(** * The theorems at concrete inputs *)



Lemma slicing_loop_terminates_witness :
  0 < 10 /\
  exists w',
    slicing_loop Script scripted_place_order show_float 3
      "BTCUSDT" "Buy" "70000" "65000" 10 25 [] (mkWorld accepting [])
    = Some (Return ["10.0 units (ID: a)"; "10.0 units (ID: b)";
                    "5.0 units (ID: c)"], w') /\
    List.length (submissions (log w')) = Z.to_nat (Qceiling (25 / 10)).
Proof.
  assert (H3 : 0 < 10) by reflexivity.
  split; [exact H3 |].
  destruct (slicing_loop_terminates Script scripted_place_order show_float
              "BTCUSDT" "Buy" "70000" "65000" 10 H3 25 []
              (mkWorld accepting []))
    as (_ & out & w' & evs & Hfin & Hlog & _ & Heq).
  specialize (Hfin 3%nat (Nat.le_refl 3)). cbv beta in Hfin.
  exists w'. split.
  - rewrite Hfin. vm_compute in Hfin. injection Hfin as <- _. reflexivity.
  - vm_compute in Hfin. injection Hfin as _ <-.
    cbn [log app] in Hlog. subst evs. apply Heq.
    repeat constructor; eexists; reflexivity.
Defined.

Lemma sliced_rejects_small_quantity_witness :
  (1 # 2) < 1 /\
  exists w',
    (forall fuel,
       run_sliced fuel "BTCUSDT" "Buy" (1 # 2) "70000" "65000" accepting
       = Some (Return ("Failed: Quantity " ++ show_float (1 # 2)
                       ++ " is below the minimum required ("
                       ++ show_float 1 ++ ")."), w')) /\
    log w' = [GetInstrumentsInfo "linear" "BTCUSDT"] /\
    submissions (log w') = [].
Proof.
  assert (H : (1 # 2) < 1) by reflexivity.
  split; [exact H |].
  exact (sliced_rejects_small_quantity Script scripted_get_instruments_info
           scripted_place_order show_float "BTCUSDT" "Buy" "70000" "65000"
           (1 # 2) (mkWorld accepting []) btc [] accepting 10 1
           eq_refl eq_refl eq_refl H).
Defined.

Lemma sliced_rejects_unknown_symbol_witness :
  exists w',
    (forall fuel,
       run_sliced fuel "NONEXISTENT" "Buy" 25 "70000" "65000" no_instrument
       = Some (Return "Error: NONEXISTENT not found.", w')) /\
    log w' = [GetInstrumentsInfo "linear" "NONEXISTENT"] /\
    submissions (log w') = [].
Proof.
  exact (sliced_rejects_unknown_symbol Script scripted_get_instruments_info
           scripted_place_order show_float "NONEXISTENT" "Buy" "70000"
           "65000" 25 (mkWorld no_instrument []) no_instrument eq_refl).
Defined.

Lemma execute_multiple_orders_reports_each_witness :
  Forall2 has_fields two_orders two_fields /\
  exists w',
    run_multiple two_orders second_fails
    = Some (Return ("Success: BTCUSDT OrderID: a" ++ nl
                    ++ "Failed: ETHUSDT Error: boom"), w') /\
    lookups (log w') = [] /\
    submissions (log w') = map order_request two_fields /\
    outcomes (log w') = [Return "a"; Raise "boom"].
Proof.
  assert (Hfields : Forall2 has_fields two_orders two_fields)
    by (repeat constructor).
  split; [exact Hfields |].
  destruct (execute_multiple_orders_reports_each Script scripted_place_order
              two_orders two_fields (mkWorld second_fails []) Hfields)
    as (w' & replies & _ & Hrun & _ & Hlog & Hlk & Hsub & Hout).
  cbn [log app] in Hlog. rewrite <- Hlog in Hlk, Hsub, Hout.
  pose proof Hrun as Hc. vm_compute in Hc. injection Hc as _ Hw.
  rewrite <- Hw in Hout. cbn in Hout. subst replies.
  exists w'. split; [exact Hrun | split; [exact Hlk | split; [exact Hsub |]]].
  rewrite <- Hw. reflexivity.
Defined.

(** * Further properties of the order tools *)

Lemma sleeps_app (l1 l2 : list Event) :
  sleeps (l1 ++ l2) = (sleeps l1 ++ sleeps l2)%list.
Proof.
  induction l1 as [| ev l1 IH]; simpl; [reflexivity |].
  destruct ev; simpl; now rewrite IH.
Qed.

Lemma paused_slices_trace (symbol side tp_price sl_price : string)
  (max_order_qty : Q) (ids : list string) :
  submissions (paused_slices symbol side tp_price sl_price max_order_qty ids)
  = map (fun q => slice_request symbol side q tp_price sl_price)
      (repeat max_order_qty (List.length ids)) /\
  outcomes (paused_slices symbol side tp_price sl_price max_order_qty ids)
  = map Return ids /\
  sleeps (paused_slices symbol side tp_price sl_price max_order_qty ids)
  = repeat (1 # 10) (List.length ids) /\
  lookups (paused_slices symbol side tp_price sl_price max_order_qty ids) = [].
Proof.
  unfold paused_slices.
  induction ids as [| order_id ids (Hs & Ho & Hp & Hl)]; [now cbn |].
  cbn. now rewrite Hs, Ho, Hp, Hl.
Qed.

Section SlicingTraces.

Variable Session : Type.
Variable get_instruments_info :
  string -> string -> Session -> Res (list Instrument) * Session.
Variable place_order : OrderRequest -> Session -> Res string * Session.
Variable str_float : Q -> string.

Variables symbol side tp_price sl_price : string.

Notation sliced := (advanced_sliced_executor Session get_instruments_info
                      place_order str_float).
Notation loop := (slicing_loop Session place_order str_float).
Notation request q := (slice_request symbol side q tp_price sl_price).
Notation paused max ids :=
  (paused_slices symbol side tp_price sl_price max ids).

(** Every finished run that entered the loop with a positive maximum, event
    by event: slices of the maximum accepted under [ids], each followed by
    its pause, then one last submission, accepted or raising, after which
    nothing happens. *)
Lemma slicing_loop_trace max_order_qty fuel remaining orders
  (w : World Session) out w' :
  0 < max_order_qty ->
  0 < remaining ->
  loop fuel symbol side tp_price sl_price max_order_qty remaining orders w
  = Some (out, w') ->
  exists ids last reply,
    log w' = (log w ++ paused max_order_qty ids
              ++ [PlaceOrder (request last) reply])%list /\
    0 < last /\ last <= max_order_qty /\
    inject_Z (Z.of_nat (List.length ids)) * max_order_qty + last
    <= remaining /\
    match reply with
    | Return order_id =>
        out = Return (orders
                      ++ slice_entries str_float
                           (repeat max_order_qty (List.length ids) ++ [last])
                           (ids ++ [order_id]))%list /\
        inject_Z (Z.of_nat (List.length ids)) * max_order_qty + last
        == remaining
    | Raise e => out = Raise e
    end.
Proof.
  intro Hmax. revert remaining orders w out w'.
  induction fuel as [| fuel IH]; intros remaining orders w out w' Hpos Hrun.
  { now rewrite slicing_loop_no_fuel in Hrun. }
  rewrite slicing_loop_step in Hrun by assumption. cbv zeta in Hrun.
  destruct (py_min_bounds remaining max_order_qty Hpos Hmax)
    as (Hq0 & Hqmax & Hqrem).
  destruct (place_order _ (sess w)) as [[order_id | e] s'].
  2: { injection Hrun as <- <-.
       exists [], (py_min remaining max_order_qty), (Raise e).
       cbn [log paused_slices flat_map app List.length].
       change (inject_Z (Z.of_nat 0)) with 0.
       repeat split; auto. lra. }
  unfold iteration_events in Hrun.
  destruct (Qlt_le_dec 0 (remaining - py_min remaining max_order_qty))
    as [Hmore | Hdone].
  - assert (Hgt : max_order_qty < remaining).
    { destruct (Qlt_le_dec max_order_qty remaining) as [H | H]; [exact H |].
      rewrite (py_min_le _ _ H) in Hmore. lra. }
    rewrite (py_min_gt _ _ Hgt) in *.
    destruct (IH _ _ _ _ _ Hmore Hrun)
      as (ids & last & reply & Hlog & Hl0 & Hlmax & Hle & Hreply).
    cbn [log] in Hlog.
    apply Qltb_lt in Hmore. rewrite Hmore in Hlog.
    exists (order_id :: ids), last, reply.
    cbn [List.length]. rewrite inject_Z_succ.
    split; [| split; [| split; [| split]]]; auto.
    + rewrite Hlog, <- app_assoc. reflexivity.
    + lra.
    + destruct reply as [oid | e].
      * destruct Hreply as [-> Hsum]. split.
        -- rewrite <- app_assoc. reflexivity.
        -- rewrite ?inject_Z_succ. lra.
      * exact Hreply.
  - rewrite slicing_loop_exit in Hrun by assumption.
    injection Hrun as <- <-.
    exists [], (py_min remaining max_order_qty), (Return order_id).
    apply Qltb_ge in Hdone. rewrite Hdone. apply Qltb_ge in Hdone.
    cbn [log paused_slices flat_map app List.length].
    change (inject_Z (Z.of_nat 0)) with 0.
    repeat split; auto; lra.
Qed.

(** With a maximum that is not positive every slice is that maximum, nothing
    is taken off what remains, and the loop can only be left by a submission
    that raises. *)
Lemma slicing_loop_nonpositive_maximum max_order_qty fuel remaining orders
  (w : World Session) out w' :
  max_order_qty <= 0 ->
  0 < remaining ->
  loop fuel symbol side tp_price sl_price max_order_qty remaining orders w
  = Some (out, w') ->
  exists e evs,
    out = Raise e /\
    log w' = (log w ++ evs)%list /\
    Forall (fun req => qty req = QtyFloat max_order_qty) (submissions evs) /\
    exists ids, outcomes evs = (map Return ids ++ [Raise e])%list.
Proof.
  intro Hmax. revert remaining orders w out w'.
  induction fuel as [| fuel IH]; intros remaining orders w out w' Hpos Hrun.
  { now rewrite slicing_loop_no_fuel in Hrun. }
  rewrite slicing_loop_step in Hrun by assumption. cbv zeta in Hrun.
  assert (Hgt : max_order_qty < remaining) by lra.
  unfold iteration_events in Hrun. rewrite (py_min_gt _ _ Hgt) in Hrun.
  destruct (place_order _ (sess w)) as [[order_id | e] s'].
  - assert (Hmore : 0 < remaining - max_order_qty) by lra.
    destruct (IH _ _ _ _ _ Hmore Hrun)
      as (e & evs & -> & Hlog & Hall & ids & Hout).
    cbn [log] in Hlog. rewrite <- app_assoc in Hlog.
    eexists e, _. split; [reflexivity | split; [exact Hlog | split]].
    + cbn [app submissions]. constructor; [reflexivity |].
      now destruct (Qltb 0 _).
    + exists (order_id :: ids). cbn [app outcomes map].
      destruct (Qltb 0 _); cbn [app outcomes]; now rewrite Hout.
  - injection Hrun as <- <-. eexists e, _.
    split; [reflexivity | split; [reflexivity | split]].
    + repeat constructor.
    + now exists [].
Qed.

Variable total_qty : Q.
Variable w : World Session.
Variables (first : Instrument) (rest : list Instrument) (s1 : Session).
Variables max_order_qty min_order_qty : Q.

Notation lookup_event := (GetInstrumentsInfo "linear" symbol).
Notation banner :=
  (Stdout ("Executing total " ++ side ++ " order for "
           ++ str_float total_qty ++ " " ++ symbol
           ++ ". Max per order: " ++ str_float max_order_qty)).
Notation enough := (Z.to_nat (Qceiling (total_qty / max_order_qty))).

Section Quoted.

Hypothesis lookup_ok :
  get_instruments_info "linear" symbol (sess w) = (Return (first :: rest), s1).
Hypothesis max_ok : maxOrderQty first = Return max_order_qty.
Hypothesis min_ok : minOrderQty first = Return min_order_qty.

(** The whole trace of a call that passes the validations. *)
Lemma sliced_trace :
  min_order_qty <= total_qty -> 0 < total_qty -> 0 < max_order_qty ->
  exists text w' ids last reply,
    finishes_from enough
      (fun fuel => sliced fuel symbol side total_qty tp_price sl_price)
      w (Return text) w' /\
    log w' = (log w ++ lookup_event :: banner :: paused max_order_qty ids
              ++ [PlaceOrder (request last) reply])%list /\
    0 < last /\ last <= max_order_qty /\
    inject_Z (Z.of_nat (List.length ids)) * max_order_qty + last
    <= total_qty /\
    match reply with
    | Return order_id =>
        text = success_report str_float symbol total_qty
                 (slice_entries str_float
                    (repeat max_order_qty (List.length ids) ++ [last])
                    (ids ++ [order_id])) /\
        inject_Z (Z.of_nat (List.length ids)) * max_order_qty + last
        == total_qty
    | Raise e => text = "CRITICAL FAILURE: " ++ e
    end.
Proof.
  intros Hmin Htotal Hmax.
  destruct (slicing_loop_total Session place_order str_float symbol side
              tp_price sl_price max_order_qty Hmax total_qty []
              (mkWorld s1 (log w ++ [lookup_event; banner])))
    as (out & w' & Hfin).
  pose proof (Hfin _ (Nat.le_refl _)) as Hrun. cbv beta in Hrun.
  destruct (slicing_loop_trace _ _ _ _ _ _ _ Hmax Htotal Hrun)
    as (ids & last & reply & Hlog & Hl0 & Hlmax & Hle & Hreply).
  cbn [log] in Hlog. rewrite <- app_assoc in Hlog. cbn [app] in Hlog.
  assert (Hcall : forall text,
            (match out with
             | Return os => success_report str_float symbol total_qty os
             | Raise e => "CRITICAL FAILURE: " ++ e
             end) = text ->
            finishes_from enough
              (fun fuel => sliced fuel symbol side total_qty tp_price sl_price)
              w (Return text) w').
  { intros text <- fuel Hfuel.
    rewrite (sliced_enters_loop Session get_instruments_info place_order
               str_float symbol side tp_price sl_price total_qty w first rest
               s1 max_order_qty min_order_qty lookup_ok max_ok min_ok fuel
               Hmin).
    rewrite (Hfin fuel Hfuel). now destruct out. }
  destruct reply as [order_id | e].
  - destruct Hreply as [-> Hsum].
    eexists _, w', ids, last, (Return order_id).
    split; [apply Hcall; reflexivity |]. repeat split; auto.
  - subst out.
    eexists _, w', ids, last, (Raise e).
    split; [apply Hcall; reflexivity |]. repeat split; auto.
Qed.

(** X2.  When a submission raises after [k] accepted slices, each accepted
    slice was exactly the maximum and the slice that raised is positive:
    [k] times the maximum was placed, strictly less than the total, and the
    rest of the total is never submitted. *)
Theorem sliced_failure_leaves_remainder :
  min_order_qty <= total_qty -> 0 < total_qty -> 0 < max_order_qty ->
  exists text w' evs,
    finishes_from enough
      (fun fuel => sliced fuel symbol side total_qty tp_price sl_price)
      w (Return text) w' /\
    log w' = (log w ++ evs)%list /\
    forall ids e,
      outcomes evs = (map Return ids ++ [Raise e])%list ->
      exists last,
        slice_qtys (submissions evs)
        = (repeat max_order_qty (List.length ids) ++ [last])%list /\
        0 < last /\
        inject_Z (Z.of_nat (List.length ids)) * max_order_qty < total_qty.
Proof.
  intros Hmin Htotal Hmax.
  destruct (sliced_trace Hmin Htotal Hmax)
    as (text & w' & ids0 & last & reply & Hfin & Hlog & Hl0 & _ & Hle & _).
  destruct (paused_slices_trace symbol side tp_price sl_price max_order_qty
              ids0) as (Hsub & Hout & _ & _).
  eexists text, w', _. split; [exact Hfin |]. split; [exact Hlog |].
  intros ids e Hraise.
  cbn [outcomes submissions] in *.
  rewrite outcomes_app, Hout in Hraise. cbn [outcomes] in Hraise.
  apply app_inj_tail in Hraise. destruct Hraise as [Hids _].
  apply (f_equal (@List.length _)) in Hids. rewrite !length_map in Hids.
  rewrite submissions_app, Hsub. cbn [submissions].
  rewrite slice_qtys_app, slice_qtys_requests, <- Hids. cbn.
  exists last. repeat split; auto. lra.
Qed.

(** X4.  A total that passes the validations and does not exceed the
    maximum is submitted as one order of exactly that quantity, without a
    pause; one unit of fuel is enough. *)
Theorem sliced_single_order_within_maximum reply s2 :
  min_order_qty <= total_qty -> 0 < total_qty -> total_qty <= max_order_qty ->
  place_order (request total_qty) s1 = (reply, s2) ->
  forall fuel,
    (1 <= fuel)%nat ->
    sliced fuel symbol side total_qty tp_price sl_price w
    = Some (Return
              match reply with
              | Return order_id =>
                  success_report str_float symbol total_qty
                    [slice_entry str_float total_qty order_id]
              | Raise e => "CRITICAL FAILURE: " ++ e
              end,
            mkWorld s2
              (log w ++ [lookup_event; banner;
                         PlaceOrder (request total_qty) reply])).
Proof.
  intros Hmin Htotal Hfits Hplace [| fuel] Hfuel; [lia |].
  rewrite (sliced_enters_loop Session get_instruments_info place_order
             str_float symbol side tp_price sl_price total_qty w first rest
             s1 max_order_qty min_order_qty lookup_ok max_ok min_ok _ Hmin).
  rewrite slicing_loop_step by assumption. cbv zeta.
  rewrite (py_min_le _ _ Hfits). cbn [sess]. rewrite Hplace.
  destruct reply as [order_id | e].
  - rewrite slicing_loop_exit by lra.
    unfold iteration_events. rewrite (py_min_le _ _ Hfits).
    assert (Hdone : Qltb 0 (total_qty - total_qty) = false)
      by (apply Qltb_ge; lra).
    rewrite Hdone. cbn [log app]. rewrite <- app_assoc. reflexivity.
  - cbn [log]. rewrite <- app_assoc. reflexivity.
Qed.

(** X6.  Under exact arithmetic, when the exchange reports a maximum that
    is not positive, a call with a positive total that passes the
    validations never reports success: every slice it submits is that
    maximum, and a call that ends at all ends by a submission that raises,
    with the failure text. *)
Theorem sliced_nonpositive_maximum_never_succeeds :
  min_order_qty <= total_qty -> 0 < total_qty -> max_order_qty <= 0 ->
  forall fuel r w',
    sliced fuel symbol side total_qty tp_price sl_price w = Some (r, w') ->
    exists e evs,
      r = Return ("CRITICAL FAILURE: " ++ e) /\
      log w' = (log w ++ evs)%list /\
      Forall (fun req => qty req = QtyFloat max_order_qty)
        (submissions evs) /\
      exists ids, outcomes evs = (map Return ids ++ [Raise e])%list.
Proof.
  intros Hmin Htotal Hmax fuel r w' Hrun.
  rewrite (sliced_enters_loop Session get_instruments_info place_order
             str_float symbol side tp_price sl_price total_qty w first rest
             s1 max_order_qty min_order_qty lookup_ok max_ok min_ok _ Hmin)
    in Hrun.
  destruct (slicing_loop _ _ _ _ _ _ _ _ _ _ _ _) as [[out w2] |] eqn:Hloop;
    [| discriminate Hrun].
  destruct (slicing_loop_nonpositive_maximum _ _ _ _ _ _ _ Hmax Htotal Hloop)
    as (e & evs & -> & Hlog & Hall & ids & Hout).
  injection Hrun as <- <-.
  cbn [log] in Hlog. rewrite <- app_assoc in Hlog.
  eexists e, _. split; [reflexivity | split; [exact Hlog | split]].
  - exact Hall.
  - exists ids. exact Hout.
Qed.

End Quoted.

(** X5.  A failure before the loop (the lookup raises, or a lot limit of
    the first instrument cannot be read as a number, the maximum being read
    first) makes the executor return the failure text with that error, after
    the lookup alone: nothing is printed and nothing submitted. *)
Theorem sliced_fails_before_loop e :
  get_instruments_info "linear" symbol (sess w) = (Raise e, s1) \/
  (get_instruments_info "linear" symbol (sess w)
   = (Return (first :: rest), s1) /\
   (maxOrderQty first = Raise e \/
    (exists mx, maxOrderQty first = Return mx) /\
    minOrderQty first = Raise e)) ->
  forall fuel,
    advanced_sliced_executor Session get_instruments_info place_order
      str_float fuel symbol side total_qty tp_price sl_price w
    = Some (Return ("CRITICAL FAILURE: " ++ e),
            mkWorld s1 (log w ++ [lookup_event])).
Proof.
  intros [Hlookup | [Hlookup [Hmx | [[mx Hmx] Hmn]]]] fuel;
    unfold advanced_sliced_executor, try_except, bind,
      session_get_instruments_info, lift;
    rewrite Hlookup; cbn.
  - reflexivity.
  - now rewrite Hmx.
  - now rewrite Hmx, Hmn.
Qed.

End SlicingTraces.

(** ** The single-shot and the batch submission *)

Lemma string_append_assoc (a b c : string) : (a ++ b) ++ c = a ++ b ++ c.
Proof. induction a as [| ch a IH]; cbn; [reflexivity | now rewrite IH]. Qed.

(** Joining two non-empty lists of lines. *)
Lemma concat_lines_app (l1 l2 : list string) :
  l1 <> [] -> l2 <> [] ->
  String.concat nl (l1 ++ l2)
  = String.concat nl l1 ++ nl ++ String.concat nl l2.
Proof.
  intros H1 H2. induction l1 as [| x [| y l1] IH]; [now destruct H1 | |].
  - cbn [app]. destruct l2 as [| z l2]; [now destruct H2 | reflexivity].
  - change (String.concat nl ((x :: y :: l1) ++ l2))
      with (x ++ nl ++ String.concat nl ((y :: l1) ++ l2)).
    rewrite IH by discriminate.
    change (String.concat nl (x :: y :: l1))
      with (x ++ nl ++ String.concat nl (y :: l1)).
    now rewrite !string_append_assoc.
Qed.

(** A key that a dict does not bind raises [KeyError]. *)
Lemma dict_get_missing (d : Dict) (k : string) :
  ~ In k (map fst d) -> dict_get d k = Raise ("'" ++ k ++ "'").
Proof.
  induction d as [| [k' v] d IH]; intro Hnot; [reflexivity |].
  cbn [dict_get]. destruct (String.eqb_spec k' k) as [-> | Hneq].
  - exfalso. apply Hnot. now left.
  - apply IH. intro Hin. apply Hnot. now right.
Qed.

Section OtherOrderTools.

Variable Session : Type.
Variable get_instruments_info :
  string -> string -> Session -> Res (list Instrument) * Session.
Variable place_order : OrderRequest -> Session -> Res string * Session.

Notation market := (place_market_order Session get_instruments_info
                      place_order).
Notation multiple := (execute_multiple_orders Session place_order).
Notation batch := (execute_multiple_orders_loop Session place_order).

(** *** [place_market_order] *)

Section Market.

Variables symbol side qty tp_price sl_price category : string.
Variable w : World Session.

Notation market_request :=
  (mkOrderRequest category symbol side "Market" (QtyStr qty)
     (Some tp_price) (Some sl_price)
     (Some "MarkPrice") (Some "MarkPrice") (Some "Full") None).

(** The five ways through [place_market_order]. *)
Lemma place_market_order_cases :
  exists text w' evs,
    market symbol side qty tp_price sl_price category w
    = Some (Return text, w') /\
    log w' = (log w ++ GetInstrumentsInfo "linear" symbol :: evs)%list /\
    ((evs = [] /\ String.prefix "Success!" text = false) \/
     (exists first rest s1,
        get_instruments_info "linear" symbol (sess w)
        = (Return (first :: rest), s1) /\
        status first = "Trading" /\
        ((exists order_id,
            evs = [PlaceOrder market_request (Return order_id)] /\
            text = "Success! " ++ side ++ " " ++ qty ++ " " ++ symbol
                   ++ ". Order ID: " ++ order_id) \/
         (exists e,
            evs = [PlaceOrder market_request (Raise e)] /\
            text = "Trade failed: " ++ e)))).
Proof.
  unfold place_market_order, try_except, bind, session_get_instruments_info.
  destruct (get_instruments_info "linear" symbol (sess w))
    as [[[| first rest] | e] s1] eqn:Hlookup; cbn.
  - eexists _, _, []. split; [reflexivity |]. split; [reflexivity |].
    left. now split.
  - destruct (String.eqb_spec (status first) "Trading") as [Hst | Hst]; cbn.
    + unfold session_place_order. cbn [sess log].
      destruct (place_order market_request s1) as [[order_id | e] s2]; cbn;
        rewrite <- app_assoc; cbn [app];
        eexists _, _, _; (split; [reflexivity |]); (split; [reflexivity |]);
        right; exists first, rest, s1;
        (split; [reflexivity |]); (split; [exact Hst |]).
      * left. now exists order_id.
      * right. now exists e.
    + eexists _, _, []. split; [reflexivity |]. split; [reflexivity |].
      left. now split.
  - eexists _, _, []. split; [reflexivity |]. split; [reflexivity |].
    left. now split.
Qed.

(** X7.  [place_market_order] never raises and always returns a text.  It
    makes exactly one instrument lookup, always in the ["linear"] category
    whatever category the order is for, and at most one submission; it
    submits only when that lookup gave a first instrument whose status is
    ["Trading"], and then the order it submits is the caller's, in the
    caller's category. *)
Theorem place_market_order_safe :
  exists text w' evs,
    market symbol side qty tp_price sl_price category w
    = Some (Return text, w') /\
    log w' = (log w ++ evs)%list /\
    lookups evs = [("linear", symbol)] /\
    (submissions evs = [] \/
     submissions evs = [market_request] /\
     exists first rest s1,
       get_instruments_info "linear" symbol (sess w)
       = (Return (first :: rest), s1) /\
       status first = "Trading").
Proof.
  destruct place_market_order_cases
    as (text & w' & evs & Hrun & Hlog & Hcases).
  exists text, w', (GetInstrumentsInfo "linear" symbol :: evs).
  split; [exact Hrun |]. split; [exact Hlog |].
  destruct Hcases
    as [[-> _] | (first & rest & s1 & Hlookup & Hst & Hplaced)].
  - split; [reflexivity | now left].
  - assert (Hev : exists reply, evs = [PlaceOrder market_request reply]).
    { destruct Hplaced as [(order_id & -> & _) | (e & -> & _)]; eauto. }
    destruct Hev as [reply ->].
    split; [reflexivity |]. right. split; [reflexivity |].
    now exists first, rest, s1.
Qed.

(** X8.  The text [place_market_order] returns starts with ["Success!"]
    exactly when it submitted the order and the exchange accepted it; the
    text then carries the side, the quantity, the symbol and the order
    identifier of that order. *)
Theorem place_market_order_success_text :
  exists text w' evs,
    market symbol side qty tp_price sl_price category w
    = Some (Return text, w') /\
    log w' = (log w ++ evs)%list /\
    (String.prefix "Success!" text = true <->
     exists order_id, outcomes evs = [Return order_id]) /\
    (forall order_id,
       outcomes evs = [Return order_id] ->
       text = "Success! " ++ side ++ " " ++ qty ++ " " ++ symbol
              ++ ". Order ID: " ++ order_id).
Proof.
  destruct place_market_order_cases
    as (text & w' & evs & Hrun & Hlog & Hcases).
  exists text, w', (GetInstrumentsInfo "linear" symbol :: evs).
  split; [exact Hrun |]. split; [exact Hlog |]. cbn [outcomes].
  destruct Hcases
    as [[-> Hno] | (first & rest & s1 & _ & _
                    & [(order_id & -> & ->) | (e & -> & ->)])];
    cbn [outcomes].
  - split; [split |].
    + intro H. rewrite H in Hno. discriminate Hno.
    + intros [order_id H]. discriminate H.
    + intros order_id H. discriminate H.
  - split; [split |].
    + intros _. now exists order_id.
    + intros _. reflexivity.
    + intros oid H. now injection H as <-.
  - split; [split |].
    + intro H. cbn in H. discriminate H.
    + intros [order_id H]. discriminate H.
    + intros order_id H. discriminate H.
Qed.

End Market.

(** *** [execute_multiple_orders] *)

(** The loop, one order at a time. *)
Lemma execute_multiple_orders_loop_cons order xs results (w : World Session) :
  batch (order :: xs) results w
  = match order_attempt Session place_order order w with
    | Some (Return line, w1) => batch xs (results ++ [line]) w1
    | Some (Raise e, w1) => Some (Raise e, w1)
    | None => None
    end.
Proof. reflexivity. Qed.

(** The loop over a concatenation is the loop over its first part followed,
    unless that raised, by the loop over the second. *)
Lemma execute_multiple_orders_loop_app xs ys results (w : World Session) :
  batch (xs ++ ys) results w
  = match batch xs results w with
    | Some (Return lines, w1) => batch ys lines w1
    | other => other
    end.
Proof.
  revert results w. induction xs as [| order xs IH]; intros results w.
  - reflexivity.
  - cbn [app]. rewrite !execute_multiple_orders_loop_cons.
    destruct (order_attempt _ _ order w) as [[[line | e] w1] |];
      [apply IH | reflexivity | reflexivity].
Qed.

(** The lines a loop adds do not depend on the lines gathered before. *)
Lemma execute_multiple_orders_loop_lines xs results (w : World Session) r w' :
  batch xs results w = Some (Return r, w') ->
  exists lines,
    r = (results ++ lines)%list /\
    List.length lines = List.length xs /\
    forall results',
      batch xs results' w = Some (Return (results' ++ lines)%list, w').
Proof.
  revert results w. induction xs as [| order xs IH]; intros results w Hrun.
  - injection Hrun as <- <-. exists []. rewrite app_nil_r.
    repeat split. intro results'. cbn. now rewrite app_nil_r.
  - rewrite execute_multiple_orders_loop_cons in Hrun.
    destruct (order_attempt _ _ order w) as [[[line | e] w1] |] eqn:Hline;
      try discriminate Hrun.
    destruct (IH _ _ Hrun) as (lines & -> & Hlen & Hany).
    exists (line :: lines). rewrite <- app_assoc. split; [reflexivity |].
    split; [cbn; now rewrite Hlen |].
    intro results'. rewrite execute_multiple_orders_loop_cons, Hline.
    rewrite Hany, <- app_assoc. reflexivity.
Qed.

(** One order that has a symbol but not the side, or not the quantity: it
    is not submitted and its line names the missing key. *)
Lemma order_attempt_incomplete order o_sym e (w : World Session) :
  dict_get order "symbol" = Return o_sym ->
  dict_get order "side" = Raise e \/
  (exists o_sd, dict_get order "side" = Return o_sd) /\
  dict_get order "quantity" = Raise e ->
  order_attempt Session place_order order w
  = Some (Return ("Failed: " ++ o_sym ++ " Error: " ++ e), w).
Proof.
  intros Hsym [Hside | [[o_sd Hside] Hqty]];
    unfold order_attempt, bind, try_except, lift, ret;
    rewrite Hsym, Hside, ?Hqty; reflexivity.
Qed.

(** X9.  Splitting a batch in two calls changes nothing: when the batch of
    [xs] returns [t1] and the batch of [ys], run next, returns [t2], the
    batch of [xs ++ ys] makes the same submissions and returns the two texts
    joined by a newline (one of them alone when the other list is empty). *)
Theorem execute_multiple_orders_splits xs ys (w w1 w2 : World Session) t1 t2 :
  multiple xs w = Some (Return t1, w1) ->
  multiple ys w1 = Some (Return t2, w2) ->
  multiple (xs ++ ys) w
  = Some (Return match xs, ys with
                 | [], _ => t2
                 | _, [] => t1
                 | _, _ => t1 ++ nl ++ t2
                 end, w2).
Proof.
  unfold execute_multiple_orders, bind, ret. intros H1 H2.
  destruct (batch xs [] w) as [[[l1 | e1] w1'] |] eqn:Hxs;
    try discriminate H1.
  destruct (batch ys [] w1) as [[[l2 | e2] w2'] |] eqn:Hys;
    try discriminate H2.
  injection H1 as <- <-. injection H2 as <- <-.
  destruct (execute_multiple_orders_loop_lines _ _ _ _ _ Hxs)
    as (lines1 & -> & Hlen1 & _).
  destruct (execute_multiple_orders_loop_lines _ _ _ _ _ Hys)
    as (lines2 & -> & Hlen2 & Hany).
  rewrite execute_multiple_orders_loop_app, Hxs, Hany. cbn [app].
  destruct xs as [| x xs].
  - destruct lines1; [reflexivity | discriminate Hlen1].
  - destruct ys as [| y ys].
    + destruct lines2; [| discriminate Hlen2]. now rewrite app_nil_r.
    + rewrite concat_lines_app; [reflexivity | |];
        intro Hnil; [rewrite Hnil in Hlen1 | rewrite Hnil in Hlen2];
        discriminate.
Qed.

(** X10.  An order without a symbol makes the whole batch raise
    [KeyError('symbol')] to the caller: the handler of the failed order reads
    the symbol again.  The orders before it were submitted, the lines
    gathered for them are lost, and no later order is submitted. *)
Theorem execute_multiple_orders_missing_symbol pre fields bad post
  (w : World Session) :
  Forall2 has_fields pre fields ->
  ~ In "symbol" (map fst bad) ->
  exists w' replies,
    List.length replies = List.length pre /\
    multiple (pre ++ bad :: post) w = Some (Raise "'symbol'", w') /\
    log w' = (log w ++ order_events fields replies)%list.
Proof.
  intros Hpre Hbad.
  destruct (execute_multiple_orders_loop_run Session place_order
              pre fields [] w Hpre) as (w' & replies & Hlen & Hrun & Hlog).
  exists w', replies.
  split; [rewrite Hlen; symmetry; exact (Forall2_length Hpre) |].
  split; [| exact Hlog].
  unfold execute_multiple_orders, bind at 1.
  rewrite execute_multiple_orders_loop_app, Hrun.
  rewrite execute_multiple_orders_loop_cons.
  unfold order_attempt, bind, try_except, lift.
  now rewrite (dict_get_missing _ _ Hbad).
Qed.

(** X11.  An order that has a symbol but lacks the side or the quantity is
    not submitted: its line is the failure line with the missing key, and
    the batch goes on with the orders after it. *)
Theorem execute_multiple_orders_skips_incomplete pre fields1 bad o_sym e
  post fields2 (w : World Session) :
  Forall2 has_fields pre fields1 ->
  Forall2 has_fields post fields2 ->
  dict_get bad "symbol" = Return o_sym ->
  dict_get bad "side" = Raise e \/
  (exists o_sd, dict_get bad "side" = Return o_sd) /\
  dict_get bad "quantity" = Raise e ->
  exists w' replies1 replies2,
    List.length replies1 = List.length pre /\
    List.length replies2 = List.length post /\
    multiple (pre ++ bad :: post) w
    = Some (Return (String.concat nl
                      (order_lines fields1 replies1
                       ++ ("Failed: " ++ o_sym ++ " Error: " ++ e)
                       :: order_lines fields2 replies2)), w') /\
    log w' = (log w ++ order_events fields1 replies1
              ++ order_events fields2 replies2)%list.
Proof.
  intros Hpre Hpost Hsym Hbad.
  destruct (execute_multiple_orders_loop_run Session place_order
              pre fields1 [] w Hpre) as (w1 & replies1 & Hlen1 & Hrun1 & Hlog1).
  destruct (execute_multiple_orders_loop_run Session place_order
              post fields2
              (order_lines fields1 replies1
               ++ ["Failed: " ++ o_sym ++ " Error: " ++ e]) w1 Hpost)
    as (w2 & replies2 & Hlen2 & Hrun2 & Hlog2).
  exists w2, replies1, replies2.
  split; [rewrite Hlen1; symmetry; exact (Forall2_length Hpre) |].
  split; [rewrite Hlen2; symmetry; exact (Forall2_length Hpost) |].
  split.
  - unfold execute_multiple_orders, bind at 1.
    rewrite execute_multiple_orders_loop_app, Hrun1. cbn [app].
    rewrite execute_multiple_orders_loop_cons.
    rewrite (order_attempt_incomplete _ _ _ _ Hsym Hbad).
    rewrite Hrun2, <- app_assoc. reflexivity.
  - rewrite Hlog2, Hlog1, <- app_assoc. reflexivity.
Qed.

End OtherOrderTools.

(** * The query tools *)

Section QueryProperties.

Variable Session : Type.
Variable get_wallet_balance :
  string -> string -> Session -> Res PyVal * Session.
Variable get_tickers : string -> string -> Session -> Res PyVal * Session.
Variable request_demo_trading_funds : Session -> Res PyVal * Session.
Variable type_error_text : PyVal -> string.
Variable container_text : PyVal -> string.

Notation demo_funds :=
  (request_demo_funds Session request_demo_trading_funds type_error_text
     container_text).
Notation wallet :=
  (check_wallet_balance Session get_wallet_balance type_error_text
     container_text).
Notation ticker :=
  (fetch_ticker_price Session get_tickers type_error_text container_text).
Notation str := (py_str container_text).

(** Running a chain of subscripts under the handler of a query tool. *)
Ltac run_query :=
  unfold request_demo_funds, check_wallet_balance, fetch_ticker_price,
    call_try, call_bind, call_lift, call_ret.

(** X12.  None of [request_demo_funds], [check_wallet_balance] and
    [fetch_ticker_price] raises: each makes its one call on the session and
    returns a text, and an exception raised by that call comes back as the
    tool's error text followed by the exception's text. *)
Theorem query_tools_never_raise :
  (forall s,
     exists text,
       request_demo_funds Session request_demo_trading_funds
         type_error_text container_text s
       = (Return text, snd (request_demo_trading_funds s)) /\
       forall e,
         fst (request_demo_trading_funds s) = Raise e ->
         text = "Error requesting demo funds: " ++ e) /\
  (forall coin s,
     exists text,
       check_wallet_balance Session get_wallet_balance type_error_text
         container_text coin s
       = (Return text, snd (get_wallet_balance "UNIFIED" coin s)) /\
       forall e,
         fst (get_wallet_balance "UNIFIED" coin s) = Raise e ->
         text = "Error fetching balance: " ++ e) /\
  (forall symbol category s,
     exists text,
       fetch_ticker_price Session get_tickers type_error_text
         container_text symbol category s
       = (Return text, snd (get_tickers category symbol s)) /\
       forall e,
         fst (get_tickers category symbol s) = Raise e ->
         text = "Error: " ++ e).
Proof.
  split; [| split].
  - intro s. run_query.
    destruct (request_demo_trading_funds s) as [[response | e] s']; cbn.
    + destruct (subscript_key type_error_text response "result");
        eexists; (split; [reflexivity | intros e' He; discriminate He]).
    + eexists. split; [reflexivity |]. intros e' He. now injection He as <-.
  - intros coin s. run_query.
    destruct (get_wallet_balance "UNIFIED" coin s) as [[response | e] s'];
      cbn.
    + destruct (subscript_key type_error_text response "result")
        as [result | e1]; cbn;
        [destruct (subscript_key type_error_text result "list")
           as [accounts | e2]; cbn;
         [destruct (subscript_first type_error_text accounts)
            as [account | e3]; cbn;
          [destruct (subscript_key type_error_text account "coin")
             as [coins | e4]; cbn;
           [destruct (subscript_first type_error_text coins)
              as [data | e5]; cbn;
            [destruct (subscript_key type_error_text data "walletBalance")
               as [balance | e6]; cbn | ] | ] | ] | ] | ];
        eexists; (split; [reflexivity | intros e' He; discriminate He]).
    + eexists. split; [reflexivity |]. intros e' He. now injection He as <-.
  - intros symbol category s. run_query.
    destruct (get_tickers category symbol s) as [[response | e] s']; cbn.
    + destruct (subscript_key type_error_text response "result")
        as [result | e1]; cbn;
        [destruct (subscript_key type_error_text result "list")
           as [tickers | e2]; cbn;
         [destruct (subscript_first type_error_text tickers)
            as [first_ticker | e3]; cbn;
          [destruct (subscript_key type_error_text first_ticker "lastPrice")
             as [price | e4]; cbn | ] | ] | ];
        eexists; (split; [reflexivity | intros e' He; discriminate He]).
    + eexists. split; [reflexivity |]. intros e' He. now injection He as <-.
Qed.

(** X13.  On a response whose [result.list] starts with an account whose
    [coin] list starts with an entry that has a [walletBalance],
    [check_wallet_balance] returns that balance: only the first account and
    its first coin entry are read, whatever else the response holds. *)
Theorem check_wallet_balance_first_entry coin s s' top result account
  other_accounts data other_coins balance :
  get_wallet_balance "UNIFIED" coin s = (Return (PDict top), s') ->
  entries_get top "result" = Return (PDict result) ->
  entries_get result "list"
  = Return (PList (PDict account :: other_accounts)) ->
  entries_get account "coin" = Return (PList (PDict data :: other_coins)) ->
  entries_get data "walletBalance" = Return balance ->
  wallet coin s
  = (Return ("Current " ++ coin ++ " Balance: " ++ str balance), s').
Proof.
  intros Hcall Hresult Hlist Hcoin Hbalance. run_query.
  rewrite Hcall. cbn. rewrite Hresult. cbn. rewrite Hlist. cbn.
  rewrite Hcoin. cbn. now rewrite Hbalance.
Qed.

(** X14.  When the account list of the response is empty, or the coin list
    of its first account is, [check_wallet_balance] returns the error text
    of an index out of range; when the first coin entry has no
    [walletBalance], the error text names that key. *)
Theorem check_wallet_balance_nothing_to_read coin s s' top result :
  get_wallet_balance "UNIFIED" coin s = (Return (PDict top), s') ->
  entries_get top "result" = Return (PDict result) ->
  (entries_get result "list" = Return (PList []) ->
   wallet coin s
   = (Return "Error fetching balance: list index out of range", s')) /\
  (forall account other_accounts,
     entries_get result "list"
     = Return (PList (PDict account :: other_accounts)) ->
     (entries_get account "coin" = Return (PList []) ->
      wallet coin s
      = (Return "Error fetching balance: list index out of range", s')) /\
     (forall data other_coins,
        entries_get account "coin"
        = Return (PList (PDict data :: other_coins)) ->
        ~ In "walletBalance" (map fst data) ->
        wallet coin s
        = (Return "Error fetching balance: 'walletBalance'", s'))).
Proof.
  intros Hcall Hresult. split; [| intros account other_accounts Hlist; split].
  - intro Hlist. run_query.
    rewrite Hcall. cbn. rewrite Hresult. cbn. now rewrite Hlist.
  - intro Hcoin. run_query.
    rewrite Hcall. cbn. rewrite Hresult. cbn. rewrite Hlist. cbn.
    now rewrite Hcoin.
  - intros data other_coins Hcoin Hmissing. run_query.
    rewrite Hcall. cbn. rewrite Hresult. cbn. rewrite Hlist. cbn.
    rewrite Hcoin. cbn.
    assert (Hget : entries_get data "walletBalance"
                   = Raise "'walletBalance'").
    { clear - Hmissing. induction data as [| [k v] data IH]; [reflexivity |].
      cbn [entries_get]. destruct (String.eqb_spec k "walletBalance")
        as [-> | Hneq].
      - exfalso. apply Hmissing. now left.
      - apply IH. intro Hin. apply Hmissing. now right. }
    now rewrite Hget.
Qed.

(** X15.  On a response whose [result.list] starts with a ticker that has
    a [lastPrice], [fetch_ticker_price] returns that price, asking the
    exchange in the caller's category; on an empty list it returns the error
    text of an index out of range. *)
Theorem fetch_ticker_price_first_entry symbol category s s' top result :
  get_tickers category symbol s = (Return (PDict top), s') ->
  entries_get top "result" = Return (PDict result) ->
  (forall first_ticker other_tickers price,
     entries_get result "list"
     = Return (PList (PDict first_ticker :: other_tickers)) ->
     entries_get first_ticker "lastPrice" = Return price ->
     ticker symbol category s
     = (Return ("Current price of " ++ symbol ++ ": " ++ str price), s')) /\
  (entries_get result "list" = Return (PList []) ->
   ticker symbol category s
   = (Return "Error: list index out of range", s')).
Proof.
  intros Hcall Hresult. split.
  - intros first_ticker other_tickers price Hlist Hprice. run_query.
    rewrite Hcall. cbn. rewrite Hresult. cbn. rewrite Hlist. cbn.
    now rewrite Hprice.
  - intro Hlist. run_query.
    rewrite Hcall. cbn. rewrite Hresult. cbn. now rewrite Hlist.
Qed.

End QueryProperties.

(** * The technical indicators *)

(** ** Columns and their last row *)

Lemma iloc_last_snoc {A} (no_row_text : string) (column : list A) (x : A) :
  iloc_last no_row_text (column ++ [x]) = Return x.
Proof. unfold iloc_last. now rewrite rev_app_distr. Qed.

Lemma iloc_last_inv {A} (no_row_text : string) (column : list A) (x : A) :
  iloc_last no_row_text column = Return x ->
  exists column', column = (column' ++ [x])%list.
Proof.
  unfold iloc_last. intro H.
  destruct (rev column) as [| y l] eqn:Hrev; [discriminate H |].
  injection H as ->. exists (rev l).
  rewrite <- (rev_involutive column), Hrev. reflexivity.
Qed.

Lemma iloc_last_some {A} (no_row_text : string) (column : list A) :
  column <> [] -> exists x, iloc_last no_row_text column = Return x.
Proof.
  intro H. destruct (exists_last H) as (column' & x & ->).
  exists x. apply iloc_last_snoc.
Qed.

Lemma iloc_last_in {A} (no_row_text : string) (column : list A) (x : A) :
  iloc_last no_row_text column = Return x -> In x column.
Proof.
  intro H. apply iloc_last_inv in H. destruct H as [column' ->].
  apply in_or_app. right. now left.
Qed.

Lemma map2_length {A B C} (f : A -> B -> C) (xs : list A) (ys : list B) :
  List.length xs = List.length ys ->
  List.length (map2 f xs ys) = List.length xs.
Proof.
  revert ys. induction xs as [| x xs IH]; intros [| y ys] H;
    try discriminate H; [reflexivity |].
  cbn. f_equal. apply IH. now injection H.
Qed.

Lemma map2_snoc {A B C} (f : A -> B -> C) (xs : list A) (ys : list B) x y :
  List.length xs = List.length ys ->
  map2 f (xs ++ [x]) (ys ++ [y]) = (map2 f xs ys ++ [f x y])%list.
Proof.
  revert ys. induction xs as [| x' xs IH]; intros [| y' ys] H;
    try discriminate H; [reflexivity |].
  cbn. f_equal. apply IH. now injection H.
Qed.

Lemma iloc_last_map2 {A B C} (no_row_text : string) (f : A -> B -> C)
  (xs : list A) (ys : list B) x y :
  List.length xs = List.length ys ->
  iloc_last no_row_text xs = Return x ->
  iloc_last no_row_text ys = Return y ->
  iloc_last no_row_text (map2 f xs ys) = Return (f x y).
Proof.
  intros Hlen Hx Hy.
  apply iloc_last_inv in Hx. destruct Hx as [xs' ->].
  apply iloc_last_inv in Hy. destruct Hy as [ys' ->].
  rewrite !length_app in Hlen. cbn in Hlen.
  rewrite map2_snoc by lia. apply iloc_last_snoc.
Qed.

Lemma iloc_last_map {A B} (no_row_text : string) (f : A -> B)
  (xs : list A) x :
  iloc_last no_row_text xs = Return x ->
  iloc_last no_row_text (map f xs) = Return (f x).
Proof.
  intro Hx. apply iloc_last_inv in Hx. destruct Hx as [xs' ->].
  rewrite map_app. apply iloc_last_snoc.
Qed.

Lemma diff_from_length (previous : Q) (column : list Q) :
  List.length (diff_from previous column) = List.length column.
Proof.
  revert previous. induction column as [| x column IH]; intro previous;
    cbn; [reflexivity | now rewrite IH].
Qed.

Lemma diff_length (column : list Q) :
  List.length (diff column) = List.length column.
Proof. destruct column; cbn; [reflexivity | now rewrite diff_from_length]. Qed.

Lemma where_length cond other (column : list (option Q)) :
  List.length (where_ cond other column) = List.length column.
Proof. apply length_map. Qed.

Lemma rolling_mean_length (window : nat) (column : list Q) :
  List.length (rolling_mean window column) = List.length column.
Proof. unfold rolling_mean. now rewrite length_map, length_seq. Qed.

Lemma rolling_mean_last (no_row_text : string) (window : nat)
  (column : list Q) :
  column <> [] ->
  iloc_last no_row_text (rolling_mean window column)
  = Return (window_mean window column).
Proof.
  intro H. unfold rolling_mean.
  destruct (List.length column) as [| n] eqn:Hlen.
  - destruct column; [now destruct H | discriminate Hlen].
  - rewrite seq_S, map_app. cbn [map plus].
    rewrite iloc_last_snoc, <- Hlen, firstn_all. reflexivity.
Qed.

Lemma ewm_from_length (alpha previous : Q) (column : list Q) :
  List.length (ewm_from alpha previous column) = List.length column.
Proof.
  revert previous. induction column as [| x column IH]; intro previous;
    cbn; [reflexivity | now rewrite IH].
Qed.

Lemma ewm_mean_length (span : Z) (column : list Q) :
  List.length (ewm_mean span column) = List.length column.
Proof. destruct column; cbn; [reflexivity | now rewrite ewm_from_length]. Qed.

Lemma gain_column_length (close : list Q) :
  List.length (gain_column close) = List.length close.
Proof.
  unfold gain_column.
  now rewrite rolling_mean_length, where_length, diff_length.
Qed.

Lemma loss_column_length (close : list Q) :
  List.length (loss_column close) = List.length close.
Proof.
  unfold loss_column.
  now rewrite rolling_mean_length, length_map, where_length, diff_length.
Qed.

Lemma macd_column_length (close : list Q) :
  List.length (macd_column close) = List.length close.
Proof.
  unfold macd_column. rewrite map2_length; rewrite !ewm_mean_length; auto.
Qed.

Lemma signal_column_length (close : list Q) :
  List.length (signal_column close) = List.length close.
Proof.
  unfold signal_column. now rewrite ewm_mean_length, macd_column_length.
Qed.

Lemma histogram_column_length (close : list Q) :
  List.length (histogram_column close) = List.length close.
Proof.
  unfold histogram_column.
  rewrite map2_length; rewrite macd_column_length; auto.
  now rewrite signal_column_length.
Qed.

Lemma rsi_column_length (close : list Q) :
  List.length (rsi_column close) = List.length close.
Proof.
  unfold rsi_column.
  rewrite length_map, map2_length; rewrite gain_column_length; auto.
  now rewrite loss_column_length.
Qed.

(** The gains and the losses behind the two rolling means. *)
Lemma nonempty_length {A} (l : list A) : l <> [] <-> (0 < List.length l)%nat.
Proof. destruct l; cbn; split; intro H; try lia; congruence. Qed.

(** The RSI of the latest row, from the two means of the latest window. *)
Lemma rsi_column_last (no_row_text : string) (close : list Q) :
  close <> [] ->
  iloc_last no_row_text (rsi_column close)
  = Return
      (rsi_of
         (fdiv
            (of_cell
               (window_mean 14
                  (where_ (fun d => Qltb 0 d) 0 (diff close))))
            (of_cell
               (window_mean 14
                  (map Qopp (where_ (fun d => Qltb d 0) 0 (diff close))))))).
Proof.
  intro H. unfold rsi_column. apply iloc_last_map.
  apply nonempty_length in H.
  apply (iloc_last_map2 no_row_text
           (fun gain loss => fdiv (of_cell gain) (of_cell loss))).
  - now rewrite gain_column_length, loss_column_length.
  - apply rolling_mean_last. apply nonempty_length.
    now rewrite where_length, diff_length.
  - apply rolling_mean_last. apply nonempty_length.
    now rewrite length_map, where_length, diff_length.
Qed.

(** ** Gains, losses and their means *)

Lemma Qsum_nonneg (l : list Q) : Forall (fun q => 0 <= q) l -> 0 <= Qsum l.
Proof.
  induction 1 as [| q l Hq _ IH]; cbn; [apply Qle_refl | lra].
Qed.

Lemma Qsum_zero (l : list Q) : Forall (fun q => q == 0) l -> Qsum l == 0.
Proof.
  induction 1 as [| q l Hq _ IH]; cbn; [reflexivity | lra].
Qed.

Lemma Forall_skipn_of {A} (P : A -> Prop) (n : nat) (l : list A) :
  Forall P l -> Forall P (skipn n l).
Proof.
  intro H. apply Forall_forall. intros x Hx.
  rewrite Forall_forall in H. apply H.
  rewrite <- (firstn_skipn n l). apply in_or_app. now right.
Qed.

Lemma gains_nonneg (cells : list (option Q)) :
  Forall (fun q => 0 <= q) (where_ (fun d => Qltb 0 d) 0 cells).
Proof.
  apply Forall_forall. intros q Hq. unfold where_ in Hq.
  apply in_map_iff in Hq. destruct Hq as ([d |] & <- & _); [| lra].
  destruct (Qltb 0 d) eqn:Hd; [| lra].
  apply Qltb_lt in Hd. lra.
Qed.

Lemma losses_nonneg (cells : list (option Q)) :
  Forall (fun q => 0 <= q)
    (map Qopp (where_ (fun d => Qltb d 0) 0 cells)).
Proof.
  apply Forall_forall. intros q Hq. unfold where_ in Hq.
  rewrite map_map in Hq.
  apply in_map_iff in Hq. destruct Hq as ([d |] & <- & _); [| lra].
  destruct (Qltb d 0) eqn:Hd; [| lra].
  apply Qltb_lt in Hd. lra.
Qed.

Lemma window_mean_short (window : nat) (so_far : list Q) :
  (List.length so_far < window)%nat -> window_mean window so_far = None.
Proof.
  intro H. unfold window_mean. apply Nat.ltb_lt in H. now rewrite H.
Qed.

Lemma window_mean_full (window : nat) (so_far : list Q) :
  (window <= List.length so_far)%nat ->
  window_mean window so_far
  = Some (Qsum (skipn (List.length so_far - window) so_far)
          / inject_Z (Z.of_nat window)).
Proof.
  intro H. unfold window_mean. apply Nat.ltb_ge in H. now rewrite H.
Qed.

Lemma window_mean_nonneg (window : nat) (so_far : list Q) (m : Q) :
  (0 < window)%nat ->
  Forall (fun q => 0 <= q) so_far ->
  window_mean window so_far = Some m -> 0 <= m.
Proof.
  intros Hw Hall Hm. unfold window_mean in Hm.
  destruct (List.length so_far <? window)%nat; [discriminate Hm |].
  injection Hm as <-.
  apply Qle_shift_div_l.
  - change 0 with (inject_Z 0). rewrite <- Zlt_Qlt. lia.
  - rewrite Qmult_0_l. apply Qsum_nonneg. now apply Forall_skipn_of.
Qed.

(** ** The RSI from the two means *)

Lemma Qeq_bool_false (x y : Q) : ~ x == y -> Qeq_bool x y = false.
Proof.
  intro H. destruct (Qeq_bool x y) eqn:Hb; [| reflexivity].
  apply Qeq_bool_eq in Hb. contradiction.
Qed.

Lemma Qltb_false (x y : Q) : y <= x -> Qltb x y = false.
Proof. apply Qltb_ge. Qed.

(** No loss in the window: the quotient is infinite and the RSI is 100,
    unless there is no gain either. *)
Lemma rsi_of_no_loss (gain loss : Q) :
  loss == 0 ->
  (0 < gain ->
   exists r, rsi_of (fdiv (Fin gain) (Fin loss)) = Fin r /\ r == 100) /\
  (gain == 0 -> rsi_of (fdiv (Fin gain) (Fin loss)) = NaN).
Proof.
  intro Hl. apply Qeq_bool_iff in Hl. unfold rsi_of, fdiv. rewrite Hl.
  split; intro Hg.
  - apply Qltb_lt in Hg. rewrite Hg. cbn. eexists. split; [reflexivity |].
    reflexivity.
  - rewrite !Qltb_false by lra. reflexivity.
Qed.

(** Some loss in the window: the RSI is [100 - 100 / (1 + gain / loss)]. *)
Lemma rsi_of_some_loss (gain loss : Q) :
  0 <= gain -> 0 < loss ->
  exists r,
    rsi_of (fdiv (Fin gain) (Fin loss)) = Fin r /\
    r == 100 - 100 / (1 + gain / loss) /\
    0 <= r /\ r < 100.
Proof.
  intros Hg Hl. unfold rsi_of, fdiv.
  rewrite (Qeq_bool_false loss 0) by lra. cbn [fadd].
  assert (Hq : 0 <= gain / loss).
  { apply Qle_shift_div_l; [assumption | lra]. }
  rewrite (Qeq_bool_false (1 + gain / loss) 0) by lra.
  cbn [fsub fneg fadd].
  eexists. split; [reflexivity |]. split; [reflexivity |].
  assert (Hd : 0 < 100 / (1 + gain / loss)).
  { apply Qlt_shift_div_l; lra. }
  assert (Hu : 100 / (1 + gain / loss) <= 100).
  { apply Qle_shift_div_r; lra. }
  lra.
Qed.

(** The RSI of two means that are not negative: undefined, or a number
    from 0 to 100. *)
Lemma rsi_of_range (gain loss : option Q) :
  (forall g, gain = Some g -> 0 <= g) ->
  (forall l, loss = Some l -> 0 <= l) ->
  rsi_of (fdiv (of_cell gain) (of_cell loss)) = NaN \/
  exists r,
    rsi_of (fdiv (of_cell gain) (of_cell loss)) = Fin r /\
    0 <= r /\ r <= 100.
Proof.
  intros Hg Hl.
  destruct gain as [g |]; [| now left].
  destruct loss as [l |]; [| now left].
  specialize (Hg g eq_refl). specialize (Hl l eq_refl). cbn [of_cell].
  destruct (Qlt_le_dec 0 l) as [Hpos | Hzero].
  - right. destruct (rsi_of_some_loss g l Hg Hpos) as (r & Hr & _ & H0 & H1).
    exists r. repeat split; auto. lra.
  - assert (Hl0 : l == 0) by lra.
    destruct (rsi_of_no_loss g l Hl0) as [Hgain Hflat].
    destruct (Qlt_le_dec 0 g) as [Hgpos | Hgzero].
    + right. destruct (Hgain Hgpos) as (r & Hr & H100).
      exists r. split; [exact Hr |]. lra.
    + left. apply Hflat. lra.
Qed.

(** ** Rounding *)

Lemma round_half_even_between (x : Q) (a b : Z) :
  inject_Z a <= x -> x <= inject_Z b ->
  (a <= round_half_even x <= b)%Z.
Proof.
  intros Ha Hb. unfold round_half_even.
  pose proof (Qfloor_le x) as Hfl.
  assert (Hfa : (a <= Qfloor x)%Z).
  { rewrite <- (Qfloor_Z a). now apply Qfloor_resp_le. }
  assert (Hfb : (Qfloor x <= b)%Z).
  { rewrite <- (Qfloor_Z b). now apply Qfloor_resp_le. }
  assert (Hup : inject_Z (Qfloor x) < x -> (Qfloor x + 1 <= b)%Z).
  { intro Hlt. assert (H : (Qfloor x < b)%Z).
    { rewrite Zlt_Qlt. lra. }
    lia. }
  destruct (Qltb (x - inject_Z (Qfloor x)) (1 # 2)) eqn:H1; [lia |].
  apply Qltb_ge in H1.
  assert (Hlt : inject_Z (Qfloor x) < x) by lra.
  specialize (Hup Hlt).
  destruct (Qltb (1 # 2) (x - inject_Z (Qfloor x))); [lia |].
  destruct (Z.even (Qfloor x)); lia.
Qed.

Lemma round_half_even_comp (x y : Q) :
  x == y -> round_half_even x = round_half_even y.
Proof.
  intro H. unfold round_half_even. rewrite (Qfloor_comp x y H).
  assert (Hr : forall a b c d, a == b -> c == d -> Qltb a c = Qltb b d).
  { intros a b c d Hab Hcd.
    destruct (Qltb a c) eqn:H1; destruct (Qltb b d) eqn:H2; auto.
    - apply Qltb_lt in H1. apply Qltb_ge in H2. lra.
    - apply Qltb_ge in H1. apply Qltb_lt in H2. lra. }
  rewrite (Hr (x - inject_Z (Qfloor y)) (y - inject_Z (Qfloor y))
             (1 # 2) (1 # 2)) by lra.
  rewrite (Hr (1 # 2) (1 # 2) (x - inject_Z (Qfloor y))
             (y - inject_Z (Qfloor y))) by lra.
  reflexivity.
Qed.

Lemma py_round_comp (x y : Q) (ndigits : nat) :
  x == y -> py_round x ndigits = py_round y ndigits.
Proof.
  intro H. unfold py_round.
  rewrite (round_half_even_comp
             (x * inject_Z (10 ^ Z.of_nat ndigits))
             (y * inject_Z (10 ^ Z.of_nat ndigits))); [reflexivity |].
  now rewrite H.
Qed.

Lemma power_of_ten_positive (ndigits : nat) :
  0 < inject_Z (10 ^ Z.of_nat ndigits).
Proof.
  change 0 with (inject_Z 0). rewrite <- Zlt_Qlt.
  apply Z.pow_pos_nonneg; lia.
Qed.

(** Rounding keeps a number between two integers. *)
Lemma py_round_between (x : Q) (a b : Z) (ndigits : nat) :
  inject_Z a <= x -> x <= inject_Z b ->
  inject_Z a <= py_round x ndigits /\ py_round x ndigits <= inject_Z b.
Proof.
  intros Ha Hb. unfold py_round.
  pose proof (power_of_ten_positive ndigits) as Hp.
  set (p := (10 ^ Z.of_nat ndigits)%Z) in *.
  destruct (round_half_even_between (x * inject_Z p) (a * p) (b * p))
    as [Hlo Hhi].
  - rewrite inject_Z_mult. apply Qmult_le_compat_r; lra.
  - rewrite inject_Z_mult. apply Qmult_le_compat_r; lra.
  - rewrite Zle_Qle, inject_Z_mult in Hlo, Hhi. split.
    + apply Qle_shift_div_l; assumption.
    + apply Qle_shift_div_r; assumption.
Qed.

(** ** [calculate_technical_indicators] *)

Lemma to_numeric_returns (qs : list Q) : to_numeric (map Return qs) = Return qs.
Proof. induction qs as [| q qs IH]; cbn; [reflexivity | now rewrite IH]. Qed.

Lemma to_numeric_length (column : list (Res Q)) (qs : list Q) :
  to_numeric column = Return qs -> List.length qs = List.length column.
Proof.
  revert qs. induction column as [| [q | e] column IH]; intros qs H; cbn in H.
  - now injection H as <-.
  - destruct (to_numeric column) as [qs' | e]; [| discriminate H].
    injection H as <-. cbn. f_equal. now apply IH.
  - discriminate H.
Qed.

Lemma to_numeric_head (cell : Res Q) (column : list (Res Q)) (qs : list Q) :
  to_numeric (cell :: column) = Return qs ->
  exists q rest, cell = Return q /\ qs = q :: rest.
Proof.
  intro H. cbn in H. destruct cell as [q | e]; [| discriminate H].
  destruct (to_numeric column) as [qs' | e]; [| discriminate H].
  injection H as <-. now exists q, qs'.
Qed.

Section IndicatorProperties.

Variable Session : Type.
Variable get_kline :
  string -> string -> string -> Z -> Session -> Res (list Candle) * Session.
Variable no_row_text : string.

Notation indicators :=
  (calculate_technical_indicators Session get_kline no_row_text).
Notation latest column := (iloc_last no_row_text column).
Notation gains close := (where_ (fun d => Qltb 0 d) 0 (diff close)).
Notation losses close :=
  (map Qopp (where_ (fun d => Qltb d 0) 0 (diff close))).
Notation latest_rsi close :=
  (rsi_of (fdiv (of_cell (window_mean 14 (gains close)))
             (of_cell (window_mean 14 (losses close))))).

Ltac run_indicators :=
  unfold calculate_technical_indicators, call_try, call_bind, call_lift,
    call_ret.

(** The report for a response with at least one candle and numeric closes:
    the latest row of each column, rounded. *)
Lemma indicators_success symbol s s' raw numeric :
  get_kline "linear" symbol "15" 100 s = (Return raw, s') ->
  to_numeric (map k_close raw) = Return numeric ->
  numeric <> [] ->
  exists c m sg h,
    latest (rev numeric) = Return c /\
    latest (macd_column (rev numeric)) = Return m /\
    latest (signal_column (rev numeric)) = Return sg /\
    latest (histogram_column (rev numeric)) = Return h /\
    indicators symbol s
    = (Return (IndicatorsSuccess symbol c
                 (fround (latest_rsi (rev numeric)) 2)
                 (py_round m 4) (py_round sg 4) (py_round h 4)), s').
Proof.
  intros Hcall Hnum Hrows.
  assert (Hclose : rev numeric <> []).
  { intro H. apply Hrows. rewrite <- (rev_involutive numeric), H.
    reflexivity. }
  assert (Hlen : (0 < List.length (rev numeric))%nat)
    by now apply nonempty_length.
  destruct (iloc_last_some no_row_text (rev numeric) Hclose) as [c Hc].
  destruct (iloc_last_some no_row_text (macd_column (rev numeric)))
    as [m Hm].
  { apply nonempty_length. now rewrite macd_column_length. }
  destruct (iloc_last_some no_row_text (signal_column (rev numeric)))
    as [sg Hsg].
  { apply nonempty_length. now rewrite signal_column_length. }
  destruct (iloc_last_some no_row_text (histogram_column (rev numeric)))
    as [h Hh].
  { apply nonempty_length. now rewrite histogram_column_length. }
  exists c, m, sg, h. repeat split; auto.
  run_indicators. rewrite Hcall, Hnum, Hc.
  rewrite (rsi_column_last no_row_text _ Hclose), Hm, Hsg, Hh.
  reflexivity.
Qed.

(** X16.  On responses whose closes pandas parses to finite numbers or
    rejects, [calculate_technical_indicators] never raises.  An exception
    of the kline call, a close that [pd.to_numeric] rejects anywhere in the
    response, and a response without candles each give the error report;
    every response with at least one candle and closes that are all finite
    numbers gives a success report, whether its RSI is a number or not. *)
Theorem indicators_never_raise symbol s :
  exists report,
    indicators symbol s
    = (Return report, snd (get_kline "linear" symbol "15" 100 s)) /\
    (forall e,
       fst (get_kline "linear" symbol "15" 100 s) = Raise e ->
       report = IndicatorsError e) /\
    (forall raw e,
       fst (get_kline "linear" symbol "15" 100 s) = Return raw ->
       to_numeric (map k_close raw) = Raise e ->
       report = IndicatorsError e) /\
    (fst (get_kline "linear" symbol "15" 100 s) = Return [] ->
     report = IndicatorsError no_row_text) /\
    (forall raw numeric,
       fst (get_kline "linear" symbol "15" 100 s) = Return raw ->
       raw <> [] ->
       to_numeric (map k_close raw) = Return numeric ->
       exists price rsi m sg h,
         report = IndicatorsSuccess symbol price rsi m sg h).
Proof.
  destruct (get_kline "linear" symbol "15" 100 s) as [[raw | e] s'] eqn:Hcall;
    cbn [fst snd].
  2: { exists (IndicatorsError e). run_indicators. rewrite Hcall.
       repeat split; try (intros; discriminate).
       intros e' He. now injection He as <-. }
  destruct (to_numeric (map k_close raw)) as [numeric | e] eqn:Hnum.
  2: { exists (IndicatorsError e). run_indicators. rewrite Hcall, Hnum.
       repeat split; try (intros; discriminate).
       - intros raw' e' Hraw Hnum'. injection Hraw as <-.
         rewrite Hnum in Hnum'. now injection Hnum' as <-.
       - intro Hraw. injection Hraw as ->. discriminate Hnum.
       - intros raw' numeric Hraw _ Hnum'. injection Hraw as <-.
         rewrite Hnum in Hnum'. discriminate Hnum'. }
  destruct raw as [| newest older].
  - cbn in Hnum. injection Hnum as <-.
    exists (IndicatorsError no_row_text). run_indicators. rewrite Hcall.
    cbn. split; [reflexivity |]. split; [intros; discriminate |].
    split; [| split].
    + intros raw e Hraw Hnum. injection Hraw as <-. discriminate Hnum.
    + reflexivity.
    + intros raw numeric Hraw Hrows. injection Hraw as <-.
      exfalso. now apply Hrows.
  - assert (Hrows : numeric <> []).
    { apply to_numeric_length in Hnum. intro H. rewrite H in Hnum.
      discriminate Hnum. }
    destruct (indicators_success symbol s _ _ _ Hcall Hnum Hrows)
      as (c & m & sg & h & _ & _ & _ & _ & Hrun).
    eexists. split; [exact Hrun |].
    repeat split; try (intros; discriminate).
    + intros raw e Hraw Hnum'. injection Hraw as <-.
      rewrite Hnum in Hnum'. discriminate Hnum'.
    + intros raw numeric' _ _ _. now eexists _, _, _, _, _.
Qed.

(** X17.  The current price of a success report is the close of the first
    row of the response: the exchange lists the newest candle first, and the
    function reverses the rows before it takes the last one. *)
Theorem indicators_price_is_newest symbol s s' newest older numeric :
  get_kline "linear" symbol "15" 100 s = (Return (newest :: older), s') ->
  to_numeric (map k_close (newest :: older)) = Return numeric ->
  exists price rsi m sg h,
    k_close newest = Return price /\
    indicators symbol s
    = (Return (IndicatorsSuccess symbol price rsi m sg h), s').
Proof.
  intros Hcall Hnum.
  destruct (to_numeric_head _ _ _ Hnum) as (q & rest & Hq & ->).
  destruct (indicators_success symbol s _ _ _ Hcall Hnum)
    as (c & m & sg & h & Hc & _ & _ & _ & Hrun); [discriminate |].
  cbn [rev] in Hc. rewrite iloc_last_snoc in Hc. injection Hc as <-.
  eexists q, _, _, _, _. split; [exact Hq | exact Hrun].
Qed.

(** How a success report comes about. *)
Lemma indicators_success_inv symbol s s' price rsi m sg h :
  indicators symbol s = (Return (IndicatorsSuccess symbol price rsi m sg h), s') ->
  exists raw numeric,
    get_kline "linear" symbol "15" 100 s = (Return raw, s') /\
    to_numeric (map k_close raw) = Return numeric /\
    numeric <> [] /\
    rsi = fround (latest_rsi (rev numeric)) 2.
Proof.
  intro Hrun.
  destruct (get_kline "linear" symbol "15" 100 s) as [[raw | e] s1] eqn:Hcall.
  2: { revert Hrun. run_indicators. rewrite Hcall. discriminate. }
  destruct (to_numeric (map k_close raw)) as [numeric | e] eqn:Hnum.
  2: { revert Hrun. run_indicators. rewrite Hcall, Hnum. discriminate. }
  destruct numeric as [| q numeric].
  { revert Hrun. run_indicators. rewrite Hcall, Hnum. discriminate. }
  destruct (indicators_success symbol s _ _ _ Hcall Hnum)
    as (c & m' & sg' & h' & _ & _ & _ & _ & Hrun'); [discriminate |].
  rewrite Hrun' in Hrun. injection Hrun as _ <- _ _ _ <-.
  exists raw, (q :: numeric). repeat split; auto. discriminate.
Qed.

(** X18.  The RSI of a success report is never infinite: it is undefined
    ([NaN]) or a number from 0 to 100. *)
Theorem indicators_rsi_in_range symbol s s' price rsi m sg h :
  calculate_technical_indicators Session get_kline no_row_text symbol s
  = (Return (IndicatorsSuccess symbol price rsi m sg h), s') ->
  rsi = NaN \/ exists r, rsi = Fin r /\ 0 <= r /\ r <= 100.
Proof.
  intro Hrun.
  destruct (indicators_success_inv _ _ _ _ _ _ _ _ Hrun)
    as (raw & numeric & _ & _ & _ & ->).
  destruct (rsi_of_range
              (window_mean 14 (gains (rev numeric)))
              (window_mean 14 (losses (rev numeric))))
    as [Hnan | (r & Hr & H0 & H100)].
  - intros g Hg. apply (window_mean_nonneg 14 _ g) in Hg; auto; [lia |].
    apply gains_nonneg.
  - intros l Hl. apply (window_mean_nonneg 14 _ l) in Hl; auto; [lia |].
    apply losses_nonneg.
  - left. now rewrite Hnan.
  - right. rewrite Hr. cbn [fround]. eexists. split; [reflexivity |].
    apply (py_round_between r 0 100 2); assumption.
Qed.

(** X19.  With fewer than fourteen candles the report is still a success
    report, and its RSI is undefined. *)
Theorem indicators_rsi_needs_fourteen_rows symbol s s' raw numeric :
  get_kline "linear" symbol "15" 100 s = (Return raw, s') ->
  to_numeric (map k_close raw) = Return numeric ->
  (0 < List.length raw < 14)%nat ->
  exists price m sg h,
    indicators symbol s
    = (Return (IndicatorsSuccess symbol price NaN m sg h), s').
Proof.
  intros Hcall Hnum [Hsome Hfew].
  pose proof (to_numeric_length _ _ Hnum) as Hlen.
  rewrite length_map in Hlen.
  destruct (indicators_success symbol s _ _ _ Hcall Hnum)
    as (c & m & sg & h & _ & _ & _ & _ & Hrun).
  { apply nonempty_length. lia. }
  exists c, (py_round m 4), (py_round sg 4), (py_round h 4).
  rewrite Hrun. repeat f_equal.
  rewrite window_mean_short; [reflexivity |].
  rewrite where_length, diff_length, length_rev. lia.
Qed.

(** ** Flat and steady markets *)

Lemma Qsum_skipn_positive (l : list Q) (x : Q) (k : nat) :
  Forall (fun q => 0 <= q) l -> 0 < x -> (k <= List.length l)%nat ->
  0 < Qsum (skipn k (l ++ [x])).
Proof.
  intros Hall Hx Hk. rewrite skipn_app.
  replace (k - List.length l)%nat with O by lia. cbn [skipn].
  rewrite Qsum_app. cbn [Qsum].
  pose proof (Qsum_nonneg _ (Forall_skipn_of _ k _ Hall)). lra.
Qed.

Lemma window_mean_zero (window : nat) (so_far : list Q) :
  (0 < window <= List.length so_far)%nat ->
  Forall (fun q => q == 0) so_far ->
  exists m, window_mean window so_far = Some m /\ m == 0.
Proof.
  intros [Hw Hlen] Hall. rewrite window_mean_full by assumption.
  eexists. split; [reflexivity |].
  rewrite (Qsum_zero _ (Forall_skipn_of _ _ _ Hall)).
  unfold Qdiv. apply Qmult_0_l.
Qed.

Lemma window_mean_positive (window : nat) (l : list Q) (x : Q) :
  (0 < window <= List.length (l ++ [x]))%nat ->
  Forall (fun q => 0 <= q) l -> 0 < x ->
  exists m, window_mean window (l ++ [x]) = Some m /\ 0 < m.
Proof.
  intros [Hw Hlen] Hall Hx. rewrite window_mean_full by assumption.
  eexists. split; [reflexivity |].
  apply Qlt_shift_div_l.
  - change 0 with (inject_Z 0). rewrite <- Zlt_Qlt. lia.
  - rewrite Qmult_0_l. apply Qsum_skipn_positive; auto.
    rewrite length_app in *. cbn in *. lia.
Qed.

Lemma Forall_weaken {A} (P R : A -> Prop) (l : list A) :
  (forall x, P x -> R x) -> Forall P l -> Forall R l.
Proof. intros H Hall. eapply Forall_impl; eauto. Qed.

(** The gains and losses of rising, of falling and of constant closes. *)
Lemma rising_gains_losses (previous : Q) (column : list Q) :
  rising_from previous column ->
  Forall (fun q => 0 < q)
    (where_ (fun d => Qltb 0 d) 0 (diff_from previous column)) /\
  Forall (fun q => q == 0)
    (map Qopp (where_ (fun d => Qltb d 0) 0 (diff_from previous column))).
Proof.
  revert previous. induction column as [| x column IH]; intros previous H.
  - split; constructor.
  - destruct H as [Hup Hrest]. destruct (IH x Hrest) as [Hg Hl].
    cbn. split; constructor; auto.
    + assert (Hd : Qltb 0 (x - previous) = true) by (apply Qltb_lt; lra).
      rewrite Hd. lra.
    + rewrite Qltb_false by lra. reflexivity.
Qed.

Lemma falling_gains_losses (previous : Q) (column : list Q) :
  falling_from previous column ->
  Forall (fun q => q == 0)
    (where_ (fun d => Qltb 0 d) 0 (diff_from previous column)) /\
  Forall (fun q => 0 < q)
    (map Qopp (where_ (fun d => Qltb d 0) 0 (diff_from previous column))).
Proof.
  revert previous. induction column as [| x column IH]; intros previous H.
  - split; constructor.
  - destruct H as [Hdown Hrest]. destruct (IH x Hrest) as [Hg Hl].
    cbn. split; constructor; auto.
    + rewrite Qltb_false by lra. reflexivity.
    + assert (Hd : Qltb (x - previous) 0 = true) by (apply Qltb_lt; lra).
      rewrite Hd. lra.
Qed.

Lemma constant_gains_losses (c previous : Q) (column : list Q) :
  previous == c ->
  Forall (fun q => q == c) column ->
  Forall (fun q => q == 0)
    (where_ (fun d => Qltb 0 d) 0 (diff_from previous column)) /\
  Forall (fun q => q == 0)
    (map Qopp (where_ (fun d => Qltb d 0) 0 (diff_from previous column))).
Proof.
  intros Hp Hall. revert previous Hp.
  induction Hall as [| x column Hx _ IH]; intros previous Hp.
  - split; constructor.
  - destruct (IH x Hx) as [Hg Hl].
    cbn. split; constructor; auto.
    + rewrite Qltb_false by lra. reflexivity.
    + rewrite Qltb_false by lra. reflexivity.
Qed.

Lemma constant_column_gains_losses (c : Q) (close : list Q) :
  Forall (fun q => q == c) close ->
  Forall (fun q => q == 0) (where_ (fun d => Qltb 0 d) 0 (diff close)) /\
  Forall (fun q => q == 0)
    (map Qopp (where_ (fun d => Qltb d 0) 0 (diff close))).
Proof.
  intros [| x rest Hx Hrest]; [split; constructor |].
  destruct (constant_gains_losses c x rest Hx Hrest) as [Hg Hl].
  change (where_ (fun d => Qltb 0 d) 0 (diff (x :: rest)))
    with (0 :: where_ (fun d => Qltb 0 d) 0 (diff_from x rest)).
  change (map Qopp (where_ (fun d => Qltb d 0) 0 (diff (x :: rest))))
    with (- 0 :: map Qopp (where_ (fun d => Qltb d 0) 0 (diff_from x rest))).
  split; constructor; auto; reflexivity.
Qed.

(** The two means of the latest window on steadily rising and on steadily
    falling closes. *)
Lemma positive_column_mean (head : Q) (column : list Q) :
  0 <= head ->
  Forall (fun q => 0 < q) column ->
  (14 <= List.length (head :: column))%nat ->
  exists m, window_mean 14 (head :: column) = Some m /\ 0 < m.
Proof.
  intros Hhead Hall Hlen.
  destruct (exists_last (l := column)) as (init & x & ->).
  { intro H. subst column. cbn in Hlen. lia. }
  apply Forall_app in Hall. destruct Hall as [Hinit Hx].
  inversion Hx as [| ? ? Hpos _]; subst.
  change (head :: init ++ [x])%list with ((head :: init) ++ [x])%list in *.
  apply window_mean_positive; auto; [lia |].
  constructor; [assumption |].
  eapply Forall_weaken; [| exact Hinit]. intros q Hq. cbn beta in Hq. lra.
Qed.

Lemma zero_column_mean (head : Q) (column : list Q) :
  head == 0 ->
  Forall (fun q => q == 0) column ->
  (14 <= List.length (head :: column))%nat ->
  exists m, window_mean 14 (head :: column) = Some m /\ m == 0.
Proof.
  intros Hhead Hall Hlen. apply window_mean_zero; [lia |].
  now constructor.
Qed.

Lemma rising_column_means (close : list Q) :
  rising close -> (14 <= List.length close)%nat ->
  exists gain loss,
    window_mean 14 (where_ (fun d => Qltb 0 d) 0 (diff close)) = Some gain /\
    window_mean 14 (map Qopp (where_ (fun d => Qltb d 0) 0 (diff close)))
    = Some loss /\
    0 < gain /\ loss == 0.
Proof.
  intros Hup Hlen. destruct close as [| x rest]; [cbn in Hlen; lia |].
  destruct (rising_gains_losses x rest Hup) as [Hg Hl].
  change (where_ (fun d => Qltb 0 d) 0 (diff (x :: rest)))
    with (0 :: where_ (fun d => Qltb 0 d) 0 (diff_from x rest)).
  change (map Qopp (where_ (fun d => Qltb d 0) 0 (diff (x :: rest))))
    with (- 0 :: map Qopp (where_ (fun d => Qltb d 0) 0 (diff_from x rest))).
  destruct (positive_column_mean 0 _ (Qle_refl 0) Hg) as (gain & -> & Hgain).
  { cbn [List.length] in *. now rewrite where_length, diff_from_length. }
  destruct (zero_column_mean (- 0) _ (Qeq_refl _) Hl) as (loss & -> & Hloss).
  { cbn [List.length] in *.
    now rewrite length_map, where_length, diff_from_length. }
  now exists gain, loss.
Qed.

Lemma falling_column_means (close : list Q) :
  falling close -> (14 <= List.length close)%nat ->
  exists gain loss,
    window_mean 14 (where_ (fun d => Qltb 0 d) 0 (diff close)) = Some gain /\
    window_mean 14 (map Qopp (where_ (fun d => Qltb d 0) 0 (diff close)))
    = Some loss /\
    gain == 0 /\ 0 < loss.
Proof.
  intros Hdown Hlen. destruct close as [| x rest]; [cbn in Hlen; lia |].
  destruct (falling_gains_losses x rest Hdown) as [Hg Hl].
  change (where_ (fun d => Qltb 0 d) 0 (diff (x :: rest)))
    with (0 :: where_ (fun d => Qltb 0 d) 0 (diff_from x rest)).
  change (map Qopp (where_ (fun d => Qltb d 0) 0 (diff (x :: rest))))
    with (- 0 :: map Qopp (where_ (fun d => Qltb d 0) 0 (diff_from x rest))).
  destruct (zero_column_mean 0 _ (Qeq_refl _) Hg) as (gain & -> & Hgain).
  { cbn [List.length] in *. now rewrite where_length, diff_from_length. }
  destruct (positive_column_mean (- 0) _ (Qle_refl 0) Hl)
    as (loss & -> & Hloss).
  { cbn [List.length] in *.
    now rewrite length_map, where_length, diff_from_length. }
  now exists gain, loss.
Qed.

(** The averages of constant closes are that constant. *)
Lemma ewm_from_constant (alpha c previous : Q) (column : list Q) :
  previous == c ->
  Forall (fun q => q == c) column ->
  Forall (fun q => q == c) (ewm_from alpha previous column).
Proof.
  intros Hp Hall. revert previous Hp.
  induction Hall as [| x column Hx _ IH]; intros previous Hp;
    cbn; constructor.
  - rewrite Hp, Hx. ring.
  - apply IH. rewrite Hp, Hx. ring.
Qed.

Lemma ewm_mean_constant (span : Z) (c : Q) (column : list Q) :
  Forall (fun q => q == c) column ->
  Forall (fun q => q == c) (ewm_mean span column).
Proof.
  intros [| x rest Hx Hall]; cbn; constructor; auto.
  now apply ewm_from_constant.
Qed.

Lemma map2_minus_constant (a b : Q) (xs ys : list Q) :
  Forall (fun q => q == a) xs ->
  Forall (fun q => q == b) ys ->
  Forall (fun q => q == a - b) (map2 Qminus xs ys).
Proof.
  intro Hx. revert ys. induction Hx as [| x xs Hx _ IH]; intros ys Hy.
  - constructor.
  - destruct Hy as [| y ys Hy Hys]; cbn; constructor.
    + now rewrite Hx, Hy.
    + now apply IH.
Qed.

Lemma py_round_zero (x : Q) (ndigits : nat) :
  x == 0 -> py_round x ndigits == 0.
Proof.
  intro H. rewrite (py_round_comp x 0 ndigits H). unfold py_round.
  assert (H0 : round_half_even (0 * inject_Z (10 ^ Z.of_nat ndigits)) = 0%Z).
  { rewrite (round_half_even_comp _ 0); [reflexivity | ring]. }
  rewrite H0. unfold Qdiv. apply Qmult_0_l.
Qed.

Lemma py_round_hundred (x : Q) : x == 100 -> py_round x 2 == 100.
Proof. intro H. rewrite (py_round_comp x 100 2 H). reflexivity. Qed.

(** X20.  On closes that are all the same, whatever their number, the
    report is a success report with that close as the price, an undefined
    RSI (no gain and no loss: [0 / 0]) and a MACD, signal and histogram of
    zero. *)
Theorem indicators_flat_market symbol s s' raw c n :
  get_kline "linear" symbol "15" 100 s = (Return raw, s') ->
  map k_close raw = map Return (repeat c n) ->
  (0 < n)%nat ->
  exists m sg h,
    calculate_technical_indicators Session get_kline no_row_text symbol s
    = (Return (IndicatorsSuccess symbol c NaN m sg h), s') /\
    m == 0 /\ sg == 0 /\ h == 0.
Proof.
  intros Hcall Hraw Hn.
  assert (Hnum : to_numeric (map k_close raw) = Return (repeat c n)).
  { rewrite Hraw. apply to_numeric_returns. }
  assert (Hflat : Forall (fun q => q == c) (rev (repeat c n))).
  { apply Forall_forall. intros q Hq. apply in_rev in Hq.
    apply repeat_spec in Hq. now subst q. }
  assert (Hlen : List.length (rev (repeat c n)) = n).
  { now rewrite length_rev, repeat_length. }
  destruct (indicators_success symbol s _ _ _ Hcall Hnum)
    as (price & m & sg & h & Hprice & Hm & Hsg & Hh & Hrun).
  { destruct n; [lia | discriminate]. }
  assert (Hc : price = c).
  { apply iloc_last_in, in_rev in Hprice.
    now apply repeat_spec in Hprice. }
  subst price.
  assert (Hmacd : Forall (fun q => q == 0) (macd_column (rev (repeat c n)))).
  { eapply Forall_weaken;
      [| apply (map2_minus_constant c c); now apply ewm_mean_constant].
    intros x Hx. cbn beta in Hx. lra. }
  assert (Hsignal : Forall (fun q => q == 0)
                      (signal_column (rev (repeat c n)))).
  { now apply ewm_mean_constant. }
  assert (Hhist : Forall (fun q => q == 0)
                    (histogram_column (rev (repeat c n)))).
  { eapply Forall_weaken;
      [| apply (map2_minus_constant 0 0); eassumption].
    intros x Hx. cbn beta in Hx. lra. }
  rewrite Forall_forall in Hmacd, Hsignal, Hhist.
  exists (py_round m 4), (py_round sg 4), (py_round h 4).
  split; [| repeat split; apply py_round_zero;
            [apply Hmacd | apply Hsignal | apply Hhist];
            eapply iloc_last_in; eassumption].
  rewrite Hrun. repeat f_equal.
  destruct (constant_column_gains_losses c _ Hflat) as [Hg Hl].
  destruct (Nat.lt_ge_cases n 14) as [Hfew | Hfull].
  - rewrite window_mean_short; [reflexivity |].
    rewrite where_length, diff_length, Hlen. exact Hfew.
  - assert (Hglen : (0 < 14
                     <= List.length (where_ (fun d => Qltb 0 d) 0
                                       (diff (rev (repeat c n)))))%nat).
    { rewrite where_length, diff_length, Hlen. lia. }
    assert (Hllen : (0 < 14
                     <= List.length
                          (map Qopp (where_ (fun d => Qltb d 0) 0
                                       (diff (rev (repeat c n))))))%nat).
    { rewrite length_map, where_length, diff_length, Hlen. lia. }
    destruct (window_mean_zero 14 _ Hglen Hg) as (g & -> & Hg0).
    destruct (window_mean_zero 14 _ Hllen Hl) as (l & -> & Hl0).
    cbn [of_cell]. destruct (rsi_of_no_loss g l Hl0) as [_ Hnan].
    now rewrite (Hnan Hg0).
Qed.

(** X21.  With at least fourteen candles, closes that each lie above the
    one before give an RSI of 100 (no loss in the window: the division by
    zero gives an infinite quotient, not an error), and closes that each lie
    below the one before give an RSI of 0. *)
Theorem indicators_steady_trend symbol s s' raw numeric :
  get_kline "linear" symbol "15" 100 s = (Return raw, s') ->
  to_numeric (map k_close raw) = Return numeric ->
  (14 <= List.length raw)%nat ->
  (rising (rev numeric) ->
   exists price r m sg h,
     indicators symbol s
     = (Return (IndicatorsSuccess symbol price (Fin r) m sg h), s') /\
     r == 100) /\
  (falling (rev numeric) ->
   exists price r m sg h,
     indicators symbol s
     = (Return (IndicatorsSuccess symbol price (Fin r) m sg h), s') /\
     r == 0).
Proof.
  intros Hcall Hnum Hrows.
  pose proof (to_numeric_length _ _ Hnum) as Hlen.
  rewrite length_map in Hlen.
  assert (Hclose : (14 <= List.length (rev numeric))%nat)
    by (rewrite length_rev; lia).
  destruct (indicators_success symbol s _ _ _ Hcall Hnum)
    as (price & m & sg & h & _ & _ & _ & _ & Hrun).
  { apply nonempty_length. lia. }
  split; intro Htrend.
  - destruct (rising_column_means _ Htrend Hclose)
      as (gain & loss & Hg & Hl & Hgain & Hloss).
    rewrite Hg, Hl in Hrun. cbn [of_cell] in Hrun.
    destruct (rsi_of_no_loss gain loss Hloss) as [Hinf _].
    destruct (Hinf Hgain) as (r & Hr & H100).
    rewrite Hr in Hrun. cbn [fround] in Hrun.
    eexists price, _, _, _, _. split; [exact Hrun |].
    now apply py_round_hundred.
  - destruct (falling_column_means _ Htrend Hclose)
      as (gain & loss & Hg & Hl & Hgain & Hloss).
    rewrite Hg, Hl in Hrun. cbn [of_cell] in Hrun.
    destruct (rsi_of_some_loss gain loss) as (r & Hr & Hval & _);
      [lra | assumption |].
    rewrite Hr in Hrun. cbn [fround] in Hrun.
    eexists price, _, _, _, _. split; [exact Hrun |].
    apply py_round_zero. rewrite Hval.
    assert (Hq : gain / loss == 0).
    { rewrite Hgain. unfold Qdiv. apply Qmult_0_l. }
    rewrite Hq. reflexivity.
Qed.

End IndicatorProperties.

(** * The sliced executor on machine floats: properties *)

(** What follows holds for every subtraction [minus], so for binary64 as
    for exact arithmetic, and for every amount of fuel: for a call that has
    ended as for one that is still running. *)

Lemma paused_orders_trace (symbol side tp_price sl_price : string)
  (filled : list (Q * string)) :
  submissions (paused_orders symbol side tp_price sl_price filled)
  = map (fun q => slice_request symbol side q tp_price sl_price)
      (map fst filled) /\
  outcomes (paused_orders symbol side tp_price sl_price filled)
  = map Return (map snd filled) /\
  sleeps (paused_orders symbol side tp_price sl_price filled)
  = repeat (1 # 10) (List.length filled) /\
  lookups (paused_orders symbol side tp_price sl_price filled) = [].
Proof.
  unfold paused_orders.
  induction filled as [| [q order_id] filled (Hs & Ho & Hp & Hl)];
    [now cbn |].
  cbn. now rewrite Hs, Ho, Hp, Hl.
Qed.

Lemma slice_of_bounds (max_order_qty q : Q) :
  0 < max_order_qty -> slice_of max_order_qty q ->
  0 < q /\ q <= max_order_qty.
Proof.
  intros Hmax (remaining & Hpos & ->).
  destruct (py_min_bounds _ _ Hpos Hmax) as (H0 & Hle & _). now split.
Qed.

Section MachineLoop.

Variable Session : Type.
Variable place_order : OrderRequest -> Session -> Res string * Session.
Variable str_float : Q -> string.
Variable minus : Q -> Q -> Q.
Variables symbol side tp_price sl_price : string.
Variable max_order_qty : Q.

Notation run fuel :=
  (Machine.slicing_loop Session place_order str_float minus fuel symbol side
     tp_price sl_price max_order_qty).
Notation request q := (slice_request symbol side q tp_price sl_price).
Notation paused filled :=
  (paused_orders symbol side tp_price sl_price filled).
Notation entry := (slice_entry str_float).

Lemma machine_loop_exit fuel remaining orders (w : World Session) :
  remaining <= 0 -> run fuel remaining orders w = (Some (Return orders), w).
Proof.
  intro H. apply Qltb_ge in H. destruct fuel; simpl; now rewrite H.
Qed.

Lemma machine_loop_no_fuel remaining orders (w : World Session) :
  0 < remaining -> run O remaining orders w = (None, w).
Proof. intro H. apply Qltb_lt in H. simpl. now rewrite H. Qed.

Lemma machine_loop_step fuel remaining orders (w : World Session) :
  0 < remaining ->
  run (S fuel) remaining orders w =
  let q := py_min remaining max_order_qty in
  match place_order (request q) (sess w) with
  | (Raise e, s') =>
      (Some (Raise e),
       mkWorld s' (log w ++ [PlaceOrder (request q) (Raise e)]))
  | (Return order_id, s') =>
      run fuel (minus remaining q) (orders ++ [entry q order_id])
        (mkWorld s'
           (log w ++ PlaceOrder (request q) (Return order_id)
            :: (if Qltb 0 (minus remaining q) then [Sleep (1 # 10)]
                else [])))
  end.
Proof.
  intro H. apply Qltb_lt in H. simpl. rewrite H.
  unfold Machine.bind at 1, Machine.session_place_order.
  destruct (place_order _ (sess w)) as [[order_id | e] s']; [| reflexivity].
  unfold Machine.bind, Machine.time_sleep, Machine.emit, Machine.ret.
  destruct (Qltb 0 (minus remaining (py_min remaining max_order_qty)));
    cbn [sess log]; rewrite <- ?app_assoc; reflexivity.
Qed.

(** Every run of the loop from a positive remainder, ended or not: slices
    that were accepted and followed by a pause, then, if the loop has
    ended, one last submission that was accepted or raised. *)
Lemma machine_loop_trace fuel :
  forall remaining orders (w : World Session),
    0 < remaining ->
    exists out w' filled,
      run fuel remaining orders w = (out, w') /\
      Forall (slice_of max_order_qty) (map fst filled) /\
      match out with
      | None =>
          List.length filled = fuel /\
          log w' = (log w ++ paused filled)%list
      | Some r =>
          exists q reply,
            slice_of max_order_qty q /\
            log w' = (log w ++ paused filled
                      ++ [PlaceOrder (request q) reply])%list /\
            r = match reply with
                | Return order_id =>
                    Return (orders ++ filled_entries str_float filled
                            ++ [entry q order_id])%list
                | Raise e => Raise e
                end
      end.
Proof.
  induction fuel as [| fuel IH]; intros remaining orders w Hpos.
  - exists None, w, []. rewrite machine_loop_no_fuel by assumption.
    repeat split; [constructor | now rewrite app_nil_r].
  - rewrite machine_loop_step by assumption. cbv zeta.
    set (q := py_min remaining max_order_qty).
    assert (Hq : slice_of max_order_qty q) by now exists remaining.
    destruct (place_order (request q) (sess w)) as [[order_id | e] s'].
    + destruct (Qltb 0 (minus remaining q)) eqn:Hrest.
      * apply Qltb_lt in Hrest.
        destruct (IH (minus remaining q) (orders ++ [entry q order_id])%list
                    (mkWorld s'
                       (log w ++ [PlaceOrder (request q) (Return order_id);
                                  Sleep (1 # 10)])) Hrest)
          as (out & w' & filled & Hrun & Hall & Hout).
        exists out, w', ((q, order_id) :: filled).
        split; [exact Hrun |]. split; [now constructor |].
        cbn [log] in Hout.
        destruct out as [r |].
        -- destruct Hout as (q' & reply & Hq' & Hlog & Hr).
           exists q', reply. split; [exact Hq' |]. split.
           ++ rewrite Hlog, <- app_assoc. reflexivity.
           ++ rewrite Hr. destruct reply; [| reflexivity].
              cbn [filled_entries map fst snd]. now rewrite <- !app_assoc.
        -- destruct Hout as [Hlen Hlog]. split; [cbn; now rewrite Hlen |].
           rewrite Hlog, <- app_assoc. reflexivity.
      * apply Qltb_ge in Hrest.
        rewrite machine_loop_exit by assumption.
        eexists _, _, []. split; [reflexivity |]. split; [constructor |].
        exists q, (Return order_id). repeat split; auto.
    + eexists _, _, []. split; [reflexivity |]. split; [constructor |].
      exists q, (Raise e). repeat split; auto.
Qed.

End MachineLoop.

Section MachineExecutor.

Variable Session : Type.
Variable get_instruments_info :
  string -> string -> Session -> Res (list Instrument) * Session.
Variable place_order : OrderRequest -> Session -> Res string * Session.
Variable str_float : Q -> string.
Variable minus : Q -> Q -> Q.
Variables symbol side tp_price sl_price : string.
Variable total_qty : Q.
Variable w : World Session.

Notation sliced :=
  (Machine.advanced_sliced_executor Session get_instruments_info place_order
     str_float minus).
Notation loop := (Machine.slicing_loop Session place_order str_float minus).
Notation request q := (slice_request symbol side q tp_price sl_price).
Notation paused filled :=
  (paused_orders symbol side tp_price sl_price filled).
Notation entry := (slice_entry str_float).
Notation lookup_event := (GetInstrumentsInfo "linear" symbol).

Ltac run_machine :=
  unfold Machine.advanced_sliced_executor, Machine.try_except, Machine.bind,
    Machine.session_get_instruments_info, Machine.lift, Machine.ret.

(** The loop only adds to the trace. *)
Lemma machine_loop_log fuel max_order_qty remaining orders
  (w0 : World Session) :
  exists evs,
    log (snd (loop fuel symbol side tp_price sl_price max_order_qty
                remaining orders w0))
    = (log w0 ++ evs)%list.
Proof.
  destruct (Qlt_le_dec 0 remaining) as [Hpos | Hle].
  - destruct (machine_loop_trace Session place_order str_float minus symbol
                side tp_price sl_price max_order_qty fuel remaining orders w0
                Hpos)
      as (out & w' & filled & Hrun & _ & Hout).
    rewrite Hrun. cbn [snd]. destruct out as [r |].
    + destruct Hout as (q & reply & _ & Hlog & _). eexists. exact Hlog.
    + destruct Hout as [_ Hlog]. eexists. exact Hlog.
  - rewrite machine_loop_exit by assumption. exists []. cbn.
    now rewrite app_nil_r.
Qed.

(** A call whose lookup does not give an instrument with readable lot
    limits and a total at least the minimum ends after the lookup, with a
    text. *)
Lemma machine_sliced_stops_early fuel :
  (forall first rest s1 max_order_qty min_order_qty,
     get_instruments_info "linear" symbol (sess w)
     = (Return (first :: rest), s1) ->
     maxOrderQty first = Return max_order_qty ->
     minOrderQty first = Return min_order_qty ->
     total_qty < min_order_qty) ->
  exists text,
    sliced fuel symbol side total_qty tp_price sl_price w
    = (Some (Return text),
       mkWorld (snd (get_instruments_info "linear" symbol (sess w)))
         (log w ++ [lookup_event])).
Proof.
  intro Hearly. run_machine.
  destruct (get_instruments_info "linear" symbol (sess w))
    as [[[| first rest] | e] s1] eqn:Hlookup; cbn [snd];
    [now eexists | | now eexists].
  destruct (maxOrderQty first) as [mx | e] eqn:Hmx; [| now eexists].
  destruct (minOrderQty first) as [mn | e] eqn:Hmn; [| now eexists].
  specialize (Hearly _ _ _ _ _ eq_refl Hmx Hmn). apply Qltb_lt in Hearly.
  rewrite Hearly. now eexists.
Qed.

Section Instrument.

Variables (first : Instrument) (rest : list Instrument) (s1 : Session).
Variables max_order_qty min_order_qty : Q.

Hypothesis lookup_ok :
  get_instruments_info "linear" symbol (sess w) = (Return (first :: rest), s1).
Hypothesis max_ok : maxOrderQty first = Return max_order_qty.
Hypothesis min_ok : minOrderQty first = Return min_order_qty.

Notation banner :=
  (Stdout ("Executing total " ++ side ++ " order for "
           ++ str_float total_qty ++ " " ++ symbol
           ++ ". Max per order: " ++ str_float max_order_qty)).

Lemma machine_sliced_enters_loop fuel :
  min_order_qty <= total_qty ->
  sliced fuel symbol side total_qty tp_price sl_price w =
  match loop fuel symbol side tp_price sl_price max_order_qty total_qty []
          (mkWorld s1 (log w ++ [lookup_event; banner])) with
  | (None, w') => (None, w')
  | (Some (Return orders_executed), w') =>
      (Some (Return (success_report str_float symbol total_qty
                       orders_executed)), w')
  | (Some (Raise e), w') => (Some (Return ("CRITICAL FAILURE: " ++ e)), w')
  end.
Proof.
  intro H. apply Qltb_ge in H. run_machine.
  rewrite lookup_ok. cbn. rewrite max_ok, min_ok. cbn. rewrite H.
  unfold Machine.print, Machine.emit. cbn [sess log].
  rewrite <- app_assoc. cbn [app].
  destruct (Machine.slicing_loop _ _ _ _ _ _ _ _ _ _ _ _ _)
    as [[[os | e] |] w']; reflexivity.
Qed.

(** Every call that passes the validations with a positive total, ended
    or not, in any arithmetic. *)
Lemma machine_sliced_trace fuel :
  min_order_qty <= total_qty -> 0 < total_qty ->
  exists out w' filled,
    sliced fuel symbol side total_qty tp_price sl_price w = (out, w') /\
    Forall (slice_of max_order_qty) (map fst filled) /\
    match out with
    | None =>
        List.length filled = fuel /\
        log w' = (log w ++ lookup_event :: banner :: paused filled)%list
    | Some r =>
        exists q reply,
          slice_of max_order_qty q /\
          log w' = (log w ++ lookup_event :: banner :: paused filled
                    ++ [PlaceOrder (request q) reply])%list /\
          r = Return
                match reply with
                | Return order_id =>
                    success_report str_float symbol total_qty
                      (filled_entries str_float filled ++ [entry q order_id])
                | Raise e => "CRITICAL FAILURE: " ++ e
                end
    end.
Proof.
  intros Hmin Htotal. rewrite machine_sliced_enters_loop by assumption.
  destruct (machine_loop_trace Session place_order str_float minus symbol
              side tp_price sl_price max_order_qty fuel total_qty []
              (mkWorld s1 (log w ++ [lookup_event; banner])) Htotal)
    as (out & w' & filled & Hrun & Hall & Hout).
  rewrite Hrun. cbn [log] in Hout.
  destruct out as [r |].
  - destruct Hout as (q & reply & Hq & Hlog & Hr).
    rewrite <- app_assoc in Hlog. cbn [app] in Hlog.
    destruct reply as [order_id | e]; subst r;
      eexists _, w', filled; (split; [reflexivity |]);
      (split; [exact Hall |]); eexists q, _;
      (split; [exact Hq |]); (split; [exact Hlog |]); reflexivity.
  - destruct Hout as [Hlen Hlog].
    rewrite <- app_assoc in Hlog. cbn [app] in Hlog.
    exists None, w', filled. repeat split; auto.
Qed.

(** X1.  In any arithmetic, a call that passes the validations with a
    positive total pauses a tenth of a second exactly once between two
    consecutive submissions and nowhere else.  After the lookup and the
    printed line its effects are accepted slices, each followed by one
    pause; a call that has ended then made one last submission (accepted or
    raising) that nothing follows, and a call that is still running after
    [fuel] iterations has made [fuel] submissions, each followed by its
    pause. *)
Theorem sliced_pauses_between_slices fuel :
  min_order_qty <= total_qty -> 0 < total_qty ->
  exists out w' evs filled,
    sliced fuel symbol side total_qty tp_price sl_price w = (out, w') /\
    log w' = (log w ++ evs)%list /\
    match out with
    | Some _ =>
        sleeps evs = repeat (1 # 10) (List.length (submissions evs) - 1) /\
        exists q reply,
          evs = (lookup_event :: banner :: paused filled
                 ++ [PlaceOrder (request q) reply])%list
    | None =>
        sleeps evs = repeat (1 # 10) (List.length (submissions evs)) /\
        List.length (submissions evs) = fuel /\
        evs = (lookup_event :: banner :: paused filled)%list
    end.
Proof.
  intros Hmin Htotal.
  destruct (machine_sliced_trace fuel Hmin Htotal)
    as (out & w' & filled & Hrun & _ & Hout).
  destruct (paused_orders_trace symbol side tp_price sl_price filled)
    as (Hsub & _ & Hsleep & _).
  destruct out as [r |].
  - destruct Hout as (q & reply & _ & Hlog & _).
    eexists _, w', _, filled. split; [exact Hrun |].
    split; [exact Hlog |]. split; [| now exists q, reply].
    cbn [sleeps submissions].
    rewrite sleeps_app, submissions_app, Hsub, Hsleep. cbn.
    rewrite app_nil_r, length_app, !length_map. cbn [List.length].
    f_equal. lia.
  - destruct Hout as [Hlen Hlog].
    eexists _, w', _, filled. split; [exact Hrun |].
    split; [exact Hlog |]. cbn [sleeps submissions].
    rewrite Hsub, Hsleep, !length_map. repeat split; auto.
Qed.

(** X3.  In any arithmetic, the text returned by a call that passes the
    validations starts with ["SUCCESS:"] exactly when every submission was
    accepted, and it then lists, in order, each slice quantity with the
    order identifier the exchange gave for it; the call never raises, and
    as long as it is running every submission was accepted. *)
Theorem sliced_report_lists_slices fuel :
  min_order_qty <= total_qty ->
  exists out w' evs,
    sliced fuel symbol side total_qty tp_price sl_price w = (out, w') /\
    log w' = (log w ++ evs)%list /\
    match out with
    | Some (Return text) =>
        (Forall placed (outcomes evs)
         <-> String.prefix "SUCCESS:" text = true) /\
        (Forall placed (outcomes evs) ->
         exists ids,
           outcomes evs = map Return ids /\
           text = success_report str_float symbol total_qty
                    (slice_entries str_float
                       (slice_qtys (submissions evs)) ids))
    | Some (Raise _) => False
    | None => Forall placed (outcomes evs)
    end.
Proof.
  intro Hmin. destruct (Qlt_le_dec 0 total_qty) as [Htotal | Hnone].
  2: { rewrite machine_sliced_enters_loop by assumption.
       rewrite machine_loop_exit by assumption.
       eexists _, _, [lookup_event; banner]. split; [reflexivity |].
       split; [reflexivity |]. cbn [outcomes]. split.
       - split; [reflexivity | constructor].
       - intros _. now exists []. }
  destruct (machine_sliced_trace fuel Hmin Htotal)
    as (out & w' & filled & Hrun & _ & Hout).
  destruct (paused_orders_trace symbol side tp_price sl_price filled)
    as (Hsub & Hans & _ & _).
  destruct out as [r |].
  - destruct Hout as (q & reply & _ & Hlog & ->).
    eexists _, w', _. split; [exact Hrun |]. split; [exact Hlog |].
    cbn [outcomes submissions].
    rewrite outcomes_app, submissions_app, Hans, Hsub. cbn [outcomes submissions].
    destruct reply as [order_id | e].
    + change [Return order_id] with (map (@Return string) [order_id]).
      rewrite <- map_app.
      split; [split; intros _; [reflexivity | apply placed_returns] |].
      intros _. exists (map snd filled ++ [order_id])%list.
      split; [reflexivity |]. f_equal.
      change [request q] with (map (fun q => request q) [q]).
      rewrite <- map_app, slice_qtys_requests.
      unfold slice_entries, filled_entries.
      clear. induction filled as [| [q0 id0] filled IH]; [reflexivity |].
      cbn. now rewrite IH.
    + split.
      * split.
        -- intro Hall. now apply placed_all_but_raise in Hall.
        -- intro Hprefix. cbn in Hprefix. discriminate Hprefix.
      * intro Hall. now apply placed_all_but_raise in Hall.
  - destruct Hout as [_ Hlog].
    eexists _, w', _. split; [exact Hrun |]. split; [exact Hlog |].
    cbn [outcomes]. rewrite Hans. apply placed_returns.
Qed.

(** X22.  When the machine subtraction takes nothing off the total (the
    slice is absorbed by rounding, or is zero) and the exchange accepts
    every order, the call never ends: after any number of iterations it is
    still running and has submitted that many orders of the same slice. *)
Theorem sliced_absorbed_slice_never_ends fuel :
  min_order_qty <= total_qty -> 0 < total_qty ->
  minus total_qty (py_min total_qty max_order_qty) = total_qty ->
  (forall req s, exists order_id s', place_order req s = (Return order_id, s')) ->
  exists w' evs,
    sliced fuel symbol side total_qty tp_price sl_price w = (None, w') /\
    log w' = (log w ++ lookup_event :: banner :: evs)%list /\
    submissions evs
    = repeat (request (py_min total_qty max_order_qty)) fuel /\
    Forall placed (outcomes evs).
Proof.
  intros Hmin Htotal Habsorbed Haccepts.
  rewrite machine_sliced_enters_loop by assumption.
  assert (Hloop : forall n orders (w0 : World Session),
             exists w' evs,
               loop n symbol side tp_price sl_price max_order_qty total_qty
                 orders w0 = (None, w') /\
               log w' = (log w0 ++ evs)%list /\
               submissions evs
               = repeat (request (py_min total_qty max_order_qty)) n /\
               Forall placed (outcomes evs)).
  { induction n as [| n IH]; intros orders w0.
    - rewrite machine_loop_no_fuel by assumption.
      exists w0, []. repeat split; [now rewrite app_nil_r | constructor].
    - rewrite machine_loop_step by assumption. cbv zeta.
      destruct (Haccepts (request (py_min total_qty max_order_qty)) (sess w0))
        as (order_id & s' & ->).
      rewrite Habsorbed.
      destruct (IH (orders
                    ++ [entry (py_min total_qty max_order_qty) order_id])%list
                  (mkWorld s'
                     (log w0
                      ++ PlaceOrder
                           (request (py_min total_qty max_order_qty))
                           (Return order_id)
                         :: (if Qltb 0 total_qty then [Sleep (1 # 10)]
                             else []))))
        as (w' & evs & Hrun & Hlog & Hsub & Hall).
      exists w'. eexists. split; [exact Hrun |]. cbn [log] in Hlog.
      rewrite <- app_assoc in Hlog. split; [exact Hlog |].
      rewrite submissions_app, outcomes_app.
      destruct (Qltb 0 total_qty); cbn [submissions outcomes app];
        rewrite Hsub; (split; [reflexivity |]);
        (constructor; [now exists order_id | exact Hall]). }
  destruct (Hloop fuel [] (mkWorld s1 (log w ++ [lookup_event; banner])))
    as (w' & evs & Hrun & Hlog & Hsub & Hall).
  rewrite Hrun. exists w', evs. split; [reflexivity |].
  cbn [log] in Hlog. rewrite <- app_assoc in Hlog. now repeat split.
Qed.

End Instrument.

(** C4.  In any arithmetic, every slice quantity the executor submits is
    positive and at most the instrument's maximum, when that maximum is
    positive: whatever the total and the fuel, for a call that has ended as
    for one that is still running. *)
Theorem slices_within_bounds first rest s1 max_order_qty fuel :
  get_instruments_info "linear" symbol (sess w)
  = (Return (first :: rest), s1) ->
  maxOrderQty first = Return max_order_qty ->
  0 < max_order_qty ->
  exists out w' evs,
    sliced fuel symbol side total_qty tp_price sl_price w = (out, w') /\
    log w' = (log w ++ evs)%list /\
    Forall (fun q => 0 < q /\ q <= max_order_qty)
      (slice_qtys (submissions evs)).
Proof.
  intros Hlookup Hmx Hmax.
  assert (Hearly :
            (forall mn, minOrderQty first = Return mn -> total_qty < mn) ->
            exists out w' evs,
              sliced fuel symbol side total_qty tp_price sl_price w
              = (out, w') /\
              log w' = (log w ++ evs)%list /\
              Forall (fun q => 0 < q /\ q <= max_order_qty)
                (slice_qtys (submissions evs))).
  { intro Hsmall.
    destruct (machine_sliced_stops_early fuel) as [text Hrun].
    - intros first' rest' s1' mx' mn' Hlookup' _ Hmn'.
      rewrite Hlookup in Hlookup'. injection Hlookup' as <- _ _.
      now apply Hsmall.
    - eexists _, _, [lookup_event]. split; [exact Hrun |].
      split; [reflexivity | constructor]. }
  destruct (minOrderQty first) as [mn | e] eqn:Hmn;
    [| apply Hearly; intros mn Heq; discriminate Heq].
  destruct (Qlt_le_dec total_qty mn) as [Hsmall | Hmin];
    [apply Hearly; intros mn' Heq; now injection Heq as <- |].
  clear Hearly.
  destruct (Qlt_le_dec 0 total_qty) as [Htotal | Hnone].
  - destruct (machine_sliced_trace first rest s1 max_order_qty mn Hlookup
                Hmx Hmn fuel Hmin Htotal)
      as (out & w' & filled & Hrun & Hall & Hout).
    destruct (paused_orders_trace symbol side tp_price sl_price filled)
      as (Hsub & _ & _ & _).
    assert (Hfilled : Forall (fun q => 0 < q /\ q <= max_order_qty)
                        (map fst filled)).
    { eapply Forall_impl; [| exact Hall].
      intros q Hq. now apply slice_of_bounds. }
    destruct out as [r |].
    + destruct Hout as (q & reply & Hq & Hlog & _).
      eexists _, w', _. split; [exact Hrun |]. split; [exact Hlog |].
      cbn [submissions]. rewrite submissions_app, Hsub. cbn [submissions].
      change [request q] with (map (fun q => request q) [q]).
      rewrite <- map_app, slice_qtys_requests.
      apply Forall_app. split; [exact Hfilled |].
      constructor; [now apply slice_of_bounds | constructor].
    + destruct Hout as [_ Hlog].
      eexists _, w', _. split; [exact Hrun |]. split; [exact Hlog |].
      cbn [submissions]. now rewrite Hsub, slice_qtys_requests.
  - rewrite (machine_sliced_enters_loop first rest s1 max_order_qty mn
               Hlookup Hmx Hmn fuel Hmin).
    rewrite machine_loop_exit by assumption.
    eexists _, _, _. split; [reflexivity |]. split; [reflexivity |].
    constructor.
Qed.

(** C8.  [place_market_order] looks at the instrument's status before it
    submits: with a status other than ["Trading"] it returns an error text
    and places no order, with ["Trading"] it submits the caller's order.
    The sliced executor never reads the status: whatever it is, a call
    that passes the executor's own validations submits its first slice, in
    any arithmetic.  This holds for every symbol whose instrument lookup
    succeeds. *)
Theorem status_checked_only_by_single_shot (qty category : string)
  first rest s1 :
  get_instruments_info "linear" symbol (sess w)
  = (Return (first :: rest), s1) ->
  (status first <> "Trading" ->
   exists w1,
     place_market_order Session get_instruments_info place_order
       symbol side qty tp_price sl_price category w
     = Some (Return ("Error: " ++ symbol ++ " exists but is currently "
                     ++ status first ++ "."), w1) /\
     log w1 = (log w ++ [lookup_event])%list /\
     submissions (log w1) = submissions (log w)) /\
  (status first = "Trading" ->
   exists text w1 reply,
     place_market_order Session get_instruments_info place_order
       symbol side qty tp_price sl_price category w
     = Some (Return text, w1) /\
     log w1
     = (log w
        ++ [lookup_event;
            PlaceOrder
              (mkOrderRequest category symbol side "Market" (QtyStr qty)
                 (Some tp_price) (Some sl_price) (Some "MarkPrice")
                 (Some "MarkPrice") (Some "Full") None) reply])%list) /\
  (forall max_order_qty min_order_qty fuel,
     maxOrderQty first = Return max_order_qty ->
     minOrderQty first = Return min_order_qty ->
     min_order_qty <= total_qty -> 0 < total_qty ->
     exists out w' reply evs,
       sliced (S fuel) symbol side total_qty tp_price sl_price w
       = (out, w') /\
       log w'
       = (log w
          ++ lookup_event
             :: Stdout ("Executing total " ++ side ++ " order for "
                        ++ str_float total_qty ++ " " ++ symbol
                        ++ ". Max per order: " ++ str_float max_order_qty)
             :: PlaceOrder (request (py_min total_qty max_order_qty)) reply
             :: evs)%list).
Proof.
  intro Hlookup. split; [| split].
  - intro Hstatus. apply String.eqb_neq in Hstatus.
    exists (mkWorld s1 (log w ++ [lookup_event])).
    split; [| split].
    + unfold place_market_order, try_except, bind,
        session_get_instruments_info.
      rewrite Hlookup. cbn. now rewrite Hstatus.
    + reflexivity.
    + cbn [log]. rewrite submissions_app. simpl. apply app_nil_r.
  - intro Hstatus. apply String.eqb_eq in Hstatus.
    unfold place_market_order, try_except, bind,
      session_get_instruments_info, session_place_order.
    rewrite Hlookup. cbn. rewrite Hstatus. cbn.
    destruct (place_order _ s1) as [[order_id | e] s2] eqn:Hplace;
      cbn; rewrite <- app_assoc; cbn [app];
      eexists _, _, _; split; reflexivity.
  - intros max_order_qty min_order_qty fuel Hmx Hmn Hmin Htotal.
    rewrite (machine_sliced_enters_loop first rest s1 max_order_qty
               min_order_qty Hlookup Hmx Hmn (S fuel) Hmin).
    rewrite machine_loop_step by assumption. cbv zeta.
    destruct (place_order (request (py_min total_qty max_order_qty)) _)
      as [[order_id | e] s2].
    + match goal with
      | |- context [loop fuel symbol side tp_price sl_price max_order_qty
                      ?r ?os ?w0] =>
          destruct (machine_loop_log fuel max_order_qty r os w0) as [evs Hlog];
          destruct (loop fuel symbol side tp_price sl_price max_order_qty
                      r os w0) as [out w'] eqn:Hrun
      end.
      cbn [snd log] in Hlog.
      exists (match out with
              | Some (Return os) =>
                  Some (Return (success_report str_float symbol total_qty os))
              | Some (Raise e) => Some (Return ("CRITICAL FAILURE: " ++ e))
              | None => None
              end), w', (Return order_id).
      eexists. split; [now destruct out as [[os | e] |] |].
      rewrite Hlog, <- !app_assoc. cbn [app]. reflexivity.
    + eexists _, _, (Raise e), []. split; [reflexivity |].
      cbn [log]. rewrite <- app_assoc. reflexivity.
Qed.

End MachineExecutor.

(** ** The machine loop under exact subtraction *)

Section Exact.

Variable Session : Type.
Variable get_instruments_info :
  string -> string -> Session -> Res (list Instrument) * Session.
Variable place_order : OrderRequest -> Session -> Res string * Session.
Variable str_float : Q -> string.
Variable minus : Q -> Q -> Q.

Hypothesis exact : forall x y, minus x y = x - y.

(** With a subtraction that does not round, the machine loop is the loop
    on rationals: the same result and trace when that one ends, still
    running when that one is out of fuel. *)
Lemma machine_loop_exact symbol side tp_price sl_price max_order_qty fuel :
  forall remaining orders (w : World Session),
    match slicing_loop Session place_order str_float fuel symbol side
            tp_price sl_price max_order_qty remaining orders w with
    | Some (r, w') =>
        Machine.slicing_loop Session place_order str_float minus fuel symbol
          side tp_price sl_price max_order_qty remaining orders w
        = (Some r, w')
    | None =>
        fst (Machine.slicing_loop Session place_order str_float minus fuel
               symbol side tp_price sl_price max_order_qty remaining orders w)
        = None
    end.
Proof.
  induction fuel as [| fuel IH]; intros remaining orders w.
  - destruct (Qlt_le_dec 0 remaining) as [Hpos | Hle].
    + rewrite slicing_loop_no_fuel, machine_loop_no_fuel by assumption.
      reflexivity.
    + rewrite slicing_loop_exit, machine_loop_exit by assumption.
      reflexivity.
  - destruct (Qlt_le_dec 0 remaining) as [Hpos | Hle].
    + rewrite slicing_loop_step, machine_loop_step by assumption.
      cbv zeta. unfold iteration_events. rewrite exact.
      destruct (place_order _ (sess w)) as [[order_id | e] s'];
        [apply IH | reflexivity].
    + rewrite slicing_loop_exit, machine_loop_exit by assumption.
      reflexivity.
Qed.

Lemma machine_sliced_exact fuel symbol side total_qty tp_price sl_price
  (w : World Session) :
  match advanced_sliced_executor Session get_instruments_info place_order
          str_float fuel symbol side total_qty tp_price sl_price w with
  | Some (r, w') =>
      Machine.advanced_sliced_executor Session get_instruments_info
        place_order str_float minus fuel symbol side total_qty tp_price
        sl_price w
      = (Some r, w')
  | None =>
      fst (Machine.advanced_sliced_executor Session get_instruments_info
             place_order str_float minus fuel symbol side total_qty tp_price
             sl_price w)
      = None
  end.
Proof.
  destruct (get_instruments_info "linear" symbol (sess w))
    as [[[| first rest] | e] s1] eqn:Hlookup.
  - rewrite (sliced_unknown_symbol Session get_instruments_info place_order
               str_float symbol side tp_price sl_price total_qty w fuel s1
               Hlookup).
    unfold Machine.advanced_sliced_executor, Machine.try_except,
      Machine.bind, Machine.session_get_instruments_info.
    now rewrite Hlookup.
  - unfold advanced_sliced_executor, Machine.advanced_sliced_executor,
      try_except, Machine.try_except, bind, Machine.bind,
      session_get_instruments_info, Machine.session_get_instruments_info,
      lift, Machine.lift.
    rewrite Hlookup.
    destruct (maxOrderQty first) as [mx | e]; [| reflexivity].
    destruct (minOrderQty first) as [mn | e]; [| reflexivity].
    destruct (Qltb total_qty mn); [reflexivity |].
    cbn [print Machine.print emit Machine.emit sess log].
    match goal with
    | |- context [slicing_loop _ _ _ fuel _ _ _ _ ?mx0 ?r0 ?os0 ?w0] =>
        pose proof (machine_loop_exact symbol side tp_price sl_price mx0
                      fuel r0 os0 w0) as Hloop;
        destruct (slicing_loop Session place_order str_float fuel symbol side
                    tp_price sl_price mx0 r0 os0 w0) as [[[os | e] w'] |]
    end.
    + now rewrite Hloop.
    + now rewrite Hloop.
    + destruct (Machine.slicing_loop _ _ _ _ _ _ _ _ _ _ _ _ _)
        as [[r |] w']; [discriminate Hloop | reflexivity].
  - rewrite (sliced_lookup_raises Session get_instruments_info place_order
               str_float symbol side tp_price sl_price total_qty w fuel e s1
               Hlookup).
    unfold Machine.advanced_sliced_executor, Machine.try_except,
      Machine.bind, Machine.session_get_instruments_info.
    now rewrite Hlookup.
Qed.

End Exact.

(** ** Every call *)

Section MachineAlways.

Variable Session : Type.
Variable get_instruments_info :
  string -> string -> Session -> Res (list Instrument) * Session.
Variable place_order : OrderRequest -> Session -> Res string * Session.
Variable str_float : Q -> string.
Variable minus : Q -> Q -> Q.
Variables symbol side tp_price sl_price : string.
Variable total_qty : Q.
Variable w : World Session.

Notation sliced :=
  (Machine.advanced_sliced_executor Session get_instruments_info place_order
     str_float minus).
Notation lookup_event := (GetInstrumentsInfo "linear" symbol).

(** Whatever the exchange answers, after any number of iterations: the
    submissions were all accepted and the call has returned a text or is
    still running, or the last submission raised and the call has returned
    the failure text. *)
Lemma machine_sliced_result fuel :
  exists out w' evs ids,
    sliced fuel symbol side total_qty tp_price sl_price w = (out, w') /\
    log w' = (log w ++ lookup_event :: evs)%list /\
    (outcomes evs = map Return ids /\
     (out = None \/ exists text, out = Some (Return text)) \/
     exists e,
       outcomes evs = (map Return ids ++ [Raise e])%list /\
       out = Some (Return ("CRITICAL FAILURE: " ++ e))).
Proof.
  assert (Hearly :
            (forall first rest s1 mx mn,
               get_instruments_info "linear" symbol (sess w)
               = (Return (first :: rest), s1) ->
               maxOrderQty first = Return mx ->
               minOrderQty first = Return mn ->
               total_qty < mn) ->
            exists out w' evs ids,
              sliced fuel symbol side total_qty tp_price sl_price w
              = (out, w') /\
              log w' = (log w ++ lookup_event :: evs)%list /\
              (outcomes evs = map Return ids /\
               (out = None \/ exists text, out = Some (Return text)) \/
               exists e,
                 outcomes evs = (map Return ids ++ [Raise e])%list /\
                 out = Some (Return ("CRITICAL FAILURE: " ++ e)))).
  { intro Hsmall.
    destruct (machine_sliced_stops_early Session get_instruments_info
                place_order str_float minus symbol side tp_price sl_price
                total_qty w fuel Hsmall) as [text Hrun].
    eexists _, _, [], []. split; [exact Hrun |]. split; [reflexivity |].
    left. split; [reflexivity |]. right. now exists text. }
  destruct (get_instruments_info "linear" symbol (sess w))
    as [[[| first rest] | e] s1] eqn:Hlookup;
    try (apply Hearly; intros; discriminate).
  destruct (maxOrderQty first) as [mx | e] eqn:Hmx.
  2: { apply Hearly. intros first' rest' s1' mx' mn' Heq Hmx' _.
       injection Heq as <- _ _. rewrite Hmx in Hmx'. discriminate Hmx'. }
  destruct (minOrderQty first) as [mn | e] eqn:Hmn.
  2: { apply Hearly. intros first' rest' s1' mx' mn' Heq _ Hmn'.
       injection Heq as <- _ _. rewrite Hmn in Hmn'. discriminate Hmn'. }
  destruct (Qlt_le_dec total_qty mn) as [Hsmall | Hmin].
  { apply Hearly. intros first' rest' s1' mx' mn' Heq _ Hmn'.
    injection Heq as <- _ _. rewrite Hmn in Hmn'. now injection Hmn' as <-. }
  clear Hearly.
  destruct (Qlt_le_dec 0 total_qty) as [Htotal | Hnone].
  - destruct (machine_sliced_trace Session get_instruments_info place_order
                str_float minus symbol side tp_price sl_price total_qty w
                first rest s1 mx mn Hlookup Hmx Hmn fuel Hmin Htotal)
      as (out & w' & filled & Hrun & _ & Hout).
    destruct (paused_orders_trace symbol side tp_price sl_price filled)
      as (_ & Hans & _ & _).
    destruct out as [r |].
    + destruct Hout as (q & reply & _ & Hlog & ->).
      destruct reply as [order_id | e].
      * eexists _, w', _, (map snd filled ++ [order_id])%list.
        split; [exact Hrun |]. split; [exact Hlog |].
        left. cbn [outcomes]. rewrite outcomes_app, Hans, map_app.
        split; [reflexivity |]. right. now eexists.
      * eexists _, w', _, (map snd filled).
        split; [exact Hrun |]. split; [exact Hlog |].
        right. exists e. cbn [outcomes]. rewrite outcomes_app, Hans.
        split; reflexivity.
    + destruct Hout as [_ Hlog].
      eexists _, w', _, (map snd filled).
      split; [exact Hrun |]. split; [exact Hlog |].
      left. cbn [outcomes]. split; [exact Hans | now left].
  - rewrite (machine_sliced_enters_loop Session get_instruments_info
               place_order str_float minus symbol side tp_price sl_price
               total_qty w first rest s1 mx mn Hlookup Hmx Hmn fuel Hmin).
    rewrite machine_loop_exit by assumption.
    eexists _, _, _, []. split; [reflexivity |]. split; [reflexivity |].
    left. split; [reflexivity |]. right. now eexists.
Qed.

(** With a subtraction that does not round, a call ends when every
    instrument the lookup can give has a positive maximum. *)
Lemma machine_sliced_ends_when_exact :
  (forall x y, minus x y = x - y) ->
  (forall first rest s1 mx,
     get_instruments_info "linear" symbol (sess w)
     = (Return (first :: rest), s1) ->
     maxOrderQty first = Return mx -> 0 < mx) ->
  exists n text w',
    forall fuel,
      (n <= fuel)%nat ->
      sliced fuel symbol side total_qty tp_price sl_price w
      = (Some (Return text), w').
Proof.
  intros Hexact Hmax.
  destruct (sliced_finishes Session get_instruments_info place_order
              str_float symbol side tp_price sl_price total_qty w Hmax)
    as (text & w' & n & Hfin).
  exists n, text, w'. intros fuel Hfuel.
  pose proof (machine_sliced_exact Session get_instruments_info place_order
                str_float minus Hexact fuel symbol side total_qty tp_price
                sl_price w) as Hsame.
  now rewrite (Hfin fuel Hfuel) in Hsame.
Qed.

(** C10, as amended.  The sliced executor never raises to its caller: in
    any arithmetic and whatever the exchange answers, after any number of
    iterations the call has returned a text or is still running.  It need
    not return; with a subtraction that does not round it does return when
    every instrument the lookup can give has a positive maximum.  When a
    slice submission raises, after any number of accepted slices, the text
    returned is ["CRITICAL FAILURE: "] followed by the error and nothing
    else: the entries recorded for the accepted slices are not part of
    it. *)
Theorem sliced_never_raises :
  (forall fuel,
     exists w',
       sliced fuel symbol side total_qty tp_price sl_price w = (None, w') \/
       exists text,
         sliced fuel symbol side total_qty tp_price sl_price w
         = (Some (Return text), w')) /\
  ((forall x y, minus x y = x - y) ->
   (forall first rest s1 mx,
      get_instruments_info "linear" symbol (sess w)
      = (Return (first :: rest), s1) ->
      maxOrderQty first = Return mx -> 0 < mx) ->
   exists n text w',
     forall fuel,
       (n <= fuel)%nat ->
       sliced fuel symbol side total_qty tp_price sl_price w
       = (Some (Return text), w')) /\
  (forall fuel out w' evs ids e,
     sliced fuel symbol side total_qty tp_price sl_price w = (out, w') ->
     log w' = (log w ++ evs)%list ->
     outcomes evs = (map Return ids ++ [Raise e])%list ->
     out = Some (Return ("CRITICAL FAILURE: " ++ e))).
Proof.
  split; [| split].
  - intro fuel.
    destruct (machine_sliced_result fuel)
      as (out & w' & evs & ids & Hrun & _ & Hcases).
    exists w'. rewrite Hrun.
    destruct Hcases as [[_ [-> | [text ->]]] | (e & _ & ->)];
      [now left | right; now exists text | right; now eexists].
  - exact machine_sliced_ends_when_exact.
  - intros fuel out w' evs ids e Hrun Hlog Hout.
    destruct (machine_sliced_result fuel)
      as (out' & w'' & evs' & ids' & Hrun' & Hlog' & Hcases).
    rewrite Hrun in Hrun'. injection Hrun' as <- <-.
    rewrite Hlog in Hlog'. apply app_inv_head in Hlog'. subst evs.
    cbn [outcomes] in Hout. rewrite Hout in Hcases.
    destruct Hcases as [[Hall _] | (e' & Hsame & ->)].
    + exfalso. apply (placed_all_but_raise ids e).
      rewrite Hall. apply placed_returns.
    + apply app_inj_tail in Hsame. destruct Hsame as [_ Heq].
      now injection Heq as ->.
Qed.

Section Instrument.

Variables (first : Instrument) (rest : list Instrument) (s1 : Session).
Variables max_order_qty min_order_qty : Q.

Hypothesis lookup_ok :
  get_instruments_info "linear" symbol (sess w) = (Return (first :: rest), s1).
Hypothesis max_ok : maxOrderQty first = Return max_order_qty.
Hypothesis min_ok : minOrderQty first = Return min_order_qty.

(** C1, as amended.  As soon as a slice's submission raises, no further
    slice is attempted and the whole result is the text
    ["CRITICAL FAILURE: "] followed by the error.  In any arithmetic, for a
    positive total at least the minimum and after any number of iterations:
    a call that is still running has had every submission accepted; a call
    that has ended had every submission before the last one accepted, and
    its result is the report with one entry per slice when the last one was
    accepted too, the failure text when it raised.  With a subtraction that
    does not round and a positive maximum the call ends, within
    [ceil(total / maximum)] iterations. *)
Theorem sliced_stops_at_failed_slice :
  min_order_qty <= total_qty -> 0 < total_qty ->
  (forall fuel,
     exists out w' evs ids,
       sliced fuel symbol side total_qty tp_price sl_price w = (out, w') /\
       log w' = (log w ++ evs)%list /\
       match out with
       | None =>
           outcomes evs = map Return ids /\ List.length ids = fuel
       | Some r =>
           exists reply,
             outcomes evs = (map Return ids ++ [reply])%list /\
             List.length (submissions evs) = S (List.length ids) /\
             match reply with
             | Return _ =>
                 exists entries,
                   List.length entries = S (List.length ids) /\
                   r = Return (success_report str_float symbol total_qty
                                 entries)
             | Raise e =>
                 r = Return ("CRITICAL FAILURE: " ++ e) /\
                 exists evs0 req,
                   evs = (evs0 ++ [PlaceOrder req (Raise e)])%list
             end
       end) /\
  ((forall x y, minus x y = x - y) -> 0 < max_order_qty ->
   exists text w',
     forall fuel,
       (Z.to_nat (Qceiling (total_qty / max_order_qty)) <= fuel)%nat ->
       sliced fuel symbol side total_qty tp_price sl_price w
       = (Some (Return text), w')).
Proof.
  intros Hmin Htotal. split.
  - intro fuel.
    destruct (machine_sliced_trace Session get_instruments_info place_order
                str_float minus symbol side tp_price sl_price total_qty w
                first rest s1 max_order_qty min_order_qty lookup_ok max_ok
                min_ok fuel Hmin Htotal)
      as (out & w' & filled & Hrun & _ & Hout).
    destruct (paused_orders_trace symbol side tp_price sl_price filled)
      as (Hsub & Hans & _ & _).
    exists out, w'. destruct out as [r |].
    + destruct Hout as (q & reply & _ & Hlog & ->).
      eexists _, (map snd filled). split; [exact Hrun |].
      split; [exact Hlog |]. exists reply.
      cbn [outcomes submissions].
      rewrite outcomes_app, submissions_app, Hans, Hsub.
      cbn [outcomes submissions].
      split; [reflexivity |].
      split; [rewrite length_app, !length_map; cbn; lia |].
      destruct reply as [order_id | e].
      * eexists. split; [| reflexivity].
        unfold filled_entries.
        rewrite length_app, !length_map. cbn. lia.
      * split; [reflexivity |]. eexists (_ :: _ :: _), _. reflexivity.
    + destruct Hout as [Hlen Hlog].
      eexists _, (map snd filled). split; [exact Hrun |].
      split; [exact Hlog |]. cbn [outcomes].
      split; [exact Hans | now rewrite length_map].
  - intros Hexact Hmax.
    destruct (sliced_run Session get_instruments_info place_order str_float
                symbol side tp_price sl_price total_qty w first rest s1
                max_order_qty min_order_qty lookup_ok max_ok min_ok Hmin
                Htotal Hmax)
      as (text & w' & evs & k & last & ids & reply & Hfin & _).
    exists text, w'. intros fuel Hfuel.
    pose proof (machine_sliced_exact Session get_instruments_info place_order
                  str_float minus Hexact fuel symbol side total_qty tp_price
                  sl_price w) as Hsame.
    now rewrite (Hfin fuel Hfuel) in Hsame.
Qed.

End Instrument.

End MachineAlways.

(** * The further properties at concrete inputs *)

Lemma sliced_failure_leaves_remainder_witness :
  (1 <= 25 /\ 0 < 25 /\ 0 < 10) /\
  exists text w' last,
    run_sliced 3 "BTCUSDT" "Buy" 25 "70000" "65000" second_fails
    = Some (Return text, w') /\
    outcomes (log w') = [Return "a"; Raise "boom"] /\
    slice_qtys (submissions (log w')) = [10; last] /\
    0 < last /\
    inject_Z 1 * 10 < 25.
Proof.
  assert (H1 : 1 <= 25) by (unfold Qle; simpl; lia).
  assert (H2 : 0 < 25) by reflexivity.
  assert (H3 : 0 < 10) by reflexivity.
  split; [now repeat split |].
  destruct (sliced_failure_leaves_remainder Script
              scripted_get_instruments_info scripted_place_order show_float
              "BTCUSDT" "Buy" "70000" "65000" 25 (mkWorld second_fails [])
              btc [] second_fails 10 1 eq_refl eq_refl eq_refl H1 H2 H3)
    as (text & w' & evs & Hfin & Hlog & Hraise).
  specialize (Hfin 3%nat (Nat.le_refl 3)). cbv beta in Hfin.
  cbn [log app] in Hlog. rewrite <- Hlog in Hraise.
  assert (Hout : outcomes (log w') = [Return "a"; Raise "boom"]).
  { pose proof Hfin as Hc. vm_compute in Hc. injection Hc as _ <-.
    reflexivity. }
  destruct (Hraise ["a"] "boom" Hout) as (last & Hslices & Hlast & Hless).
  exists text, w', last. repeat split; auto.
Defined.

Lemma sliced_single_order_within_maximum_witness :
  (1 <= 10 /\ 0 < 10 /\ 10 <= 10) /\
  run_sliced 1 "BTCUSDT" "Buy" 10 "70000" "65000" accepting
  = Some (Return (success_report show_float "BTCUSDT" 10
                    [slice_entry show_float 10 "a"]),
          mkWorld (mkScript (Return [btc]) [Return "b"; Return "c"])
            [GetInstrumentsInfo "linear" "BTCUSDT";
             Stdout ("Executing total Buy order for " ++ show_float 10
                     ++ " BTCUSDT. Max per order: " ++ show_float 10);
             PlaceOrder (btc_slice 10) (Return "a")]).
Proof.
  assert (H1 : 1 <= 10) by (unfold Qle; simpl; lia).
  assert (H2 : 0 < 10) by reflexivity.
  assert (H3 : 10 <= 10) by (unfold Qle; simpl; lia).
  split; [now repeat split |].
  exact (sliced_single_order_within_maximum Script
           scripted_get_instruments_info scripted_place_order show_float
           "BTCUSDT" "Buy" "70000" "65000" 10 (mkWorld accepting [])
           btc [] accepting 10 1 eq_refl eq_refl eq_refl
           (Return "a") (mkScript (Return [btc]) [Return "b"; Return "c"])
           H1 H2 H3 eq_refl 1%nat (Nat.le_refl 1)).
Defined.

Lemma sliced_fails_before_loop_witness :
  run_sliced 3 "BTCUSDT" "Buy" 25 "70000" "65000" unreachable
  = Some (Return "CRITICAL FAILURE: timed out",
          mkWorld unreachable [GetInstrumentsInfo "linear" "BTCUSDT"]).
Proof.
  exact (sliced_fails_before_loop Script scripted_get_instruments_info
           scripted_place_order show_float "BTCUSDT" "Buy" "70000" "65000"
           25 (mkWorld unreachable []) btc [] unreachable "timed out"
           (or_introl eq_refl) 3%nat).
Defined.

Lemma sliced_nonpositive_maximum_never_succeeds_witness :
  (1 <= 5 /\ 0 < 5 /\ 0 <= 0) /\
  exists e w',
    run_sliced 2 "BTCUSDT" "Buy" 5 "70000" "65000" zero_limit
    = Some (Return ("CRITICAL FAILURE: " ++ e), w') /\
    Forall (fun req => qty req = QtyFloat 0) (submissions (log w')) /\
    List.length (submissions (log w')) = 2%nat.
Proof.
  assert (H1 : 1 <= 5) by (unfold Qle; simpl; lia).
  assert (H2 : 0 < 5) by reflexivity.
  assert (H3 : 0 <= 0) by (unfold Qle; simpl; lia).
  split; [now repeat split |].
  assert (Hrun : exists r w',
             run_sliced 2 "BTCUSDT" "Buy" 5 "70000" "65000" zero_limit
             = Some (r, w') /\
             List.length (submissions (log w')) = 2%nat).
  { eexists _, _. split; vm_compute; reflexivity. }
  destruct Hrun as (r & w' & Hrun & Hcount).
  destruct (sliced_nonpositive_maximum_never_succeeds Script
              scripted_get_instruments_info scripted_place_order show_float
              "BTCUSDT" "Buy" "70000" "65000" 5 (mkWorld zero_limit [])
              (mkInstrument "Trading" (Return 0) (Return 1)) [] zero_limit
              0 1 eq_refl eq_refl eq_refl H1 H2 H3 2%nat r w' Hrun)
    as (e & evs & -> & Hlog & Hall & _).
  exists e, w'. split; [exact Hrun |]. split; [| exact Hcount].
  cbn [log app] in Hlog. now rewrite Hlog.
Defined.

Lemma place_market_order_success_text_witness :
  exists text w',
    run_market "BTCUSDT" "Buy" "0.5" "70000" "65000" "linear" accepting
    = Some (Return text, w') /\
    String.prefix "Success!" text = true /\
    text = "Success! Buy 0.5 BTCUSDT. Order ID: a".
Proof.
  destruct (place_market_order_success_text Script
              scripted_get_instruments_info scripted_place_order
              "BTCUSDT" "Buy" "0.5" "70000" "65000" "linear"
              (mkWorld accepting []))
    as (text & w' & evs & Hrun & Hlog & Hiff & Htext).
  cbn [log app] in Hlog. rewrite <- Hlog in Hiff, Htext.
  assert (Hout : outcomes (log w') = [Return "a"]).
  { pose proof Hrun as Hc. vm_compute in Hc. injection Hc as _ <-.
    reflexivity. }
  exists text, w'. split; [exact Hrun |]. split.
  - apply Hiff. now exists "a".
  - exact (Htext "a" Hout).
Defined.

Lemma execute_multiple_orders_splits_witness :
  exists text w2,
    run_multiple ([btc_order] ++ [eth_order]) second_fails
    = Some (Return text, w2) /\
    text = "Success: BTCUSDT OrderID: a" ++ nl
           ++ "Failed: ETHUSDT Error: boom".
Proof.
  eexists _, _. split.
  - eapply (execute_multiple_orders_splits Script scripted_place_order
              [btc_order] [eth_order] (mkWorld second_fails []));
      vm_compute; reflexivity.
  - reflexivity.
Defined.

Lemma execute_multiple_orders_missing_symbol_witness :
  (Forall2 has_fields [btc_order] [mkOrderFields "BTCUSDT" "Buy" "0.01"] /\
   ~ In "symbol" (map fst no_symbol_order)) /\
  exists w',
    run_multiple ([btc_order] ++ no_symbol_order :: [eth_order]) second_fails
    = Some (Raise "'symbol'", w') /\
    outcomes (log w') = [Return "a"].
Proof.
  assert (Hpre : Forall2 has_fields [btc_order]
                   [mkOrderFields "BTCUSDT" "Buy" "0.01"])
    by (repeat constructor).
  assert (Hbad : ~ In "symbol" (map fst no_symbol_order)).
  { intros [H | [H | []]]; discriminate H. }
  split; [now split |].
  destruct (execute_multiple_orders_missing_symbol Script
              scripted_place_order [btc_order]
              [mkOrderFields "BTCUSDT" "Buy" "0.01"] no_symbol_order
              [eth_order] (mkWorld second_fails []) Hpre Hbad)
    as (w' & replies & _ & Hrun & _).
  exists w'. split; [exact Hrun |].
  vm_compute in Hrun. injection Hrun as <-. reflexivity.
Defined.

Lemma execute_multiple_orders_skips_incomplete_witness :
  (Forall2 has_fields [btc_order] [mkOrderFields "BTCUSDT" "Buy" "0.01"] /\
   Forall2 has_fields [eth_order] [mkOrderFields "ETHUSDT" "Sell" "0.5"] /\
   dict_get no_side_order "symbol" = Return "SOLUSDT" /\
   dict_get no_side_order "side" = Raise "'side'") /\
  exists text w',
    run_multiple ([btc_order] ++ no_side_order :: [eth_order]) second_fails
    = Some (Return text, w') /\
    text = "Success: BTCUSDT OrderID: a" ++ nl
           ++ "Failed: SOLUSDT Error: 'side'" ++ nl
           ++ "Failed: ETHUSDT Error: boom" /\
    List.length (submissions (log w')) = 2%nat.
Proof.
  assert (Hpre : Forall2 has_fields [btc_order]
                   [mkOrderFields "BTCUSDT" "Buy" "0.01"])
    by (repeat constructor).
  assert (Hpost : Forall2 has_fields [eth_order]
                    [mkOrderFields "ETHUSDT" "Sell" "0.5"])
    by (repeat constructor).
  split; [now repeat split |].
  destruct (execute_multiple_orders_skips_incomplete Script
              scripted_place_order [btc_order]
              [mkOrderFields "BTCUSDT" "Buy" "0.01"] no_side_order
              "SOLUSDT" "'side'" [eth_order]
              [mkOrderFields "ETHUSDT" "Sell" "0.5"]
              (mkWorld second_fails []) Hpre Hpost eq_refl
              (or_introl eq_refl))
    as (w' & replies1 & replies2 & _ & _ & Hrun & _).
  assert (Hc : exists w0,
             run_multiple ([btc_order] ++ no_side_order :: [eth_order])
               second_fails
             = Some (Return ("Success: BTCUSDT OrderID: a" ++ nl
                             ++ "Failed: SOLUSDT Error: 'side'" ++ nl
                             ++ "Failed: ETHUSDT Error: boom"), w0) /\
             List.length (submissions (log w0)) = 2%nat).
  { eexists. split; vm_compute; reflexivity. }
  destruct Hc as (w0 & Hc & Hsub).
  unfold run_multiple in Hc. rewrite Hc in Hrun.
  injection Hrun as Htext Hw.
  eexists _, w'. split; [rewrite <- Hw; exact Hc |].
  split; [reflexivity | now rewrite <- Hw].
Defined.

Lemma query_tools_never_raise_witness :
  check_wallet_balance unit
    (fun accountType coin => answer (Raise "timed out"))
    subscript_error show_container "USDT" tt
  = (Return "Error fetching balance: timed out", tt).
Proof.
  destruct (proj1 (proj2 (query_tools_never_raise unit
                            (fun accountType coin => answer (Raise "timed out"))
                            (fun category symbol => answer (Raise "timed out"))
                            (answer (Raise "timed out"))
                            subscript_error show_container))
              "USDT" tt)
    as (text & Hrun & Herror).
  rewrite Hrun. now rewrite (Herror "timed out" eq_refl).
Defined.

Lemma check_wallet_balance_first_entry_witness :
  check_wallet_balance unit
    (fun accountType coin => answer (Return wallet_response))
    subscript_error show_container "USDT" tt
  = (Return "Current USDT Balance: 1000.5", tt).
Proof.
  exact (check_wallet_balance_first_entry unit
           (fun accountType coin => answer (Return wallet_response))
           subscript_error show_container "USDT" tt tt
           _ _ _ _ _ _ (PStr "1000.5")
           eq_refl eq_refl eq_refl eq_refl eq_refl).
Defined.

Lemma check_wallet_balance_nothing_to_read_witness :
  check_wallet_balance unit
    (fun accountType coin => answer (Return empty_wallet_response))
    subscript_error show_container "USDT" tt
  = (Return "Error fetching balance: list index out of range", tt).
Proof.
  exact (proj1 (check_wallet_balance_nothing_to_read unit
                  (fun accountType coin => answer (Return empty_wallet_response))
                  subscript_error show_container "USDT" tt tt
                  _ _ eq_refl eq_refl) eq_refl).
Defined.

Lemma fetch_ticker_price_first_entry_witness :
  fetch_ticker_price unit
    (fun category symbol => answer (Return ticker_response))
    subscript_error show_container "BTCUSDT" "linear" tt
  = (Return "Current price of BTCUSDT: 64000.1", tt).
Proof.
  exact (proj1 (fetch_ticker_price_first_entry unit
                  (fun category symbol => answer (Return ticker_response))
                  subscript_error show_container "BTCUSDT" "linear" tt tt
                  _ _ eq_refl eq_refl)
           _ _ (PStr "64000.1") eq_refl eq_refl).
Defined.

Lemma indicators_never_raise_witness :
  calculate_technical_indicators unit (klines (Raise "timed out"))
    "single positional indexer is out-of-bounds" "BTCUSDT" tt
  = (Return (IndicatorsError "timed out"), tt).
Proof.
  destruct (indicators_never_raise unit (klines (Raise "timed out"))
              "single positional indexer is out-of-bounds" "BTCUSDT" tt)
    as (report & Hrun & Hraise & _).
  rewrite Hrun, (Hraise "timed out" eq_refl). reflexivity.
Defined.

Lemma indicators_price_is_newest_witness :
  exists rsi m sg h,
    calculate_technical_indicators unit
      (klines (Return (candles [3; 2; 1])))
      "single positional indexer is out-of-bounds" "BTCUSDT" tt
    = (Return (IndicatorsSuccess "BTCUSDT" 3 rsi m sg h), tt).
Proof.
  destruct (indicators_price_is_newest unit
              (klines (Return (candles [3; 2; 1])))
              "single positional indexer is out-of-bounds" "BTCUSDT" tt tt
              (mkCandle "0" "0" "0" "0" (Return 3) "0" "0")
              (candles [2; 1]) [3; 2; 1] eq_refl eq_refl)
    as (price & rsi & m & sg & h & Hprice & Hrun).
  injection Hprice as <-. now exists rsi, m, sg, h.
Defined.

Lemma indicators_rsi_in_range_witness :
  exists price rsi m sg h,
    calculate_technical_indicators unit
      (klines (Return (candles (count_down 15))))
      "single positional indexer is out-of-bounds" "BTCUSDT" tt
    = (Return (IndicatorsSuccess "BTCUSDT" price rsi m sg h), tt) /\
    (rsi = NaN \/ exists r, rsi = Fin r /\ 0 <= r /\ r <= 100).
Proof.
  assert (Hrun : exists price rsi m sg h,
             calculate_technical_indicators unit
               (klines (Return (candles (count_down 15))))
               "single positional indexer is out-of-bounds" "BTCUSDT" tt
             = (Return (IndicatorsSuccess "BTCUSDT" price rsi m sg h), tt)).
  { vm_compute. now eexists _, _, _, _, _. }
  destruct Hrun as (price & rsi & m & sg & h & Hrun).
  exists price, rsi, m, sg, h. split; [exact Hrun |].
  exact (indicators_rsi_in_range unit _ _ _ _ _ _ _ _ _ _ Hrun).
Defined.

Lemma indicators_rsi_needs_fourteen_rows_witness :
  exists price m sg h,
    calculate_technical_indicators unit
      (klines (Return (candles [3; 2; 1])))
      "single positional indexer is out-of-bounds" "BTCUSDT" tt
    = (Return (IndicatorsSuccess "BTCUSDT" price NaN m sg h), tt).
Proof.
  apply (indicators_rsi_needs_fourteen_rows unit
           (klines (Return (candles [3; 2; 1])))
           "single positional indexer is out-of-bounds" "BTCUSDT" tt tt
           (candles [3; 2; 1]) [3; 2; 1] eq_refl eq_refl).
  cbn. lia.
Defined.

Lemma indicators_flat_market_witness :
  exists m sg h,
    calculate_technical_indicators unit
      (klines (Return (candles (repeat 5 14))))
      "single positional indexer is out-of-bounds" "BTCUSDT" tt
    = (Return (IndicatorsSuccess "BTCUSDT" 5 NaN m sg h), tt) /\
    m == 0 /\ sg == 0 /\ h == 0.
Proof.
  apply (indicators_flat_market unit
           (klines (Return (candles (repeat 5 14))))
           "single positional indexer is out-of-bounds" "BTCUSDT" tt tt
           (candles (repeat 5 14)) 5 14%nat eq_refl eq_refl).
  lia.
Defined.

Lemma indicators_steady_trend_witness :
  (exists price r m sg h,
     calculate_technical_indicators unit
       (klines (Return (candles (count_down 15))))
       "single positional indexer is out-of-bounds" "BTCUSDT" tt
     = (Return (IndicatorsSuccess "BTCUSDT" price (Fin r) m sg h), tt) /\
     r == 100) /\
  (exists price r m sg h,
     calculate_technical_indicators unit
       (klines (Return (candles (count_up 15))))
       "single positional indexer is out-of-bounds" "BTCUSDT" tt
     = (Return (IndicatorsSuccess "BTCUSDT" price (Fin r) m sg h), tt) /\
     r == 0).
Proof.
  split.
  - apply (proj1 (indicators_steady_trend unit
                    (klines (Return (candles (count_down 15))))
                    "single positional indexer is out-of-bounds" "BTCUSDT"
                    tt tt (candles (count_down 15)) (count_down 15)
                    eq_refl eq_refl ltac:(cbn; lia))).
    vm_compute. repeat split; reflexivity.
  - apply (proj2 (indicators_steady_trend unit
                    (klines (Return (candles (count_up 15))))
                    "single positional indexer is out-of-bounds" "BTCUSDT"
                    tt tt (candles (count_up 15)) (count_up 15)
                    eq_refl eq_refl ltac:(cbn; lia))).
    vm_compute. repeat split; reflexivity.
Defined.

Lemma slices_within_bounds_witness :
  0 < binary64 (1 # 10) /\
  exists out w' evs,
    run_binary64 8 "BTCUSDT" "Buy" (binary64 (7 # 10)) "70000" "65000"
      tenth_lots
    = (out, w') /\
    log w' = ([] ++ evs)%list /\
    Forall (fun q => 0 < q /\ q <= binary64 (1 # 10))
      (slice_qtys (submissions evs)).
Proof.
  assert (Hmax : 0 < binary64 (1 # 10)) by (vm_compute; reflexivity).
  split; [exact Hmax |].
  exact (slices_within_bounds Script scripted_get_instruments_info
           scripted_place_order show_float binary64_minus "BTCUSDT" "Buy"
           "70000" "65000" (binary64 (7 # 10)) (mkWorld tenth_lots [])
           _ [] tenth_lots (binary64 (1 # 10)) 8%nat eq_refl eq_refl Hmax).
Defined.

Lemma status_checked_only_by_single_shot_witness :
  "Closed" <> "Trading" /\
  (exists w1,
     run_market "BTCUSDT" "Buy" "25" "70000" "65000" "linear" closed_market
     = Some (Return "Error: BTCUSDT exists but is currently Closed.", w1) /\
     submissions (log w1) = []) /\
  exists out w' reply evs,
    run_binary64 3 "BTCUSDT" "Buy" 25 "70000" "65000" closed_market
    = (out, w') /\
    log w'
    = GetInstrumentsInfo "linear" "BTCUSDT"
      :: Stdout "Executing total Buy order for 25.0 BTCUSDT. Max per order: 10.0"
      :: PlaceOrder (btc_slice 10) reply :: evs.
Proof.
  assert (Hclosed : "Closed" <> "Trading") by discriminate.
  split; [exact Hclosed |].
  destruct (status_checked_only_by_single_shot Script
              scripted_get_instruments_info scripted_place_order show_float
              binary64_minus "BTCUSDT" "Buy" "70000" "65000" 25
              (mkWorld closed_market []) "25" "linear" halted []
              closed_market eq_refl)
    as (Hmarket & _ & Hsliced).
  split.
  - destruct (Hmarket Hclosed) as (w1 & Hrun & _ & Hsub).
    exists w1. split; [exact Hrun | exact Hsub].
  - apply (Hsliced 10 1 2%nat eq_refl eq_refl);
      [unfold Qle; simpl; lia | reflexivity].
Defined.

Lemma sliced_pauses_between_slices_witness :
  (1 <= 25 /\ 0 < 25) /\
  exists out w' evs filled,
    run_binary64 3 "BTCUSDT" "Buy" 25 "70000" "65000" accepting = (out, w') /\
    log w' = ([] ++ evs)%list /\
    match out with
    | Some _ =>
        sleeps evs = repeat (1 # 10) (List.length (submissions evs) - 1) /\
        exists q reply,
          evs = (GetInstrumentsInfo "linear" "BTCUSDT"
                 :: Stdout "Executing total Buy order for 25.0 BTCUSDT. Max per order: 10.0"
                 :: paused_orders "BTCUSDT" "Buy" "70000" "65000" filled
                 ++ [PlaceOrder (btc_slice q) reply])%list
    | None =>
        sleeps evs = repeat (1 # 10) (List.length (submissions evs)) /\
        List.length (submissions evs) = 3%nat /\
        evs = (GetInstrumentsInfo "linear" "BTCUSDT"
               :: Stdout "Executing total Buy order for 25.0 BTCUSDT. Max per order: 10.0"
               :: paused_orders "BTCUSDT" "Buy" "70000" "65000" filled)%list
    end.
Proof.
  assert (Hmin : 1 <= 25) by (unfold Qle; simpl; lia).
  assert (Htotal : 0 < 25) by reflexivity.
  split; [now split |].
  exact (sliced_pauses_between_slices Script scripted_get_instruments_info
           scripted_place_order show_float binary64_minus "BTCUSDT" "Buy"
           "70000" "65000" 25 (mkWorld accepting []) btc [] accepting 10 1
           eq_refl eq_refl eq_refl 3%nat Hmin Htotal).
Defined.

Lemma sliced_report_lists_slices_witness :
  1 <= 25 /\
  exists w' evs,
    run_binary64 3 "BTCUSDT" "Buy" 25 "70000" "65000" accepting
    = (Some (Return ("SUCCESS: Fully executed 25.0 BTCUSDT in 3 slices:"
                     ++ nl ++ "10.0 units (ID: a)"
                     ++ nl ++ "10.0 units (ID: b)"
                     ++ nl ++ "5.0 units (ID: c)")), w') /\
    log w' = ([] ++ evs)%list /\
    Forall placed (outcomes evs) /\
    slice_qtys (submissions evs) = [10; 10; 5].
Proof.
  assert (Hmin : 1 <= 25) by (unfold Qle; simpl; lia).
  split; [exact Hmin |].
  destruct (sliced_report_lists_slices Script scripted_get_instruments_info
              scripted_place_order show_float binary64_minus "BTCUSDT" "Buy"
              "70000" "65000" 25 (mkWorld accepting []) btc [] accepting 10 1
              eq_refl eq_refl eq_refl 3%nat Hmin)
    as (out & w' & evs & Hrun & Hlog & Hout).
  assert (Hc : run_binary64 3 "BTCUSDT" "Buy" 25 "70000" "65000" accepting
               = (Some (Return ("SUCCESS: Fully executed 25.0 BTCUSDT in 3 slices:"
                                ++ nl ++ "10.0 units (ID: a)"
                                ++ nl ++ "10.0 units (ID: b)"
                                ++ nl ++ "5.0 units (ID: c)")),
                  mkWorld (mkScript (Return [btc]) [])
                    [GetInstrumentsInfo "linear" "BTCUSDT";
                     Stdout "Executing total Buy order for 25.0 BTCUSDT. Max per order: 10.0";
                     PlaceOrder (btc_slice 10) (Return "a"); Sleep (1 # 10);
                     PlaceOrder (btc_slice 10) (Return "b"); Sleep (1 # 10);
                     PlaceOrder (btc_slice 5) (Return "c")]))
    by (vm_compute; reflexivity).
  unfold run_binary64 in Hc. rewrite Hc in Hrun.
  injection Hrun as <- <-. cbn [log app] in Hlog. subst evs.
  eexists _, _. split; [exact Hc |]. split; [reflexivity |].
  split; [apply (proj1 Hout); reflexivity | reflexivity].
Defined.

Lemma sliced_absorbed_slice_never_ends_witness :
  (1 <= 10000000000000000 /\ 0 < 10000000000000000 /\
   binary64_minus 10000000000000000 (py_min 10000000000000000 1)
   = 10000000000000000) /\
  exists w' line evs,
    Machine.advanced_sliced_executor unit unit_lots accept_all show_float
      binary64_minus 1000 "BTCUSDT" "Buy" 10000000000000000 "70000" "65000"
      (mkWorld tt [])
    = (None, w') /\
    log w'
    = (GetInstrumentsInfo "linear" "BTCUSDT" :: Stdout line :: evs)%list /\
    submissions evs = repeat (btc_slice 1) 1000 /\
    Forall placed (outcomes evs).
Proof.
  assert (Hmin : 1 <= 10000000000000000) by (unfold Qle; simpl; lia).
  assert (Htotal : 0 < 10000000000000000) by reflexivity.
  assert (Habsorbed :
            binary64_minus 10000000000000000 (py_min 10000000000000000 1)
            = 10000000000000000) by (vm_compute; reflexivity).
  split; [now repeat split |].
  destruct (sliced_absorbed_slice_never_ends unit unit_lots accept_all
              show_float binary64_minus "BTCUSDT" "Buy" "70000" "65000"
              10000000000000000 (mkWorld tt [])
              (mkInstrument "Trading" (Return 1) (Return 1)) [] tt 1 1
              eq_refl eq_refl eq_refl 1000%nat Hmin Htotal Habsorbed)
    as (w' & evs & Hrun & Hlog & Hsub & Hall).
  { intros req s. now exists "ok", s. }
  exists w'. eexists _, evs. split; [exact Hrun |].
  split; [exact Hlog | split; [exact Hsub | exact Hall]].
Defined.

Lemma sliced_stops_at_failed_slice_witness :
  (1 <= 25 /\ 0 < 25) /\
  exists w',
    run_binary64 3 "BTCUSDT" "Buy" 25 "70000" "65000" second_fails
    = (Some (Return "CRITICAL FAILURE: boom"), w') /\
    outcomes (log w') = [Return "a"; Raise "boom"] /\
    exists evs0 req, log w' = (evs0 ++ [PlaceOrder req (Raise "boom")])%list.
Proof.
  assert (H1 : 1 <= 25) by (unfold Qle; simpl; lia).
  assert (H2 : 0 < 25) by reflexivity.
  split; [now split |].
  destruct (sliced_stops_at_failed_slice Script scripted_get_instruments_info
              scripted_place_order show_float binary64_minus "BTCUSDT" "Buy"
              "70000" "65000" 25 (mkWorld second_fails []) btc []
              second_fails 10 1 eq_refl eq_refl eq_refl H1 H2)
    as [Hany _].
  destruct (Hany 3%nat) as (out & w' & evs & ids & Hrun & Hlog & Hout).
  pose proof Hrun as Hc. vm_compute in Hc. injection Hc as <- Hw.
  destruct Hout as (reply & Hans & _ & Hreply).
  cbn [log app] in Hlog. subst evs.
  assert (Hlast : outcomes (log w') = ([Return "a"] ++ [Raise "boom"])%list)
    by (rewrite <- Hw; reflexivity).
  rewrite Hlast in Hans. apply app_inj_tail in Hans.
  destruct Hans as [_ <-]. destruct Hreply as [_ Hshape].
  exists w'. split; [exact Hrun |]. split; [exact Hlast | exact Hshape].
Defined.

Lemma sliced_never_raises_witness :
  (exists n text w',
     forall fuel,
       (n <= fuel)%nat ->
       Machine.advanced_sliced_executor Script scripted_get_instruments_info
         scripted_place_order show_float Qminus fuel "BTCUSDT" "Buy" 25
         "70000" "65000" (mkWorld second_fails [])
       = (Some (Return text), w')) /\
  (forall out w',
     Machine.advanced_sliced_executor Script scripted_get_instruments_info
       scripted_place_order show_float Qminus 3 "BTCUSDT" "Buy" 25
       "70000" "65000" (mkWorld second_fails [])
     = (out, w') ->
     out = Some (Return "CRITICAL FAILURE: boom")).
Proof.
  destruct (sliced_never_raises Script scripted_get_instruments_info
              scripted_place_order show_float Qminus "BTCUSDT" "Buy"
              "70000" "65000" 25 (mkWorld second_fails []))
    as (_ & Hends & Hraise).
  split.
  - apply Hends; [reflexivity |].
    intros first rest s1 mx Hlookup Hmx.
    injection Hlookup as <- _ _. injection Hmx as <-. reflexivity.
  - intros out w' Hrun. pose proof Hrun as Hc.
    vm_compute in Hc. injection Hc as _ Hw.
    apply (Hraise 3%nat out w' (log w') ["a"] "boom" Hrun).
    + reflexivity.
    + rewrite <- Hw. reflexivity.
Defined.

(** ** binary64 at concrete inputs *)

(** Rounding makes an extra slice.  In binary64, 0.7 against a maximum of
    0.1 with every order accepted takes eight iterations, not
    [ceil(0.7 / 0.1) = 7]: seven slices of 0.1 and an eighth of [2 ^ -55],
    which together exceed the total. *)
Remark sliced_binary64_extra_slice :
  exists text w',
    run_binary64 8 "BTCUSDT" "Buy" (binary64 (7 # 10)) "70000" "65000"
      tenth_lots
    = (Some (Return text), w') /\
    fst (run_binary64 7 "BTCUSDT" "Buy" (binary64 (7 # 10)) "70000" "65000"
           tenth_lots) = None /\
    Qceiling (binary64 (7 # 10) / binary64 (1 # 10)) = 7%Z /\
    slice_qtys (submissions (log w'))
    = (repeat (binary64 (1 # 10)) 7 ++ [1 # 2 ^ 55])%list /\
    Forall placed (outcomes (log w')) /\
    binary64 (7 # 10) < Qsum (slice_qtys (submissions (log w'))).
Proof.
  eexists _, _. split; [vm_compute; reflexivity |].
  split; [vm_compute; reflexivity |].
  split; [vm_compute; reflexivity |].
  split; [vm_compute; reflexivity |].
  split; [| vm_compute; reflexivity].
  cbn. repeat constructor; eexists; reflexivity.
Qed.

(** Rounding changes the last slice.  In binary64, 0.3 against 0.1 takes
    three iterations, and the third slice is below 0.1. *)
Remark sliced_binary64_short_slice :
  exists text w' last,
    run_binary64 3 "BTCUSDT" "Buy" (binary64 (3 # 10)) "70000" "65000"
      tenth_lots
    = (Some (Return text), w') /\
    slice_qtys (submissions (log w'))
    = [binary64 (1 # 10); binary64 (1 # 10); last] /\
    last < binary64 (1 # 10).
Proof.
  eexists _, _, _. split; [vm_compute; reflexivity |].
  split; vm_compute; reflexivity.
Qed.
